(** * Global Weather MCP server: request/response contract

    A shallow embedding of [src/index.ts]: the three zod argument schemas,
    the request URLs built with [URL]/[URLSearchParams], the upstream check
    ([response.ok], [response.json()]), the three text formatters and the
    [CallToolRequestSchema] handler, followed by the theorems that settle
    the contract of the specification against that code.

    Conventions.
    - A JavaScript string is the [string] of its UTF-8 bytes.
    - A JavaScript number is a binary64 value, Rocq's primitive [float];
      its decimal form [Number_toString] follows ECMAScript's
      Number::toString, and [StringToNumber] follows StringToNumber.
    - A parsed JSON body and the [arguments] of a tool call are [value]s;
      reading a property that is not there gives [Undefined], reading a
      property of [undefined] or [null] throws a [TypeError].
    - A computation is an [outcome]: it returns or it throws.  A
      template [`${v}`] throws for a value that has no string (an object
      with a key [toString] of its own), and a [for] loop whose bound is
      never reached ends with the RangeError of too long a string. *)

From Stdlib Require Import ZArith List String Ascii Bool Lia Floats.
Import ListNotations.
Open Scope string_scope.
Open Scope Z_scope.
Set Warnings "-inexact-float,-register-all".

(** ** Strings *)

Definition LF : string := String (ascii_of_nat 10) EmptyString.
Definition DQUOTE : string := String (ascii_of_nat 34) EmptyString.

Definition ord (c : ascii) : Z := Z.of_N (N_of_ascii c).
Definition chr (z : Z) : ascii := ascii_of_N (Z.to_N z).

Definition join (sep : string) (parts : list string) : string :=
  String.concat sep parts.

Fixpoint starts_with (p s : string) : bool :=
  match p, s with
  | EmptyString, _ => true
  | String a p', String b s' => Ascii.eqb a b && starts_with p' s'
  | String _ _, EmptyString => false
  end.

(** Continuation bytes of UTF-8 are [10xxxxxx]; a character of the
    supplementary planes starts with [11110xxx] and takes two UTF-16 code
    units. *)
Definition is_continuation (c : ascii) : bool :=
  (128 <=? ord c) && (ord c <? 192).

Fixpoint utf16_length (s : string) : nat :=
  match s with
  | EmptyString => O
  | String c s' =>
      let units :=
        if is_continuation c then 0%nat
        else if 240 <=? ord c then 2%nat else 1%nat in
      (units + utf16_length s')%nat
  end.

(** The characters (code points) of a string, each as a string. *)
Fixpoint chars_from (cur : string) (s : string) : list string :=
  match s with
  | EmptyString => [cur]
  | String c s' =>
      if is_continuation c then chars_from (cur ++ String c EmptyString) s'
      else cur :: chars_from (String c EmptyString) s'
  end.

Definition code_points (s : string) : list string :=
  match s with
  | EmptyString => []
  | String c s' => chars_from (String c EmptyString) s'
  end.

(** ** Numbers *)

Module JS.

Definition number := float.
Bind Scope float_scope with number.

Definition digit (d : Z) : ascii := chr (48 + d).

(** The lowest [k] decimal digits of [s], the most significant first. *)
Fixpoint digits (k : nat) (s : Z) : string :=
  match k with
  | O => EmptyString
  | S k' => String (digit ((s / 10 ^ Z.of_nat k') mod 10)) (digits k' s)
  end.

Fixpoint count_digits (fuel : nat) (z : Z) : nat :=
  match fuel with
  | O => 1%nat
  | S fuel' => if z <? 10 then 1%nat else S (count_digits fuel' (z / 10))
  end.

(** The decimal form of a natural number. *)
Definition dec (z : Z) : string :=
  digits (count_digits (Z.to_nat (Z.log2 z)) z) z.

(** 𝔽(p/d), the binary64 value nearest to a positive fraction, ties to
    even: a quotient of at least 55 bits and the position of the
    remainder, rounded by the Standard Library's [binary_round_aux]. *)
Definition round_ratio (neg : bool) (p d : Z) : spec_float :=
  let sh := Z.max 0 (SpecFloat.Zdigits2 d - SpecFloat.Zdigits2 p + 55) in
  let a := p * 2 ^ sh in
  let q := a / d in
  let r := a mod d in
  let loc := if r =? 0 then loc_Exact else loc_Inexact (2 * r ?= d) in
  binary_round_aux prec emax neg q (- sh) loc.

(** 𝔽(± s × 10^q) *)
Definition round_decimal (neg : bool) (s q : Z) : spec_float :=
  if s =? 0 then S754_zero neg
  else if 0 <=? q then round_ratio neg (s * 10 ^ q) 1
  else round_ratio neg s (10 ^ (- q)).

(** The value [m × 2^e] of a finite number, as a fraction. *)
Definition fraction (m : positive) (e : Z) : Z * Z :=
  if 0 <=? e then (Zpos m * 2 ^ e, 1) else (Zpos m, 2 ^ (- e)).

(** [v < 10^n] *)
Definition below_pow10 (v : Z * Z) (n : Z) : bool :=
  let (N, D) := v in
  if 0 <=? n then N <? D * 10 ^ n else N * 10 ^ (- n) <? D.

Fixpoint find_exponent (fuel : nat) (v : Z * Z) (n : Z) : Z :=
  match fuel with
  | O => n
  | S fuel' => if below_pow10 v n then n else find_exponent fuel' v (n + 1)
  end.

(** The [n] with [10^(n-1) <= m × 2^e < 10^n]: the least [n] with
    [m × 2^e < 10^n], searched upwards from just below the estimate
    [(bits - 1) × log10 2] (from -330, below every binary64 value, should
    the estimate be too high). *)
Definition decimal_exponent (m : positive) (e : Z) : Z :=
  let v := fraction m e in
  let bits := Zpos (digits2_pos m) + e in
  let estimate := Z.max (-330) ((bits - 1) * 30103 / 100000 - 1) in
  find_exponent 640 v (if below_pow10 v (estimate - 1) then -330 else estimate).

(** [floor (v / 10^q)] *)
Definition scaled_floor (v : Z * Z) (q : Z) : Z :=
  let (N, D) := v in
  if 0 <=? q then N / (D * 10 ^ q) else (N * 10 ^ (- q)) / D.

(** [2 v] compared with [(2 s + 1) × 10^q] : is [v] nearer to
    [s × 10^q] or to [(s + 1) × 10^q]? *)
Definition compare_midpoint (v : Z * Z) (s q : Z) : comparison :=
  let (N, D) := v in
  if 0 <=? q then (2 * N ?= (2 * s + 1) * 10 ^ q * D)
  else (2 * N * 10 ^ (- q) ?= (2 * s + 1) * D).

Definition sf_is (a b : spec_float) : bool :=
  match a, b with
  | S754_finite s1 m1 e1, S754_finite s2 m2 e2 =>
      Bool.eqb s1 s2 && Pos.eqb m1 m2 && Z.eqb e1 e2
  | _, _ => false
  end.

(** Number::toString, step 5: [s] has [k] digits and
    𝔽(s × 10^(n-k)) is [x]. *)
Definition fits (x : spec_float) (k : Z) (sn : Z * Z) : bool :=
  let (s, n) := sn in
  (10 ^ (k - 1) <=? s) && (s <? 10 ^ k) && sf_is (round_decimal false s (n - k)) x.

(** For a given digit count [k], the [s] that fits and is nearest to
    [x] (the even one on a tie), if there is one: it is one of the two
    multiples of [10^(n-k)] around [x]. *)
Definition candidate (x : spec_float) (v : Z * Z) (n k : Z) : option (Z * Z) :=
  let lo := scaled_floor v (n - k) in
  let down := (lo, n) in
  let up := if lo + 1 =? 10 ^ k then (10 ^ (k - 1), n + 1) else (lo + 1, n) in
  match fits x k down, fits x k up with
  | true, true =>
      match compare_midpoint v lo (n - k) with
      | Lt => Some down
      | Gt => Some up
      | Eq => if Z.even lo then Some down else Some up
      end
  | true, false => Some down
  | false, true => Some up
  | false, false => None
  end.

(** ... with [k] as small as possible. *)
Fixpoint shortest (fuel : nat) (x : spec_float) (v : Z * Z) (n k : Z)
  : option (Z * Z * Z) :=
  match fuel with
  | O => None
  | S fuel' =>
      match candidate x v n k with
      | Some (s, n') => Some (s, n', k)
      | None => shortest fuel' x v n (k + 1)
      end
  end.

Fixpoint zeros (n : nat) : string :=
  match n with
  | O => EmptyString
  | S n' => String "0" (zeros n')
  end.

(** Number::toString, steps 6 to 10, for the [k] digits of [s]. *)
Definition render (s n k : Z) : string :=
  if (k <=? n) && (n <=? 21) then
    digits (Z.to_nat k) s ++ zeros (Z.to_nat (n - k))
  else if (0 <? n) && (n <=? 21) then
    digits (Z.to_nat n) (s / 10 ^ (k - n)) ++ "." ++ digits (Z.to_nat (k - n)) s
  else if (-6 <? n) && (n <=? 0) then
    "0." ++ zeros (Z.to_nat (- n)) ++ digits (Z.to_nat k) s
  else
    let e := n - 1 in
    let sign := if e <? 0 then "-" else "+" in
    if k =? 1 then digits 1 s ++ "e" ++ sign ++ dec (Z.abs e)
    else digits 1 (s / 10 ^ (k - 1)) ++ "." ++ digits (Z.to_nat (k - 1)) s
         ++ "e" ++ sign ++ dec (Z.abs e).

(** [x.toString()] and [`${x}`] for a number [x]. *)
Definition Number_toString (x : number) : string :=
  match Prim2SF x with
  | S754_nan => "NaN"
  | S754_zero _ => "0"
  | S754_infinity neg => if neg then "-Infinity" else "Infinity"
  | S754_finite neg m e =>
      match shortest 800 (S754_finite false m e) (fraction m e)
                     (decimal_exponent m e) 1 with
      | Some (s, n, k) => (if neg then "-" else "") ++ render s n k
      | None => "NaN"
      end
  end.

(** *** StringToNumber *)

Definition bytes (l : list Z) : string :=
  fold_right (fun b s => String (chr b) s) EmptyString l.

(** StrWhiteSpaceChar: TAB, LF, VT, FF, CR, SP, NBSP, U+1680,
    U+2000..U+200A, LS, PS, U+202F, U+205F, U+3000, U+FEFF. *)
Definition white_space : list string :=
  map bytes
    ([[9]; [10]; [11]; [12]; [13]; [32]; [194; 160]; [225; 154; 128]]
     ++ map (fun b => [226; 128; b]) [128; 129; 130; 131; 132; 133; 134; 135; 136; 137; 138]
     ++ [[226; 128; 168]; [226; 128; 169]; [226; 128; 175]; [226; 129; 159];
         [227; 128; 128]; [239; 187; 191]])%list.

Definition is_white_space (ch : string) : bool :=
  existsb (String.eqb ch) white_space.

Fixpoint drop_white_space (l : list string) : list string :=
  match l with
  | ch :: l' => if is_white_space ch then drop_white_space l' else l
  | [] => []
  end.

Definition trim (s : string) : string :=
  join "" (rev (drop_white_space (rev (drop_white_space (code_points s))))).

Definition digit_value (radix : Z) (c : ascii) : option Z :=
  let n := ord c in
  let d := if (48 <=? n) && (n <=? 57) then n - 48
           else if (97 <=? n) && (n <=? 102) then n - 87
           else if (65 <=? n) && (n <=? 70) then n - 55
           else radix in
  if d <? radix then Some d else None.

(** The longest prefix of digits: its value, its length and the rest. *)
Fixpoint read_digits (radix : Z) (s : string) (acc count : Z) : Z * Z * string :=
  match s with
  | String c s' =>
      match digit_value radix c with
      | Some d => read_digits radix s' (radix * acc + d) (count + 1)
      | None => (acc, count, s)
      end
  | EmptyString => (acc, count, s)
  end.

(** ExponentPart, optional: [e] or [E], a sign, digits. *)
Definition read_exponent (s : string) : option (Z * string) :=
  match s with
  | String c s' =>
      if Ascii.eqb c "e" || Ascii.eqb c "E" then
        let '(neg, s'') :=
          match s' with
          | String "-" r => (true, r)
          | String "+" r => (false, r)
          | _ => (false, s')
          end in
        let '(e, n, rest) := read_digits 10 s'' 0 0 in
        if n =? 0 then None else Some (if neg then - e else e, rest)
      else Some (0, s)
  | EmptyString => Some (0, s)
  end.

(** StrUnsignedDecimalLiteral *)
Definition unsigned_decimal (neg : bool) (s : string) : spec_float :=
  if String.eqb s "Infinity" then S754_infinity neg
  else
    let '(ip, ni, r1) := read_digits 10 s 0 0 in
    let '(fp, nf, r2) :=
      match r1 with
      | String "." r => read_digits 10 r 0 0
      | _ => (0, 0, r1)
      end in
    if ni + nf =? 0 then S754_nan
    else
      match read_exponent r2 with
      | Some (e, EmptyString) => round_decimal neg (ip * 10 ^ nf + fp) (e - nf)
      | _ => S754_nan
      end.

Definition non_decimal (radix : Z) (s : string) : spec_float :=
  match read_digits radix s 0 0 with
  | (n, count, EmptyString) =>
      if count =? 0 then S754_nan else round_decimal false n 0
  | _ => S754_nan
  end.

(** ToNumber applied to a string. *)
Definition StringToNumber (str : string) : number :=
  SF2Prim
    match trim str with
    | EmptyString => S754_zero false
    | String "-" s => unsigned_decimal true s
    | String "+" s => unsigned_decimal false s
    | String "0" (String c s) as t =>
        if Ascii.eqb c "x" || Ascii.eqb c "X" then non_decimal 16 s
        else if Ascii.eqb c "o" || Ascii.eqb c "O" then non_decimal 8 s
        else if Ascii.eqb c "b" || Ascii.eqb c "B" then non_decimal 2 s
        else unsigned_decimal false t
    | t => unsigned_decimal false t
    end.

(** How many of [i = 0, 1, 2, ...] a counter [i++] passes while
    [i < x]: the least integer that is not below [x]; there is none when
    [x] is above [2^53], where [i + 1] is [i] again, or infinite. *)
Definition count_below (x : number) : option nat :=
  match Prim2SF x with
  | S754_infinity false => None
  | S754_finite false m e =>
      let (N, D) := fraction m e in
      if 2 ^ 53 * D <? N then None else Some (Z.to_nat ((N + D - 1) / D))
  | _ => Some O
  end.

(** ** Values *)

Inductive value : Type :=
| Undefined
| Null
| Bool (b : bool)
| Num (x : number)
| Str (s : string)
| Arr (elements : list value)
| Obj (properties : list (string * value)).

(** What a [ZodError] carries. *)
Inductive ZodIssueCode : Type := invalid_type | too_small | too_big.

Record ZodIssue : Type :=
  { code : ZodIssueCode; path : list string; message : string }.

Inductive exn : Type :=
| Error (message : string)          (* [new Error(message)] *)
| ZodError (errors : list ZodIssue) (* thrown by [schema.parse] *)
| TypeError (reading : string)      (* a read of [reading] on undefined, null or a non-iterable *)
| NotPrimitive                      (* the TypeError of [`${v}`]: cannot convert object to primitive value *)
| RangeError                        (* invalid string length *)
| SyntaxError                       (* [response.json()] on a body that is not JSON *)
| FetchFailed.                      (* [fetch] rejected: there is no response *)

Inductive outcome (A : Type) : Type :=
| Returns (a : A)
| Throws (e : exn).
Arguments Returns {A} a.
Arguments Throws {A} e.

Definition bind {A B} (c : outcome A) (k : A -> outcome B) : outcome B :=
  match c with
  | Returns a => k a
  | Throws e => Throws e
  end.

Fixpoint lookup (p : string) (props : list (string * value)) : value :=
  match props with
  | [] => Undefined
  | (k, v) :: props' => if String.eqb k p then v else lookup p props'
  end.

(** [v.p] where [v] is known to be an object or undefined. *)
Definition property_of (v : value) (p : string) : value :=
  match v with
  | Obj props => lookup p props
  | _ => Undefined
  end.

(** The number that a value is, where it is one. *)
Definition number_of (v : value) : number :=
  match v with
  | Num x => x
  | _ => nan
  end.

(** Whether the object has a key [p] of its own. *)
Definition has_own (p : string) (props : list (string * value)) : bool :=
  existsb (fun entry => String.eqb (fst entry) p) props.

(** The values that convert to a string.  An object converts through
    [Object.prototype.toString] unless it has a key [toString] of its
    own: what JSON holds there is not callable, [valueOf] gives back the
    object, and the conversion throws.  A list converts when its elements
    do. *)
Fixpoint printable (v : value) : bool :=
  match v with
  | Arr l => forallb printable l
  | Obj props => negb (has_own "toString" props)
  | _ => true
  end.

(** The string of a value that converts to one. *)
Fixpoint string_of (v : value) : string :=
  match v with
  | Undefined => "undefined"
  | Null => "null"
  | Bool b => if b then "true" else "false"
  | Num x => Number_toString x
  | Str s => s
  | Arr l =>
      join "," (map (fun e => match e with
                              | Undefined | Null => ""
                              | _ => string_of e
                              end) l)
  | Obj _ => "[object Object]"
  end.

(** [`${v}`] *)
Definition ToString (v : value) : outcome string :=
  if printable v then Returns (string_of v) else Throws NotPrimitive.

(** The operand of [<]: an object or a list goes through its string. *)
Definition ToNumber (v : value) : outcome number :=
  match v with
  | Undefined => Returns nan
  | Null => Returns zero
  | Bool b => Returns (if b then one else zero)
  | Num x => Returns x
  | Str s => Returns (StringToNumber s)
  | Arr _ | Obj _ => bind (ToString v) (fun s => Returns (StringToNumber s))
  end.

(** [if (v)], [!v] *)
Definition ToBoolean (v : value) : bool :=
  match v with
  | Undefined | Null => false
  | Bool b => b
  | Num x => negb (is_nan x || is_zero x)
  | Str s => negb (String.eqb s "")
  | Arr _ | Obj _ => true
  end.

(** [v.p] for a property name [p] other than [length] and the indices:
    arrays, strings, numbers and booleans have no such property. *)
Definition Get (v : value) (p : string) : outcome value :=
  match v with
  | Undefined | Null => Throws (TypeError p)
  | Obj props => Returns (lookup p props)
  | _ => Returns Undefined
  end.

(** The UTF-16 code units of a string, each as a string; a character of
    the supplementary planes gives its two surrogates (in the generalised
    UTF-8 form of a lone surrogate). *)
Definition surrogate (u : Z) : string :=
  bytes [224 + u / 4096; 128 + (u / 64) mod 64; 128 + u mod 64].

Definition code_units_of (ch : string) : list string :=
  match ch with
  | String b0 (String b1 (String b2 (String b3 EmptyString))) =>
      let cp := (ord b0 mod 8) * 262144 + (ord b1 mod 64) * 4096
                + (ord b2 mod 64) * 64 + ord b3 mod 64 - 65536 in
      [surrogate (55296 + cp / 1024); surrogate (56320 + cp mod 1024)]
  | _ => [ch]
  end.

Definition code_units (s : string) : list string :=
  flat_map code_units_of (code_points s).

(** [v[i]] *)
Definition GetIndex (v : value) (i : nat) : outcome value :=
  match v with
  | Undefined | Null => Throws (TypeError (dec (Z.of_nat i)))
  | Arr l => Returns (nth i l Undefined)
  | Str s => Returns (match nth_error (code_units s) i with
                      | Some u => Str u
                      | None => Undefined
                      end)
  | Obj props => Returns (lookup (dec (Z.of_nat i)) props)
  | _ => Returns Undefined
  end.

(** [v.length]: the number of elements of an array, of code units of a
    string; otherwise whatever a property of that name holds. *)
Inductive length_value : Type :=
| Count (n : nat)
| Other (v : value).

Definition GetLength (v : value) : outcome length_value :=
  match v with
  | Arr l => Returns (Count (List.length l))
  | Str s => Returns (Count (utf16_length s))
  | _ => bind (Get v "length") (fun len => Returns (Other len))
  end.

(** [len === 0] *)
Definition is_zero_length (len : length_value) : bool :=
  match len with
  | Count n => Nat.eqb n 0
  | Other (Num x) => is_zero x
  | Other _ => false
  end.

(** How often the body of [for (let i = 0; i < len; i++)] runs, if the
    condition ever fails. *)
Definition iterations (len : length_value) : outcome (option nat) :=
  match len with
  | Count n => Returns (Some n)
  | Other v => bind (ToNumber v) (fun x => Returns (count_below x))
  end.

(** The index that a key is, for a key of digits. *)
Definition index_of_key (key : string) : nat :=
  match read_digits 10 key 0 0 with
  | (n, _, EmptyString) => Z.to_nat n
  | _ => O
  end.

(** An index from which [v[i]] is undefined. *)
Definition extent (v : value) : nat :=
  match v with
  | Arr l => List.length l
  | Obj props => S (fold_right (fun entry m => Nat.max (index_of_key (fst entry)) m) O props)
  | _ => O
  end.

(** [for (const x of v)]: the elements of an array, the characters of a
    string; nothing else that JSON holds is iterable. *)
Definition iterate (v : value) : outcome (list value) :=
  match v with
  | Arr l => Returns l
  | Str s => Returns (map Str (code_points s))
  | _ => Throws (TypeError "Symbol.iterator")
  end.

End JS.

Import JS.

Notation "x <- c ;; k" := (bind c (fun x => k))
  (at level 61, c at next level, right associativity).

(** ** zod *)

Module Zod.

Inductive result (A : Type) : Type :=
| Ok (data : A)
| Invalid (issues : list ZodIssue).
Arguments Ok {A} data.
Arguments Invalid {A} issues.

(** A schema checks the value found at a path. *)
Definition schema (A : Type) : Type := list string -> value -> result A.

Definition parsed_type (v : value) : string :=
  match v with
  | Undefined => "undefined"
  | Null => "null"
  | Bool _ => "boolean"
  | Num x => if is_nan x then "nan" else "number"
  | Str _ => "string"
  | Arr _ => "array"
  | Obj _ => "object"
  end.

Definition type_issue (expected : string) (path : list string) (v : value) : ZodIssue :=
  {| code := invalid_type;
     path := path;
     message := match v with
                | Undefined => "Required"
                | _ => "Expected " ++ expected ++ ", received " ++ parsed_type v
                end |}.

Inductive check : Type :=
| min (bound : number)
| max (bound : number).

(** [.min(b)] refuses [x < b], [.max(b)] refuses [x > b]: both bounds
    are inclusive, and nothing is changed in the value. *)
Definition run_check (path : list string) (x : number) (c : check) : list ZodIssue :=
  match c with
  | min b =>
      if (x <? b)%float then
        [{| code := too_small; path := path;
            message := "Number must be greater than or equal to " ++ Number_toString b |}]
      else []
  | max b =>
      if (b <? x)%float then
        [{| code := too_big; path := path;
            message := "Number must be less than or equal to " ++ Number_toString b |}]
      else []
  end.

(** [z.number().min(..).max(..)] *)
Definition number (checks : list check) : schema JS.number :=
  fun path v =>
    match v with
    | Num x =>
        if is_nan x then Invalid [type_issue "number" path v]
        else match flat_map (run_check path x) checks with
             | [] => Ok x
             | issues => Invalid issues
             end
    | _ => Invalid [type_issue "number" path v]
    end.

(** [z.string()] *)
Definition string : schema String.string :=
  fun path v =>
    match v with
    | Str s => Ok s
    | _ => Invalid [type_issue "string" path v]
    end.

(** [.optional()] *)
Definition optional {A} (inner : schema A) : schema (option A) :=
  fun path v =>
    match v with
    | Undefined => Ok None
    | _ => match inner path v with
           | Ok a => Ok (Some a)
           | Invalid issues => Invalid issues
           end
    end.

(** [.default(d)]: an absent value is replaced by [d] before the inner
    schema runs. *)
Definition default {A} (inner : schema A) (d : value) : schema A :=
  fun path v =>
    inner path match v with
               | Undefined => d
               | _ => v
               end.

(** The value of one key of a [z.object]; the issues of all keys are
    collected. *)
Definition field {A} (key : String.string) (inner : schema A)
  (path : list String.string) (props : list (String.string * value)) : result A :=
  inner (path ++ [key])%list (lookup key props).

Definition both {A B} (a : result A) (b : result B) : result (A * B) :=
  match a, b with
  | Ok x, Ok y => Ok (x, y)
  | Ok _, Invalid j => Invalid j
  | Invalid i, Ok _ => Invalid i
  | Invalid i, Invalid j => Invalid (i ++ j)%list
  end.

Definition map_result {A B} (f : A -> B) (a : result A) : result B :=
  match a with
  | Ok x => Ok (f x)
  | Invalid i => Invalid i
  end.

(** [z.object({...})]: the input has to be an object. *)
Definition object {A} (keys : list String.string -> list (String.string * value) -> result A)
  : schema A :=
  fun path v =>
    match v with
    | Obj props => keys path props
    | _ => Invalid [type_issue "object" path v]
    end.

(** [schema.parse(v)] *)
Definition parse {A} (s : schema A) (v : value) : outcome A :=
  match s [] v with
  | Ok a => Returns a
  | Invalid issues => Throws (ZodError issues)
  end.

End Zod.

(** ** URL and URLSearchParams *)

Module Url.

Record URL : Type := { href : string; searchParams : list (string * string) }.

(** [new URL(s)], for an [s] without query and fragment, as the three
    addresses of this program are. *)
Definition new (s : string) : URL := {| href := s; searchParams := [] |}.

(** [url.searchParams.append(name, value)] *)
Definition append (url : URL) (name value : string) : URL :=
  {| href := href url; searchParams := (searchParams url ++ [(name, value)])%list |}.

Definition is_alphanumeric (c : ascii) : bool :=
  let n := ord c in
  ((48 <=? n) && (n <=? 57)) || ((65 <=? n) && (n <=? 90)) || ((97 <=? n) && (n <=? 122)).

(** The bytes the application/x-www-form-urlencoded serializer leaves
    as they are: alphanumerics and [*], [-], [.], [_]. *)
Definition is_plain (c : ascii) : bool :=
  is_alphanumeric c || existsb (Ascii.eqb c) ["*"; "-"; "."; "_"]%char.

Definition hex_digit (n : Z) : ascii :=
  if n <? 10 then chr (48 + n) else chr (55 + n).

Definition encode_byte (c : ascii) : string :=
  if is_plain c then String c EmptyString
  else if Ascii.eqb c " " then "+"
  else String "%" (String (hex_digit (ord c / 16)) (String (hex_digit (ord c mod 16)) EmptyString)).

Fixpoint encode (s : string) : string :=
  match s with
  | EmptyString => EmptyString
  | String c s' => encode_byte c ++ encode s'
  end.

(** The application/x-www-form-urlencoded serializer. *)
Definition serialize (params : list (string * string)) : string :=
  join "&" (map (fun '(name, value) => encode name ++ "=" ++ encode value) params).

(** [url.toString()] *)
Definition toString (url : URL) : string :=
  match searchParams url with
  | [] => href url
  | params => href url ++ "?" ++ serialize params
  end.

(** *** Reading an address back

    [new URL(s).searchParams]: the text between the first [?] and the
    fragment, read by the application/x-www-form-urlencoded parser. *)

Fixpoint before (sep : ascii) (s : string) : string :=
  match s with
  | EmptyString => EmptyString
  | String c s' => if Ascii.eqb c sep then EmptyString else String c (before sep s')
  end.

(** The text after the first [sep], if there is one. *)
Fixpoint after (sep : ascii) (s : string) : option string :=
  match s with
  | EmptyString => None
  | String c s' => if Ascii.eqb c sep then Some s' else after sep s'
  end.

Fixpoint split (sep : ascii) (s : string) : list string :=
  match s with
  | EmptyString => [EmptyString]
  | String c s' =>
      if Ascii.eqb c sep then EmptyString :: split sep s'
      else match split sep s' with
           | piece :: pieces => String c piece :: pieces
           | [] => [String c EmptyString]
           end
  end.

Definition hex_value (c : ascii) : option Z := digit_value 16 c.

Fixpoint percent_decode (s : string) : string :=
  match s with
  | EmptyString => EmptyString
  | String c s' =>
      if Ascii.eqb c "%" then
        match s' with
        | String h (String l rest) =>
            match hex_value h, hex_value l with
            | Some a, Some b => String (chr (16 * a + b)) (percent_decode rest)
            | _, _ => String c (percent_decode s')
            end
        | _ => String c (percent_decode s')
        end
      else String c (percent_decode s')
  end.

Fixpoint plus_to_space (s : string) : string :=
  match s with
  | EmptyString => EmptyString
  | String c s' => String (if Ascii.eqb c "+" then " "%char else c) (plus_to_space s')
  end.

Definition decode (s : string) : string := percent_decode (plus_to_space s).

Definition parse_pair (piece : string) : string * string :=
  (decode (before "=" piece),
   decode match after "=" piece with
          | Some value => value
          | None => EmptyString
          end).

(** The application/x-www-form-urlencoded parser. *)
Definition parse (query : string) : list (string * string) :=
  map parse_pair (filter (fun piece => negb (String.eqb piece "")) (split "&" query)).

Definition query (address : string) : string :=
  match after "?" address with
  | Some q => before "#" q
  | None => EmptyString
  end.

(** [new URL(address).searchParams] *)
Definition params_of (address : string) : list (string * string) :=
  parse (query address).

(** [searchParams.get(name)] *)
Fixpoint get (name : string) (params : list (string * string)) : option string :=
  match params with
  | [] => None
  | (k, v) :: params' => if String.eqb k name then Some v else get name params'
  end.

End Url.

(** ** Upstream

    What [fetch] gives for an address: no response at all, or a response
    with its status and its body, parsed if it is JSON. A [task] is an
    [async] function run to its end: the addresses it fetched, in order,
    and its outcome. *)

Record Response : Type :=
  { ok : bool; statusText : string; json : option value }.

Definition upstream : Type := string -> option Response.

Definition task (A : Type) : Type := (list string * outcome A)%type.

Definition now {A} (c : outcome A) : task A := ([], c).

Definition await {A B} (c : task A) (k : A -> task B) : task B :=
  match c with
  | (requests, Returns a) => let (requests', c') := k a in ((requests ++ requests')%list, c')
  | (requests, Throws e) => (requests, Throws e)
  end.

Notation "x <~ c ;; k" := (await c (fun x => k))
  (at level 61, c at next level, right associativity).

Definition fetch (net : upstream) (url : string) : task Response :=
  ([url], match net url with
          | Some response => Returns response
          | None => Throws FetchFailed
          end).

(** [response.json()] *)
Definition Response_json (response : Response) : outcome value :=
  match json response with
  | Some data => Returns data
  | None => Throws SyntaxError
  end.

(** ** The schemas of [index.ts] *)

Module GetForecastArgs.
Record t : Type :=
  { latitude : number; longitude : number; forecast_days : option number }.
End GetForecastArgs.

Module GetCurrentWeatherArgs.
Record t : Type := { latitude : number; longitude : number }.
End GetCurrentWeatherArgs.

Module GeocodeArgs.
Record t : Type := { location : string }.
End GeocodeArgs.

Definition GetForecastArgsSchema : Zod.schema GetForecastArgs.t :=
  Zod.object (fun path props =>
    Zod.map_result
      (fun '(latitude, (longitude, forecast_days)) =>
         GetForecastArgs.Build_t latitude longitude forecast_days)
      (Zod.both
         (Zod.field "latitude" (Zod.number [Zod.min (-90); Zod.max 90]) path props)
         (Zod.both
            (Zod.field "longitude" (Zod.number [Zod.min (-180); Zod.max 180]) path props)
            (Zod.field "forecast_days"
               (Zod.default (Zod.optional (Zod.number [Zod.min 1; Zod.max 16])) (Num 7))
               path props)))).

Definition GetCurrentWeatherArgsSchema : Zod.schema GetCurrentWeatherArgs.t :=
  Zod.object (fun path props =>
    Zod.map_result
      (fun '(latitude, longitude) => GetCurrentWeatherArgs.Build_t latitude longitude)
      (Zod.both
         (Zod.field "latitude" (Zod.number [Zod.min (-90); Zod.max 90]) path props)
         (Zod.field "longitude" (Zod.number [Zod.min (-180); Zod.max 180]) path props))).

Definition GeocodeArgsSchema : Zod.schema GeocodeArgs.t :=
  Zod.object (fun path props =>
    Zod.map_result GeocodeArgs.Build_t (Zod.field "location" Zod.string path props)).

(** ** The formatters *)

(** [daily.field[i]] *)
Definition at_index (daily : value) (field : string) (i : nat) : outcome value :=
  series <- Get daily field ;;
  GetIndex series i.

(** The body of the loop of [formatForecast], lines 35 to 39: each
    substitution of a template is read and converted before the next one
    is read. *)
Definition forecast_day (daily : value) (result : string) (i : nat) : outcome string :=
  time <- at_index daily "time" i ;;
  time <- ToString time ;;
  let result := result ++ "Date: " ++ time ++ LF in
  temperature_2m_max <- at_index daily "temperature_2m_max" i ;;
  temperature_2m_max <- ToString temperature_2m_max ;;
  temperature_2m_min <- at_index daily "temperature_2m_min" i ;;
  temperature_2m_min <- ToString temperature_2m_min ;;
  let result := result ++ "  Temperature: " ++ temperature_2m_max ++ "°C max, "
                       ++ temperature_2m_min ++ "°C min" ++ LF in
  precipitation_sum <- at_index daily "precipitation_sum" i ;;
  precipitation_sum <- ToString precipitation_sum ;;
  let result := result ++ "  Precipitation: " ++ precipitation_sum ++ " mm" ++ LF in
  wind_speed_10m_max <- at_index daily "wind_speed_10m_max" i ;;
  wind_speed_10m_max <- ToString wind_speed_10m_max ;;
  let result := result ++ "  Wind Speed: " ++ wind_speed_10m_max ++ " km/h max" ++ LF in
  weather_code <- at_index daily "weather_code" i ;;
  weather_code <- ToString weather_code ;;
  Returns (result ++ "  Weather Code: " ++ weather_code ++ LF ++ LF).

(** [for (let i = ...; i < n; i++) result = body(result, i)] *)
Fixpoint for_loop (body : string -> nat -> outcome string)
  (result : string) (indices : list nat) : outcome string :=
  match indices with
  | [] => Returns result
  | i :: indices' =>
      result' <- body result i ;;
      for_loop body result' indices'
  end.

(** An index from which every series of [daily] reads undefined. *)
Definition horizon (daily : value) : nat :=
  S (fold_right Nat.max O
       (map (fun field => extent (property_of daily field))
          ["time"; "temperature_2m_max"; "temperature_2m_min"; "precipitation_sum";
           "wind_speed_10m_max"; "weather_code"])).

(** The loop of [formatForecast].  Where the condition never fails (a
    length that is infinite, or above [2^53] where [i++] stands still),
    the loop ends with the first error of its body, which can only come
    before the horizon, or else with the RangeError of a string that has
    grown too long.  How long a string may grow is left to the engine:
    for a loop that ends by its condition the text is taken to fit. *)
Definition forecast_loop (daily : value) (result : string) (bound : option nat)
  : outcome string :=
  match bound with
  | Some n => for_loop (forecast_day daily) result (seq 0 n)
  | None =>
      _ <- for_loop (forecast_day daily) result (seq 0 (horizon daily)) ;;
      Throws RangeError
  end.

Definition formatForecast (data : value) : outcome string :=
  latitude <- Get data "latitude" ;;
  longitude <- Get data "longitude" ;;
  daily <- Get data "daily" ;;
  latitude <- ToString latitude ;;
  longitude <- ToString longitude ;;
  let result := "Weather Forecast for coordinates (" ++ latitude ++ ", "
                ++ longitude ++ ")" ++ LF ++ LF in
  time <- Get daily "time" ;;
  length <- GetLength time ;;
  bound <- iterations length ;;
  forecast_loop daily result bound.

Definition formatCurrentWeather (data : value) : outcome string :=
  latitude <- Get data "latitude" ;;
  longitude <- Get data "longitude" ;;
  current <- Get data "current" ;;
  latitude <- ToString latitude ;;
  longitude <- ToString longitude ;;
  let result := "Current Weather for coordinates (" ++ latitude ++ ", "
                ++ longitude ++ ")" ++ LF ++ LF in
  time <- Get current "time" ;;
  time <- ToString time ;;
  let result := result ++ "Time: " ++ time ++ LF in
  temperature_2m <- Get current "temperature_2m" ;;
  temperature_2m <- ToString temperature_2m ;;
  let result := result ++ "Temperature: " ++ temperature_2m ++ "°C" ++ LF in
  relative_humidity_2m <- Get current "relative_humidity_2m" ;;
  relative_humidity_2m <- ToString relative_humidity_2m ;;
  let result := result ++ "Relative Humidity: " ++ relative_humidity_2m ++ "%" ++ LF in
  precipitation <- Get current "precipitation" ;;
  precipitation <- ToString precipitation ;;
  let result := result ++ "Precipitation: " ++ precipitation ++ " mm" ++ LF in
  wind_speed_10m <- Get current "wind_speed_10m" ;;
  wind_speed_10m <- ToString wind_speed_10m ;;
  let result := result ++ "Wind Speed: " ++ wind_speed_10m ++ " km/h" ++ LF in
  wind_direction_10m <- Get current "wind_direction_10m" ;;
  wind_direction_10m <- ToString wind_direction_10m ;;
  let result := result ++ "Wind Direction: " ++ wind_direction_10m ++ "°" ++ LF in
  weather_code <- Get current "weather_code" ;;
  weather_code <- ToString weather_code ;;
  Returns (result ++ "Weather Code: " ++ weather_code ++ LF).

(** [if (v) result += `, ${v}`] and the like. *)
Definition append_if_truthy (result : string) (v : value) (before after : string)
  : outcome string :=
  if ToBoolean v
  then s <- ToString v ;; Returns (result ++ before ++ s ++ after)
  else Returns result.

(** The body of the loop of [geocodeLocation], lines 113 to 118. *)
Definition geocode_place (result : string) (place : value) : outcome string :=
  name <- Get place "name" ;;
  name <- ToString name ;;
  let result := result ++ name in
  admin1 <- Get place "admin1" ;;
  result <- append_if_truthy result admin1 ", " "" ;;
  country <- Get place "country" ;;
  result <- append_if_truthy result country ", " "" ;;
  latitude <- Get place "latitude" ;;
  latitude <- ToString latitude ;;
  longitude <- Get place "longitude" ;;
  longitude <- ToString longitude ;;
  let result := result ++ LF ++ "  Coordinates: " ++ latitude ++ ", "
                       ++ longitude ++ LF in
  elevation <- Get place "elevation" ;;
  result <- append_if_truthy result elevation "  Elevation: " ("m" ++ LF) ;;
  Returns (result ++ LF).

Fixpoint for_of (body : string -> value -> outcome string)
  (result : string) (items : list value) : outcome string :=
  match items with
  | [] => Returns result
  | item :: items' =>
      result' <- body result item ;;
      for_of body result' items'
  end.

(** What [geocodeLocation] makes of the parsed body, lines 107 to 121. *)
Definition geocodeResults (location : string) (data : value) : outcome string :=
  results <- Get data "results" ;;
  let no_results := Returns ("No results found for location: " ++ location) in
  if negb (ToBoolean results) then no_results
  else
    length <- GetLength results ;;
    if is_zero_length length then no_results
    else
      let result := "Geocoding results for " ++ DQUOTE ++ location ++ DQUOTE ++ ":"
                    ++ LF ++ LF in
      places <- iterate results ;;
      for_of geocode_place result places.

(** ** The API functions *)

Definition forecastRequest (latitude longitude forecast_days : number) : Url.URL :=
  let url := Url.new "https://api.open-meteo.com/v1/forecast" in
  let url := Url.append url "latitude" (Number_toString latitude) in
  let url := Url.append url "longitude" (Number_toString longitude) in
  let url := Url.append url "daily"
    "temperature_2m_max,temperature_2m_min,precipitation_sum,wind_speed_10m_max,weather_code" in
  let url := Url.append url "forecast_days" (Number_toString forecast_days) in
  Url.append url "timezone" "auto".

Definition currentWeatherRequest (latitude longitude : number) : Url.URL :=
  let url := Url.new "https://api.open-meteo.com/v1/forecast" in
  let url := Url.append url "latitude" (Number_toString latitude) in
  let url := Url.append url "longitude" (Number_toString longitude) in
  Url.append url "current"
    "temperature_2m,relative_humidity_2m,precipitation,wind_speed_10m,wind_direction_10m,weather_code".

Definition geocodeRequest (location : string) : Url.URL :=
  let url := Url.new "https://geocoding-api.open-meteo.com/v1/search" in
  let url := Url.append url "name" location in
  let url := Url.append url "count" "5" in
  let url := Url.append url "language" "en" in
  Url.append url "format" "json".

Definition getForecast (net : upstream) (latitude longitude : number)
  (forecast_days : option number) : task string :=
  let forecast_days := match forecast_days with
                       | Some days => days
                       | None => 7%float
                       end in
  let url := forecastRequest latitude longitude forecast_days in
  response <~ fetch net (Url.toString url) ;;
  if negb (ok response)
  then now (Throws (Error ("Open Meteo API error: " ++ statusText response)))
  else
    data <~ now (Response_json response) ;;
    now (formatForecast data).

Definition getCurrentWeather (net : upstream) (latitude longitude : number) : task string :=
  let url := currentWeatherRequest latitude longitude in
  response <~ fetch net (Url.toString url) ;;
  if negb (ok response)
  then now (Throws (Error ("Open Meteo API error: " ++ statusText response)))
  else
    data <~ now (Response_json response) ;;
    now (formatCurrentWeather data).

Definition geocodeLocation (net : upstream) (location : string) : task string :=
  let url := geocodeRequest location in
  response <~ fetch net (Url.toString url) ;;
  if negb (ok response)
  then now (Throws (Error ("Geocoding API error: " ++ statusText response)))
  else
    data <~ now (Response_json response) ;;
    now (geocodeResults location data).

(** ** The handler of tool calls *)

Record TextContent : Type := { type : string; text : string }.
Record CallToolResult : Type := { content : list TextContent }.
Record CallToolRequest : Type := { name : string; arguments : value }.

Definition text_result (s : string) : CallToolResult :=
  {| content := [{| type := "text"; text := s |}] |}.

(** [`${e.path.join(".")}: ${e.message}`] *)
Definition describe_issue (e : ZodIssue) : string :=
  join "." (path e) ++ ": " ++ message e.

(** The [catch] of the handler. *)
Definition rethrow (error : exn) : exn :=
  match error with
  | ZodError errors =>
      Error ("Invalid arguments: " ++ join ", " (map describe_issue errors))
  | _ => error
  end.

Definition try_catch {A} (c : task A) (handler : exn -> exn) : task A :=
  match c with
  | (requests, Throws e) => (requests, Throws (handler e))
  | _ => c
  end.

Definition callTool (net : upstream) (request : CallToolRequest) : task CallToolResult :=
  try_catch
    (let args := arguments request in
     if String.eqb (name request) "get_forecast" then
       parsed <~ now (Zod.parse GetForecastArgsSchema args) ;;
       forecast <~ getForecast net (GetForecastArgs.latitude parsed)
                     (GetForecastArgs.longitude parsed)
                     (GetForecastArgs.forecast_days parsed) ;;
       now (Returns (text_result forecast))
     else if String.eqb (name request) "get_current_weather" then
       parsed <~ now (Zod.parse GetCurrentWeatherArgsSchema args) ;;
       weather <~ getCurrentWeather net (GetCurrentWeatherArgs.latitude parsed)
                    (GetCurrentWeatherArgs.longitude parsed) ;;
       now (Returns (text_result weather))
     else if String.eqb (name request) "geocode" then
       parsed <~ now (Zod.parse GeocodeArgsSchema args) ;;
       results <~ geocodeLocation net (GeocodeArgs.location parsed) ;;
       now (Returns (text_result results))
     else now (Throws (Error ("Unknown tool: " ++ name request))))
    rethrow.

(** ** The error taxonomy of the specification

    The handler throws plain [Error]s; their kind is in the message. A
    body that is not JSON and a request without a response reach the
    host as they were thrown. *)

Definition InvalidArguments (e : exn) : bool :=
  match e with
  | Error message => starts_with "Invalid arguments: " message
  | _ => false
  end.

Definition UpstreamError (e : exn) : bool :=
  match e with
  | Error message =>
      starts_with "Open Meteo API error: " message
      || starts_with "Geocoding API error: " message
  | SyntaxError | FetchFailed => true
  | _ => false
  end.

Definition UnknownTool (e : exn) : bool :=
  match e with
  | Error message => starts_with "Unknown tool: " message
  | _ => false
  end.

(** A call fails with an error of the given kind. *)
Definition fails_with {A} (kind : exn -> bool) (c : task A) : Prop :=
  exists e, snd c = Throws e /\ kind e = true.

(** A call ends with a success result. *)
Definition succeeds {A} (c : task A) : Prop :=
  exists a, snd c = Returns a.

(** [lo <= x <= hi] *)
Definition within (lo hi x : number) : bool :=
  ((lo <=? x) && (x <=? hi))%float.

(** A value that passes [z.number().min(lo).max(hi)]. *)
Definition valid_number (lo hi : number) (v : value) : bool :=
  match v with
  | Num x => within lo hi x
  | _ => false
  end.

(** What a request gives, once sent: the outcome of the three API
    functions after [fetch]. *)
Definition reply (net : upstream) (url : string) (format : value -> outcome string)
  (failure : string) : outcome string :=
  match net url with
  | None => Throws FetchFailed
  | Some response =>
      if ok response
      then data <- Response_json response ;; format data
      else Throws (Error (failure ++ statusText response))
  end.

(** What the handler makes of it. *)
Definition finish (c : outcome string) : outcome CallToolResult :=
  match c with
  | Returns s => Returns (text_result s)
  | Throws e => Throws (rethrow e)
  end.

(** Upstream answers the request with a body that the formatter accepts. *)
Definition well_formed (net : upstream) (url : string)
  (format : value -> outcome string) (text : string) : Prop :=
  exists response data,
    net url = Some response /\ ok response = true
    /\ json response = Some data /\ format data = Returns text.

(** An upstream that answers every request with the same body. *)
Definition answers (body : value) : upstream :=
  fun _ => Some {| ok := true; statusText := "OK"; json := Some body |}.

(** A number as JSON writes it. *)
Definition num (literal : string) : value := Num (StringToNumber literal).

(** ** The layouts of the specification *)

Definition forecast_header (latitude longitude : value) : string :=
  "Weather Forecast for coordinates (" ++ string_of latitude ++ ", "
  ++ string_of longitude ++ ")" ++ LF ++ LF.

Definition day_block (date max min precipitation wind weather : value) : string :=
  "Date: " ++ string_of date ++ LF
  ++ "  Temperature: " ++ string_of max ++ "°C max, " ++ string_of min ++ "°C min" ++ LF
  ++ "  Precipitation: " ++ string_of precipitation ++ " mm" ++ LF
  ++ "  Wind Speed: " ++ string_of wind ++ " km/h max" ++ LF
  ++ "  Weather Code: " ++ string_of weather ++ LF
  ++ LF.

(** The block of index [i] of six series; an index past the end of a
    series reads [undefined]. *)
Definition block_at (times maxs mins rains winds codes : list value) (i : nat) : string :=
  day_block (nth i times Undefined) (nth i maxs Undefined) (nth i mins Undefined)
    (nth i rains Undefined) (nth i winds Undefined) (nth i codes Undefined).

(** One day of a forecast. *)
Record day : Type :=
  { date : value; high : value; low : value; rain : value; wind : value; weather : value }.

Definition block_of (d : day) : string :=
  day_block (date d) (high d) (low d) (rain d) (wind d) (weather d).

(** A day whose six values have a string. *)
Definition printable_day (d : day) : bool :=
  printable (date d) && printable (high d) && printable (low d)
  && printable (rain d) && printable (wind d) && printable (weather d).

Definition current_report (latitude longitude : value) (current : list (string * value))
  : string :=
  "Current Weather for coordinates (" ++ string_of latitude ++ ", "
  ++ string_of longitude ++ ")" ++ LF
  ++ LF
  ++ "Time: " ++ string_of (lookup "time" current) ++ LF
  ++ "Temperature: " ++ string_of (lookup "temperature_2m" current) ++ "°C" ++ LF
  ++ "Relative Humidity: " ++ string_of (lookup "relative_humidity_2m" current) ++ "%" ++ LF
  ++ "Precipitation: " ++ string_of (lookup "precipitation" current) ++ " mm" ++ LF
  ++ "Wind Speed: " ++ string_of (lookup "wind_speed_10m" current) ++ " km/h" ++ LF
  ++ "Wind Direction: " ++ string_of (lookup "wind_direction_10m" current) ++ "°" ++ LF
  ++ "Weather Code: " ++ string_of (lookup "weather_code" current) ++ LF.

(** The seven fields of [current], in the order of the report. *)
Definition current_fields : list string :=
  ["time"; "temperature_2m"; "relative_humidity_2m"; "precipitation"; "wind_speed_10m";
   "wind_direction_10m"; "weather_code"].

(** ** Mocked bodies *)

Definition mocked_daily (maxs mins rains winds codes : list value) : value :=
  Obj [("time", Arr [Str "2024-01-01"; Str "2024-01-02"]);
       ("temperature_2m_max", Arr maxs);
       ("temperature_2m_min", Arr mins);
       ("precipitation_sum", Arr rains);
       ("wind_speed_10m_max", Arr winds);
       ("weather_code", Arr codes)].

Definition mocked_forecast : value :=
  Obj [("latitude", num "52.52"); ("longitude", num "13.41");
       ("daily", mocked_daily [num "5.3"; num "6.1"] [num "-1.2"; num "0.4"]
                   [num "0"; num "2.4"] [num "12.5"; num "20.3"] [num "3"; num "61"])].

(** The second day is missing from every series but [time]. *)
Definition short_forecast : value :=
  Obj [("latitude", num "52.52"); ("longitude", num "13.41");
       ("daily", mocked_daily [num "5.3"] [num "-1.2"] [num "0"] [num "12.5"] [num "3"])].

Definition empty_forecast : value :=
  Obj [("latitude", num "52.52"); ("longitude", num "13.41");
       ("daily", Obj [("time", Arr []); ("temperature_2m_max", Arr []);
                      ("temperature_2m_min", Arr []); ("precipitation_sum", Arr []);
                      ("wind_speed_10m_max", Arr []); ("weather_code", Arr [])])].

Definition mocked_current : value :=
  Obj [("latitude", num "52.52"); ("longitude", num "13.41");
       ("current",
        Obj [("time", Str "2024-01-01T12:00"); ("temperature_2m", num "5.3");
             ("relative_humidity_2m", num "81"); ("precipitation", num "0.1");
             ("wind_speed_10m", num "12.5"); ("wind_direction_10m", num "270");
             ("weather_code", num "3")])].

(** Bodies of the expected shape in which one value is an object with a
    key [toString]: the weather code of the second day, and the time. *)
Definition unprintable_forecast : value :=
  Obj [("latitude", num "52.52"); ("longitude", num "13.41");
       ("daily", mocked_daily [num "5.3"; num "6.1"] [num "-1.2"; num "0.4"]
                   [num "0"; num "2.4"] [num "12.5"; num "20.3"]
                   [num "3"; Obj [("toString", num "61")]])].

Definition unprintable_current : value :=
  Obj [("latitude", num "52.52"); ("longitude", num "13.41");
       ("current",
        Obj [("time", Obj [("toString", Str "2024-01-01T12:00")]);
             ("temperature_2m", num "5.3");
             ("relative_humidity_2m", num "81"); ("precipitation", num "0.1");
             ("wind_speed_10m", num "12.5"); ("wind_direction_10m", num "270");
             ("weather_code", num "3")])].

(** A body with both the daily series and the current conditions. *)
Definition mocked_weather : value :=
  Obj [("latitude", num "52.52"); ("longitude", num "13.41");
       ("daily", mocked_daily [num "5.3"; num "6.1"] [num "-1.2"; num "0.4"]
                   [num "0"; num "2.4"] [num "12.5"; num "20.3"] [num "3"; num "61"]);
       ("current",
        Obj [("time", Str "2024-01-01T12:00"); ("temperature_2m", num "5.3");
             ("relative_humidity_2m", num "81"); ("precipitation", num "0.1");
             ("wind_speed_10m", num "12.5"); ("wind_direction_10m", num "270");
             ("weather_code", num "3")])].

Definition mocked_forecast_text : string :=
  "Weather Forecast for coordinates (52.52, 13.41)

Date: 2024-01-01
  Temperature: 5.3°C max, -1.2°C min
  Precipitation: 0 mm
  Wind Speed: 12.5 km/h max
  Weather Code: 3

Date: 2024-01-02
  Temperature: 6.1°C max, 0.4°C min
  Precipitation: 2.4 mm
  Wind Speed: 20.3 km/h max
  Weather Code: 61

".

Definition mocked_current_text : string :=
  "Current Weather for coordinates (52.52, 13.41)

Time: 2024-01-01T12:00
Temperature: 5.3°C
Relative Humidity: 81%
Precipitation: 0.1 mm
Wind Speed: 12.5 km/h
Wind Direction: 270°
Weather Code: 3
".

(** ** Reading an address and a number back *)

Fixpoint all (P : ascii -> bool) (s : string) : bool :=
  match s with
  | EmptyString => true
  | String c s' => P c && all P s'
  end.

Definition is_not (sep c : ascii) : bool := negb (Ascii.eqb c sep).

(** What the serializer writes for a name or a value. *)
Definition written (c : ascii) : bool :=
  Url.is_plain c || Ascii.eqb c "+" || Ascii.eqb c "%".

Definition piece (param : string * string) : string :=
  let (name, value) := param in Url.encode name ++ "=" ++ Url.encode value.

(** [Number(new URL(address).searchParams.get(name))] *)
Definition read_number (name address : string) : option number :=
  option_map StringToNumber (Url.get name (Url.params_of address)).

(** The characters of a number in decimal form. *)
Definition numeric (c : ascii) : bool :=
  existsb (Ascii.eqb c)
    ["0"; "1"; "2"; "3"; "4"; "5"; "6"; "7"; "8"; "9"; "."; "e"; "+"; "-"]%char.

Definition is_digit (c : ascii) : bool :=
  existsb (Ascii.eqb c) ["0"; "1"; "2"; "3"; "4"; "5"; "6"; "7"; "8"; "9"]%char.

Definition single (c : ascii) : string := String c EmptyString.

(** The exponent part that [render] writes. *)
Definition exponent_part (e : Z) : string :=
  "e" ++ (if e <? 0 then "-" else "+") ++ dec (Z.abs e).

(** [m × 2^t] *)
Fixpoint shl (m : positive) (t : nat) : positive :=
  match t with
  | O => m
  | S t' => xO (shl m t')
  end.

(** ** The list of tools

    What the [ListToolsRequestSchema] handler returns, lines 139 to 207. *)

Definition ListTools : value :=
  Obj [("tools", Arr [
    Obj [("name", Str "get_forecast");
         ("description", Str "Get weather forecast for a location using Open Meteo API. Provides daily forecasts including temperature, precipitation, and wind speed.");
         ("inputSchema", Obj [
            ("type", Str "object");
            ("properties", Obj [
               ("latitude", Obj [("type", Str "number");
                                 ("description", Str "Latitude coordinate (-90 to 90)");
                                 ("minimum", Num (-90)); ("maximum", Num 90)]);
               ("longitude", Obj [("type", Str "number");
                                  ("description", Str "Longitude coordinate (-180 to 180)");
                                  ("minimum", Num (-180)); ("maximum", Num 180)]);
               ("forecast_days", Obj [("type", Str "number");
                                      ("description",
                                       Str "Number of forecast days (1-16, default: 7)");
                                      ("minimum", Num 1); ("maximum", Num 16);
                                      ("default", Num 7)])]);
            ("required", Arr [Str "latitude"; Str "longitude"])])];
    Obj [("name", Str "get_current_weather");
         ("description", Str "Get current weather conditions for a location using Open Meteo API. Provides real-time temperature, humidity, precipitation, and wind information.");
         ("inputSchema", Obj [
            ("type", Str "object");
            ("properties", Obj [
               ("latitude", Obj [("type", Str "number");
                                 ("description", Str "Latitude coordinate (-90 to 90)");
                                 ("minimum", Num (-90)); ("maximum", Num 90)]);
               ("longitude", Obj [("type", Str "number");
                                  ("description", Str "Longitude coordinate (-180 to 180)");
                                  ("minimum", Num (-180)); ("maximum", Num 180)])]);
            ("required", Arr [Str "latitude"; Str "longitude"])])];
    Obj [("name", Str "geocode");
         ("description", Str "Convert a location name to geographic coordinates using Open Meteo Geocoding API. Returns latitude, longitude, and other location details.");
         ("inputSchema", Obj [
            ("type", Str "object");
            ("properties", Obj [
               ("location", Obj [("type", Str "string");
                                 ("description",
                                  Str "Location name (e.g., 'London', 'New York', 'Tokyo')")])]);
            ("required", Arr [Str "location"])])]])].

(** The names of the tools of a listing. *)
Definition tool_names (listing : value) : list string :=
  match lookup "tools" match listing with Obj props => props | _ => [] end with
  | Arr tools =>
      map (fun tool => match tool with
                       | Obj props => string_of (lookup "name" props)
                       | _ => "undefined"
                       end) tools
  | _ => []
  end.

(** One schema of a listed tool: [inputSchema.properties.<key>]. *)
Definition advertised (listing : value) (tool key : string) : value :=
  match lookup "tools" match listing with Obj props => props | _ => [] end with
  | Arr tools =>
      match find (fun t => match t with
                           | Obj props => String.eqb (string_of (lookup "name" props)) tool
                           | _ => false
                           end) tools with
      | Some (Obj props) =>
          match lookup "inputSchema" props with
          | Obj schema =>
              match lookup "properties" schema with
              | Obj properties => lookup key properties
              | _ => Undefined
              end
          | _ => Undefined
          end
      | _ => Undefined
      end
  | _ => Undefined
  end.

(** The keys that a listed tool requires: [inputSchema.required]. *)
Definition required_keys (listing : value) (tool : string) : list string :=
  match property_of listing "tools" with
  | Arr tools =>
      match find (fun t => String.eqb (string_of (property_of t "name")) tool) tools with
      | Some t =>
          match property_of (property_of t "inputSchema") "required" with
          | Arr keys => map string_of keys
          | _ => []
          end
      | None => []
      end
  | _ => []
  end.

(** The keys of the arguments that the schema of a tool names. *)
Definition arguments_read (tool : string) : list string :=
  if String.eqb tool "get_forecast" then ["latitude"; "longitude"; "forecast_days"]
  else if String.eqb tool "get_current_weather" then ["latitude"; "longitude"]
  else if String.eqb tool "geocode" then ["location"]
  else [].

(** ** The layout of the geocoding results *)

Definition geocode_header (location : string) : string :=
  "Geocoding results for " ++ DQUOTE ++ location ++ DQUOTE ++ ":" ++ LF ++ LF.

(** The first line of a place: its name, then [admin1] and [country]
    where the place has them. *)
Definition place_line (place : list (string * value)) : string :=
  string_of (lookup "name" place)
  ++ (if ToBoolean (lookup "admin1" place)
      then ", " ++ string_of (lookup "admin1" place) else "")
  ++ (if ToBoolean (lookup "country" place)
      then ", " ++ string_of (lookup "country" place) else "")
  ++ LF.

Definition coordinates_line (place : list (string * value)) : string :=
  "  Coordinates: " ++ string_of (lookup "latitude" place) ++ ", "
  ++ string_of (lookup "longitude" place) ++ LF.

Definition elevation_line (place : list (string * value)) : string :=
  if ToBoolean (lookup "elevation" place)
  then "  Elevation: " ++ string_of (lookup "elevation" place) ++ "m" ++ LF
  else "".

Definition place_block (place : list (string * value)) : string :=
  place_line place ++ coordinates_line place ++ elevation_line place ++ LF.

(** A place whose six values have a string. *)
Definition printable_place (place : list (string * value)) : bool :=
  forallb (fun field => printable (lookup field place))
    ["name"; "admin1"; "country"; "latitude"; "longitude"; "elevation"].

(** ** What a call can throw *)

(** The two TypeErrors: of a read on undefined, null or a non-iterable,
    and of a conversion to a string. *)
Definition is_TypeError (e : exn) : bool :=
  match e with
  | TypeError _ | NotPrimitive => true
  | _ => false
  end.

(** What a formatter can throw. *)
Definition formatter_error (e : exn) : bool :=
  match e with
  | TypeError _ | NotPrimitive | RangeError => true
  | _ => false
  end.

(** A computation that throws a TypeError. *)
Definition throws_TypeError {A} (c : outcome A) : Prop :=
  exists e, c = Throws e /\ is_TypeError e = true.

(** A computation that throws nothing but the errors of a formatter. *)
Definition fails_as_formatter {A} (c : outcome A) : Prop :=
  forall e, c = Throws e -> formatter_error e = true.

(** An upstream that answers every request with the same response. *)
Definition responds (response : Response) : upstream := fun _ => Some response.

(** An upstream that cannot be reached. *)
Definition unreachable : upstream := fun _ => None.

(** * Theorems *)

(** ** Strings *)

Ltac each_byte c :=
  destruct c as [[] [] [] [] [] [] [] []].

Lemma append_assoc (a b c : string) : (a ++ b) ++ c = a ++ b ++ c.
Proof. induction a as [ | x a IH]; simpl; [reflexivity | now rewrite IH]. Qed.

Lemma append_empty (a : string) : a ++ "" = a.
Proof. induction a as [ | x a IH]; simpl; [reflexivity | now rewrite IH]. Qed.

Lemma starts_with_app (p s : string) : starts_with p (p ++ s) = true.
Proof.
  induction p as [ | a p IH]; simpl; [reflexivity | ].
  now rewrite Ascii.eqb_refl, IH.
Qed.

Lemma all_app P s t : all P (s ++ t) = all P s && all P t.
Proof.
  induction s as [ | c s IH]; simpl; [reflexivity | ].
  now rewrite IH, andb_assoc.
Qed.

Lemma all_weaken (P Q : ascii -> bool) s :
  (forall c, P c = true -> Q c = true) -> all P s = true -> all Q s = true.
Proof.
  intros H. induction s as [ | c s IH]; simpl; [reflexivity | ].
  intros E. apply andb_prop in E as [E1 E2]. now rewrite (H c E1), IH.
Qed.

(** ** Comparisons of binary64 values *)

Lemma compare_cont_Eq_swap (p q : positive) :
  Pos.compare_cont Eq q p = CompOpp (Pos.compare_cont Eq p q).
Proof. apply (Pos.compare_antisym p q). Qed.

Lemma SFcompare_swap (x y : spec_float) :
  SFcompare y x = option_map CompOpp (SFcompare x y).
Proof.
  destruct x as [sx | sx | | sx mx ex], y as [sy | sy | | sy my ey];
    simpl; try reflexivity;
    try (destruct sx; reflexivity); try (destruct sy; reflexivity);
    try (destruct sx, sy; reflexivity).
  destruct sx, sy; try reflexivity;
    rewrite (Z.compare_antisym ex ey);
    destruct (ex ?= ey); simpl; try reflexivity;
    rewrite compare_cont_Eq_swap; try reflexivity.
Qed.

Lemma SFcompare_refl (x : spec_float) :
  x <> S754_nan -> SFcompare x x = Some Eq.
Proof.
  destruct x as [s | s | | s m e]; simpl; intros H; try reflexivity.
  - destruct s; reflexivity.
  - congruence.
  - destruct s; rewrite Z.compare_refl;
      change (Pos.compare_cont Eq m m) with (Pos.compare m m);
      rewrite Pos.compare_refl; reflexivity.
Qed.

Lemma SFcompare_total (x y : spec_float) :
  x <> S754_nan -> y <> S754_nan -> SFcompare x y <> None.
Proof. destruct x, y; simpl; congruence. Qed.

Lemma is_nan_Prim2SF (x : float) : is_nan x = false -> Prim2SF x <> S754_nan.
Proof.
  unfold is_nan. rewrite eqb_spec. unfold SFeqb. intros H E. rewrite E in H.
  discriminate H.
Qed.

Lemma leb_not_ltb (x y : float) : (x <=? y)%float = true -> (y <? x)%float = false.
Proof.
  rewrite ltb_spec, leb_spec. unfold SFltb, SFleb.
  rewrite (SFcompare_swap (Prim2SF x) (Prim2SF y)).
  destruct (SFcompare (Prim2SF x) (Prim2SF y)) as [[ | | ] | ]; simpl; congruence.
Qed.

Lemma leb_not_nan (x y : float) : (x <=? y)%float = true -> is_nan y = false.
Proof.
  rewrite leb_spec. unfold is_nan. rewrite eqb_spec. unfold SFleb, SFeqb.
  intros H.
  rewrite SFcompare_refl; [reflexivity | ].
  intros E. rewrite E in H. destruct (Prim2SF x); discriminate.
Qed.

Lemma not_leb_ltb (x y : float) :
  is_nan x = false -> is_nan y = false ->
  (x <=? y)%float = false -> (y <? x)%float = true.
Proof.
  intros Hx Hy. rewrite ltb_spec, leb_spec. unfold SFltb, SFleb.
  rewrite (SFcompare_swap (Prim2SF x) (Prim2SF y)).
  pose proof (SFcompare_total _ _ (is_nan_Prim2SF _ Hx) (is_nan_Prim2SF _ Hy)) as T.
  destruct (SFcompare (Prim2SF x) (Prim2SF y)) as [[ | | ] | ]; simpl; congruence.
Qed.

Lemma within_checks (lo hi x : number) :
  within lo hi x = true ->
  is_nan x = false /\ (x <? lo)%float = false /\ (hi <? x)%float = false.
Proof.
  unfold within. intros H. apply andb_prop in H as [Hlo Hhi].
  repeat split.
  - exact (leb_not_nan _ _ Hlo).
  - exact (leb_not_ltb _ _ Hlo).
  - exact (leb_not_ltb _ _ Hhi).
Qed.

(** ** The schemas *)

Lemma number_accepts (lo hi : number) (path : list string) (x : number) :
  within lo hi x = true ->
  Zod.number [Zod.min lo; Zod.max hi] path (Num x) = Zod.Ok x.
Proof.
  intros H. destruct (within_checks _ _ _ H) as (Hnan & Hlo & Hhi).
  unfold Zod.number. rewrite Hnan. unfold flat_map, Zod.run_check.
  rewrite Hlo, Hhi. reflexivity.
Qed.

Lemma number_refuses (lo hi : number) (path : list string) (x : number) :
  is_nan lo = false -> is_nan hi = false ->
  within lo hi x = false ->
  exists issues, Zod.number [Zod.min lo; Zod.max hi] path (Num x) = Zod.Invalid issues.
Proof.
  intros Nlo Nhi H. unfold Zod.number.
  destruct (is_nan x) eqn:Hnan; [eexists; reflexivity | ].
  unfold flat_map, Zod.run_check.
  unfold within in H. apply andb_false_iff in H as [H | H].
  - rewrite (not_leb_ltb _ _ Nlo Hnan H). simpl. eexists; reflexivity.
  - rewrite (not_leb_ltb _ _ Hnan Nhi H).
    destruct (x <? lo)%float; simpl; eexists; reflexivity.
Qed.

Lemma number_invalid (lo hi : number) (path : list string) (v : value) :
  is_nan lo = false -> is_nan hi = false ->
  valid_number lo hi v = false ->
  exists issues, Zod.number [Zod.min lo; Zod.max hi] path v = Zod.Invalid issues.
Proof.
  intros Nlo Nhi. destruct v; intros H; try (eexists; reflexivity).
  now apply number_refuses.
Qed.

Ltac unknown_result r :=
  lazymatch r with
  | Zod.Invalid _ => fail
  | Zod.Ok _ => fail
  | Zod.both _ _ => fail
  | _ => idtac
  end.

Ltac settle_invalid :=
  repeat match goal with
         | |- context [Zod.both ?a _] => unknown_result a; destruct a
         | |- context [Zod.both _ ?b] => unknown_result b; destruct b
         end;
  cbn [Zod.both Zod.map_result]; eexists; reflexivity.

Lemma forecast_schema_valid (props : list (string * value)) (lat lon : number)
  (days : option number) :
  lookup "latitude" props = Num lat -> within (-90) 90 lat = true ->
  lookup "longitude" props = Num lon -> within (-180) 180 lon = true ->
  lookup "forecast_days" props = match days with Some d => Num d | None => Undefined end ->
  match days with Some d => within 1 16 d = true | None => True end ->
  GetForecastArgsSchema [] (Obj props)
  = Zod.Ok {| GetForecastArgs.latitude := lat;
              GetForecastArgs.longitude := lon;
              GetForecastArgs.forecast_days :=
                Some match days with Some d => d | None => 7%float end |}.
Proof.
  intros Hlat Rlat Hlon Rlon Hdays Rdays.
  unfold GetForecastArgsSchema, Zod.object, Zod.field.
  rewrite Hlat, Hlon, Hdays.
  rewrite (number_accepts _ _ _ _ Rlat), (number_accepts _ _ _ _ Rlon).
  unfold Zod.default, Zod.optional.
  destruct days as [d | ].
  - rewrite (number_accepts _ _ _ _ Rdays). reflexivity.
  - rewrite number_accepts by reflexivity. reflexivity.
Qed.

Lemma forecast_schema_invalid (props : list (string * value)) :
  valid_number (-90) 90 (lookup "latitude" props) = false
  \/ valid_number (-180) 180 (lookup "longitude" props) = false
  \/ (lookup "forecast_days" props <> Undefined
      /\ valid_number 1 16 (lookup "forecast_days" props) = false) ->
  exists issues, GetForecastArgsSchema [] (Obj props) = Zod.Invalid issues.
Proof.
  intros H. unfold GetForecastArgsSchema, Zod.object, Zod.field.
  destruct H as [H | [H | [U H]]].
  - destruct (number_invalid (-90) 90 ([] ++ ["latitude"])%list _ eq_refl eq_refl H)
      as [i ->].
    settle_invalid.
  - destruct (number_invalid (-180) 180 ([] ++ ["longitude"])%list _ eq_refl eq_refl H)
      as [i ->].
    settle_invalid.
  - destruct (number_invalid 1 16 ([] ++ ["forecast_days"])%list _ eq_refl eq_refl H)
      as [i Hi].
    assert (D : Zod.default (Zod.optional (Zod.number [Zod.min 1; Zod.max 16]))
                  (Num 7) ([] ++ ["forecast_days"])%list (lookup "forecast_days" props)
                = Zod.Invalid i).
    { unfold Zod.default, Zod.optional.
      destruct (lookup "forecast_days" props); try congruence; now rewrite Hi. }
    rewrite D. settle_invalid.
Qed.

Lemma current_schema_valid (props : list (string * value)) (lat lon : number) :
  lookup "latitude" props = Num lat -> within (-90) 90 lat = true ->
  lookup "longitude" props = Num lon -> within (-180) 180 lon = true ->
  GetCurrentWeatherArgsSchema [] (Obj props)
  = Zod.Ok {| GetCurrentWeatherArgs.latitude := lat;
              GetCurrentWeatherArgs.longitude := lon |}.
Proof.
  intros Hlat Rlat Hlon Rlon.
  unfold GetCurrentWeatherArgsSchema, Zod.object, Zod.field.
  rewrite Hlat, Hlon.
  rewrite (number_accepts _ _ _ _ Rlat), (number_accepts _ _ _ _ Rlon).
  reflexivity.
Qed.

Lemma current_schema_invalid (props : list (string * value)) :
  valid_number (-90) 90 (lookup "latitude" props) = false
  \/ valid_number (-180) 180 (lookup "longitude" props) = false ->
  exists issues, GetCurrentWeatherArgsSchema [] (Obj props) = Zod.Invalid issues.
Proof.
  intros H. unfold GetCurrentWeatherArgsSchema, Zod.object, Zod.field.
  destruct H as [H | H].
  - destruct (number_invalid (-90) 90 ([] ++ ["latitude"])%list _ eq_refl eq_refl H)
      as [i ->].
    settle_invalid.
  - destruct (number_invalid (-180) 180 ([] ++ ["longitude"])%list _ eq_refl eq_refl H)
      as [i ->].
    settle_invalid.
Qed.

(** ** One call *)

Lemma rethrow_ZodError_is_InvalidArguments (errors : list ZodIssue) :
  InvalidArguments (rethrow (ZodError errors)) = true.
Proof. unfold rethrow, InvalidArguments. apply starts_with_app. Qed.

Lemma invalid_call {A} (issues : list ZodIssue) :
  fails_with (A := A) InvalidArguments ([], Throws (rethrow (ZodError issues))).
Proof.
  eexists. split; [reflexivity | apply rethrow_ZodError_is_InvalidArguments].
Qed.

Lemma reply_well_formed net url format failure text :
  well_formed net url format text -> reply net url format failure = Returns text.
Proof.
  intros (r & data & Hnet & Hok & Hjson & Hformat).
  unfold reply, Response_json. now rewrite Hnet, Hok, Hjson.
Qed.

Ltac run_request :=
  unfold reply, fetch, await, now; cbv zeta;
  match goal with |- context [?net ?url] =>
    match type of net with upstream => destruct (net url) as [? | ] end end;
  [ match goal with r : Response |- _ => destruct (ok r); cbn [negb];
      [ destruct (Response_json r) as [? | ?]; cbn [bind];
        [ match goal with
          | |- context [formatForecast ?d] => destruct (formatForecast d)
          | |- context [formatCurrentWeather ?d] => destruct (formatCurrentWeather d)
          | |- context [geocodeResults ?l ?d] => destruct (geocodeResults l d)
          end | ] | ] end
  | ]; reflexivity.

Lemma getForecast_run (net : upstream) (lat lon : number) (days : option number) :
  let url := Url.toString (forecastRequest lat lon
                             match days with Some d => d | None => 7%float end) in
  getForecast net lat lon days
  = ([url], reply net url formatForecast "Open Meteo API error: ").
Proof. unfold getForecast. run_request. Qed.

Lemma getCurrentWeather_run (net : upstream) (lat lon : number) :
  let url := Url.toString (currentWeatherRequest lat lon) in
  getCurrentWeather net lat lon
  = ([url], reply net url formatCurrentWeather "Open Meteo API error: ").
Proof. unfold getCurrentWeather. run_request. Qed.

Lemma geocodeLocation_run (net : upstream) (location : string) :
  let url := Url.toString (geocodeRequest location) in
  geocodeLocation net location
  = ([url], reply net url (geocodeResults location) "Geocoding API error: ").
Proof. unfold geocodeLocation. run_request. Qed.

Lemma callTool_get_forecast (net : upstream) (args : value) :
  callTool net {| name := "get_forecast"; arguments := args |}
  = match GetForecastArgsSchema [] args with
    | Zod.Invalid issues => ([], Throws (rethrow (ZodError issues)))
    | Zod.Ok parsed =>
        let url := Url.toString
                     (forecastRequest (GetForecastArgs.latitude parsed)
                        (GetForecastArgs.longitude parsed)
                        match GetForecastArgs.forecast_days parsed with
                        | Some d => d
                        | None => 7%float
                        end) in
        ([url], finish (reply net url formatForecast "Open Meteo API error: "))
    end.
Proof.
  unfold callTool. cbn [name arguments].
  change ("get_forecast" =? "get_forecast")%string with true.
  cbv iota. unfold Zod.parse.
  destruct (GetForecastArgsSchema [] args) as [parsed | issues]; [ | reflexivity].
  unfold now at 1. unfold await at 1. rewrite getForecast_run. cbv zeta.
  unfold await, now, try_catch, finish.
  destruct (reply _ _ _ _); reflexivity.
Qed.

Lemma callTool_get_current_weather (net : upstream) (args : value) :
  callTool net {| name := "get_current_weather"; arguments := args |}
  = match GetCurrentWeatherArgsSchema [] args with
    | Zod.Invalid issues => ([], Throws (rethrow (ZodError issues)))
    | Zod.Ok parsed =>
        let url := Url.toString
                     (currentWeatherRequest (GetCurrentWeatherArgs.latitude parsed)
                        (GetCurrentWeatherArgs.longitude parsed)) in
        ([url], finish (reply net url formatCurrentWeather "Open Meteo API error: "))
    end.
Proof.
  unfold callTool. cbn [name arguments].
  change ("get_current_weather" =? "get_forecast")%string with false.
  change ("get_current_weather" =? "get_current_weather")%string with true.
  cbv iota. unfold Zod.parse.
  destruct (GetCurrentWeatherArgsSchema [] args) as [parsed | issues]; [ | reflexivity].
  unfold now at 1. unfold await at 1. rewrite getCurrentWeather_run. cbv zeta.
  unfold await, now, try_catch, finish.
  destruct (reply _ _ _ _); reflexivity.
Qed.

Lemma callTool_geocode (net : upstream) (args : value) :
  callTool net {| name := "geocode"; arguments := args |}
  = match GeocodeArgsSchema [] args with
    | Zod.Invalid issues => ([], Throws (rethrow (ZodError issues)))
    | Zod.Ok parsed =>
        let url := Url.toString (geocodeRequest (GeocodeArgs.location parsed)) in
        ([url], finish (reply net url (geocodeResults (GeocodeArgs.location parsed))
                          "Geocoding API error: "))
    end.
Proof.
  unfold callTool. cbn [name arguments].
  change ("geocode" =? "get_forecast")%string with false.
  change ("geocode" =? "get_current_weather")%string with false.
  change ("geocode" =? "geocode")%string with true.
  cbv iota. unfold Zod.parse.
  destruct (GeocodeArgsSchema [] args) as [parsed | issues]; [ | reflexivity].
  unfold now at 1. unfold await at 1. rewrite geocodeLocation_run. cbv zeta.
  unfold await, now, try_catch, finish.
  destruct (reply _ _ _ _); reflexivity.
Qed.

(** ** Reading back what the serializer wrote *)

Lemma encode_byte_written c : all written (Url.encode_byte c) = true.
Proof. each_byte c; reflexivity. Qed.

Lemma encode_written s : all written (Url.encode s) = true.
Proof.
  induction s as [ | c s IH]; simpl; [reflexivity | ].
  now rewrite all_app, encode_byte_written, IH.
Qed.

Lemma written_is_not sep c :
  written sep = false -> written c = true -> is_not sep c = true.
Proof.
  intros Hs Hc. unfold is_not. destruct (Ascii.eqb_spec c sep); [ | reflexivity].
  subst. congruence.
Qed.

Lemma encode_free sep s : written sep = false -> all (is_not sep) (Url.encode s) = true.
Proof.
  intros H. apply all_weaken with (P := written); [ | apply encode_written].
  intros c. now apply written_is_not.
Qed.

Lemma plus_to_space_app s t :
  Url.plus_to_space (s ++ t) = Url.plus_to_space s ++ Url.plus_to_space t.
Proof. induction s as [ | c s IH]; simpl; [reflexivity | now rewrite IH]. Qed.

Lemma decode_byte c rest :
  Url.percent_decode (Url.plus_to_space (Url.encode_byte c) ++ rest)
  = String c (Url.percent_decode rest).
Proof. each_byte c; reflexivity. Qed.

Lemma decode_encode s : Url.decode (Url.encode s) = s.
Proof.
  unfold Url.decode. induction s as [ | c s IH]; simpl; [reflexivity | ].
  now rewrite plus_to_space_app, decode_byte, IH.
Qed.

Ltac pass_byte IH :=
  let H := fresh in
  let H1 := fresh in
  let H2 := fresh in
  unfold is_not at 1; intros H; apply andb_prop in H as [H1 H2];
  apply negb_true_iff in H1; now rewrite H1, IH.

Lemma before_app sep s t :
  all (is_not sep) s = true -> Url.before sep (s ++ String sep t) = s.
Proof.
  induction s as [ | c s IH]; simpl; [now rewrite Ascii.eqb_refl | pass_byte IH].
Qed.

Lemma after_app sep s t :
  all (is_not sep) s = true -> Url.after sep (s ++ String sep t) = Some t.
Proof.
  induction s as [ | c s IH]; simpl; [now rewrite Ascii.eqb_refl | pass_byte IH].
Qed.

Lemma split_app sep s t :
  all (is_not sep) s = true ->
  Url.split sep (s ++ String sep t) = s :: Url.split sep t.
Proof.
  induction s as [ | c s IH]; simpl; [now rewrite Ascii.eqb_refl | pass_byte IH].
Qed.

Lemma before_none sep s : all (is_not sep) s = true -> Url.before sep s = s.
Proof.
  induction s as [ | c s IH]; simpl; [reflexivity | pass_byte IH].
Qed.

Lemma after_none sep s : all (is_not sep) s = true -> Url.after sep s = None.
Proof.
  induction s as [ | c s IH]; simpl; [reflexivity | pass_byte IH].
Qed.

Lemma split_none sep s : all (is_not sep) s = true -> Url.split sep s = [s].
Proof.
  induction s as [ | c s IH]; simpl; [reflexivity | pass_byte IH].
Qed.

Lemma parse_pair_piece param : Url.parse_pair (piece param) = param.
Proof.
  destruct param as [name value]. unfold Url.parse_pair, piece.
  change ("=" ++ Url.encode value) with (String "="%char (Url.encode value)).
  rewrite before_app, after_app by (now apply encode_free).
  now rewrite !decode_encode.
Qed.

Lemma piece_free sep param :
  written sep = false -> is_not sep "=" = true -> all (is_not sep) (piece param) = true.
Proof.
  intros H E. destruct param as [name value]. unfold piece.
  rewrite !all_app, !encode_free by assumption. simpl. now rewrite E.
Qed.

Lemma serialize_cons param params :
  params <> [] ->
  Url.serialize (param :: params) = piece param ++ String "&"%char (Url.serialize params).
Proof.
  unfold Url.serialize, join. destruct params as [ | p ps]; [congruence | ].
  intros _. destruct param as [name value]. reflexivity.
Qed.

Lemma serialize_one param : Url.serialize [param] = piece param.
Proof. destruct param. reflexivity. Qed.

Lemma split_serialize params :
  params <> [] -> Url.split "&" (Url.serialize params) = map piece params.
Proof.
  induction params as [ | p ps IH]; [congruence | intros _].
  destruct ps as [ | q qs].
  - rewrite serialize_one. now rewrite split_none by (now apply piece_free).
  - rewrite serialize_cons by discriminate.
    rewrite split_app by (now apply piece_free).
    now rewrite IH by discriminate.
Qed.

Lemma filter_pieces params :
  filter (fun piece => negb (piece =? "")%string) (map piece params) = map piece params.
Proof.
  induction params as [ | [name value] ps IH]; simpl; [reflexivity | ].
  rewrite IH. destruct (Url.encode name); reflexivity.
Qed.

(** Parsing undoes serializing, for every list of parameters. *)
Lemma parse_serialize params : Url.parse (Url.serialize params) = params.
Proof.
  unfold Url.parse. destruct params as [ | p ps]; [reflexivity | ].
  rewrite split_serialize by discriminate.
  rewrite filter_pieces, map_map.
  rewrite <- (map_id (p :: ps)) at 2. apply map_ext. apply parse_pair_piece.
Qed.

Lemma serialize_free sep params :
  written sep = false -> is_not sep "=" = true -> is_not sep "&" = true ->
  all (is_not sep) (Url.serialize params) = true.
Proof.
  intros H E A. induction params as [ | p ps IH]; [reflexivity | ].
  destruct ps as [ | q qs].
  - rewrite serialize_one. now apply piece_free.
  - rewrite serialize_cons by discriminate.
    rewrite all_app, piece_free by assumption. simpl. now rewrite A, IH.
Qed.

(** [new URL(url.toString()).searchParams] holds what was appended. *)
Lemma params_of_toString (url : Url.URL) :
  all (is_not "?") (Url.href url) = true ->
  Url.params_of (Url.toString url) = Url.searchParams url.
Proof.
  intros H. unfold Url.params_of, Url.query, Url.toString.
  destruct (Url.searchParams url) as [ | p ps] eqn:E.
  - now rewrite after_none.
  - change ("?" ++ Url.serialize (p :: ps)) with (String "?"%char (Url.serialize (p :: ps))).
    rewrite after_app by assumption.
    rewrite before_none by (now apply serialize_free).
    apply parse_serialize.
Qed.

Lemma forecast_params (lat lon days : number) :
  Url.params_of (Url.toString (forecastRequest lat lon days))
  = [("latitude", Number_toString lat); ("longitude", Number_toString lon);
     ("daily",
      "temperature_2m_max,temperature_2m_min,precipitation_sum,wind_speed_10m_max,weather_code");
     ("forecast_days", Number_toString days); ("timezone", "auto")].
Proof. now rewrite params_of_toString by reflexivity. Qed.

Lemma current_params (lat lon : number) :
  Url.params_of (Url.toString (currentWeatherRequest lat lon))
  = [("latitude", Number_toString lat); ("longitude", Number_toString lon);
     ("current",
      "temperature_2m,relative_humidity_2m,precipitation,wind_speed_10m,wind_direction_10m,weather_code")].
Proof. now rewrite params_of_toString by reflexivity. Qed.

Lemma geocode_params (location : string) :
  Url.params_of (Url.toString (geocodeRequest location))
  = [("name", location); ("count", "5"); ("language", "en"); ("format", "json")].
Proof. now rewrite params_of_toString by reflexivity. Qed.

(** ** The forecast, day by day *)

Lemma for_loop_blocks (body : string -> nat -> outcome string) (block : nat -> string)
  (indices : list nat) :
  (forall result i, In i indices -> body result i = Returns (result ++ block i)) ->
  forall result,
    for_loop body result indices = Returns (result ++ join "" (map block indices)).
Proof.
  induction indices as [ | i indices IH]; intros H result; simpl.
  - now rewrite append_empty.
  - rewrite (H result i) by (now left). cbn [bind].
    rewrite IH by (intros; apply H; now right).
    rewrite append_assoc. f_equal. f_equal.
    unfold join. destruct (map block indices); simpl; [now rewrite append_empty | reflexivity].
Qed.

Lemma ToString_printable (v : value) :
  printable v = true -> ToString v = Returns (string_of v).
Proof. intros H. unfold ToString. now rewrite H. Qed.

Lemma ToString_not_printable (v : value) :
  printable v = false -> ToString v = Throws NotPrimitive.
Proof. intros H. unfold ToString. now rewrite H. Qed.

Lemma nth_printable (l : list value) (i : nat) :
  forallb printable l = true -> printable (nth i l Undefined) = true.
Proof.
  revert i. induction l as [ | v l IH]; intros i H.
  - now destruct i.
  - cbn [forallb] in H. apply andb_prop in H as [Hv Hl].
    destruct i; [exact Hv | now apply IH].
Qed.

Section Series.
Variables (daily : list (string * value)).
Variables (times maxs mins rains winds codes : list value).
Hypothesis Htime : lookup "time" daily = Arr times.
Hypothesis Hmax : lookup "temperature_2m_max" daily = Arr maxs.
Hypothesis Hmin : lookup "temperature_2m_min" daily = Arr mins.
Hypothesis Hrain : lookup "precipitation_sum" daily = Arr rains.
Hypothesis Hwind : lookup "wind_speed_10m_max" daily = Arr winds.
Hypothesis Hcode : lookup "weather_code" daily = Arr codes.
Hypothesis Ptime : forallb printable times = true.
Hypothesis Pmax : forallb printable maxs = true.
Hypothesis Pmin : forallb printable mins = true.
Hypothesis Prain : forallb printable rains = true.
Hypothesis Pwind : forallb printable winds = true.
Hypothesis Pcode : forallb printable codes = true.

Lemma forecast_day_block (result : string) (i : nat) :
  forecast_day (Obj daily) result i
  = Returns (result ++ block_at times maxs mins rains winds codes i).
Proof.
  unfold forecast_day, at_index, Get.
  rewrite Htime, Hmax, Hmin, Hrain, Hwind, Hcode. cbn [bind GetIndex].
  rewrite !ToString_printable by now apply nth_printable.
  cbn [bind]. unfold block_at, day_block. now rewrite !append_assoc.
Qed.

Lemma formatForecast_series (props : list (string * value)) :
  lookup "daily" props = Obj daily ->
  printable (lookup "latitude" props) = true ->
  printable (lookup "longitude" props) = true ->
  formatForecast (Obj props)
  = Returns (forecast_header (lookup "latitude" props) (lookup "longitude" props)
             ++ join "" (map (block_at times maxs mins rains winds codes)
                           (seq 0 (List.length times)))).
Proof.
  intros Hdaily Plat Plon. unfold formatForecast, Get. cbn [bind].
  rewrite Hdaily, Htime. rewrite !ToString_printable by assumption.
  cbn [bind GetLength iterations forecast_loop].
  rewrite (for_loop_blocks _ (block_at times maxs mins rains winds codes))
    by (intros; apply forecast_day_block).
  reflexivity.
Qed.

End Series.

Lemma blocks_of_days (days : list day) :
  map (block_at (map date days) (map high days) (map low days) (map rain days)
         (map wind days) (map weather days))
      (seq 0 (List.length days))
  = map block_of days.
Proof.
  induction days as [ | d days IH]; [reflexivity | ].
  cbn [List.length seq map]. f_equal.
  rewrite <- seq_shift, map_map. rewrite <- IH. apply map_ext. reflexivity.
Qed.

Lemma printable_days (days : list day) :
  forallb printable_day days = true ->
  forallb (forallb printable)
    [map date days; map high days; map low days; map rain days; map wind days;
     map weather days] = true.
Proof.
  induction days as [ | d days IH]; [reflexivity | ].
  cbn [forallb map]. intros H. apply andb_prop in H as [Hd Hdays].
  specialize (IH Hdays). cbn [forallb] in IH. unfold printable_day in Hd.
  rewrite !andb_true_iff in *. tauto.
Qed.

(** ** The current weather *)

Lemma current_weather_text (props : list (string * value)) :
  formatCurrentWeather (Obj props)
  = if printable (lookup "latitude" props) && printable (lookup "longitude" props)
    then match lookup "current" props with
         | Undefined | Null => Throws (TypeError "time")
         | current =>
             if forallb (fun field => printable (property_of current field)) current_fields
             then Returns (current_report (lookup "latitude" props)
                             (lookup "longitude" props)
                             match current with
                             | Obj fields => fields
                             | _ => []
                             end)
             else Throws NotPrimitive
         end
    else Throws NotPrimitive.
Proof.
  unfold formatCurrentWeather. cbn [Get bind]. unfold ToString at 1.
  destruct (printable (lookup "latitude" props)); cbn [bind andb]; [ | reflexivity].
  unfold ToString at 1.
  destruct (printable (lookup "longitude" props)); cbn [bind]; [ | reflexivity].
  destruct (lookup "current" props) as [ | | b | x | s | l | fields];
    cbn [Get bind]; try reflexivity;
    unfold current_fields; cbn [forallb property_of lookup]; unfold ToString;
    cbn [printable bind andb];
    repeat match goal with
           | |- context [printable (lookup ?f ?c)] =>
               destruct (printable (lookup f c)); cbn [bind andb]; [ | reflexivity]
           end;
    unfold current_report; cbn [lookup]; now rewrite !append_assoc.
Qed.

(** ** Reading digits back *)

Ltac each_digit d H :=
  let C := fresh in
  assert (C : d = 0 \/ d = 1 \/ d = 2 \/ d = 3 \/ d = 4 \/ d = 5 \/ d = 6 \/ d = 7
              \/ d = 8 \/ d = 9) by lia;
  clear H; repeat (destruct C as [-> | C]; [reflexivity | ]); subst; reflexivity.

Lemma digit_value_digit (d : Z) :
  0 <= d < 10 -> digit_value 10 (digit d) = Some d.
Proof. intros H. each_digit d H. Qed.

Lemma digit_is_digit (d : Z) : 0 <= d < 10 -> is_digit (digit d) = true.
Proof. intros H. each_digit d H. Qed.

Lemma digit_not_I (d : Z) (rest : string) :
  0 <= d < 10 -> (String (digit d) rest =? "Infinity")%string = false.
Proof. intros H. each_digit d H. Qed.

Lemma read_digits_digits (k : nat) (z : Z) (rest : string) (acc count : Z) :
  0 <= z ->
  read_digits 10 (digits k z ++ rest) acc count
  = read_digits 10 rest (acc * 10 ^ Z.of_nat k + z mod 10 ^ Z.of_nat k)
      (count + Z.of_nat k).
Proof.
  intros Hz. revert acc count.
  induction k as [ | k IH]; intros acc count.
  - cbn [digits append]. rewrite Z.pow_0_r, Z.mod_1_r. f_equal; lia.
  - cbn [digits append read_digits].
    rewrite digit_value_digit by (apply Z.mod_pos_bound; lia).
    rewrite IH. f_equal; [ | lia].
    rewrite Nat2Z.inj_succ, Z.pow_succ_r by lia.
    rewrite (Z.mul_comm 10 (10 ^ Z.of_nat k)).
    rewrite (Z.rem_mul_r z (10 ^ Z.of_nat k) 10) by lia.
    ring.
Qed.

Lemma read_digits_zeros (j : nat) (rest : string) (acc count : Z) :
  read_digits 10 (zeros j ++ rest) acc count
  = read_digits 10 rest (acc * 10 ^ Z.of_nat j) (count + Z.of_nat j).
Proof.
  revert acc count. induction j as [ | j IH]; intros acc count.
  - cbn [zeros append]. rewrite Z.pow_0_r. f_equal; lia.
  - cbn [zeros append read_digits]. change (digit_value 10 "0") with (Some 0).
    cbv iota. rewrite IH. f_equal; [ | lia].
    rewrite Nat2Z.inj_succ, Z.pow_succ_r by lia. ring.
Qed.

Lemma read_digits_stop (c : ascii) (rest : string) (acc count : Z) :
  digit_value 10 c = None ->
  read_digits 10 (String c rest) acc count = (acc, count, String c rest).
Proof. intros H. cbn [read_digits]. now rewrite H. Qed.

Lemma count_digits_bound (fuel : nat) (z : Z) :
  0 <= z < 2 ^ Z.of_nat fuel * 10 ->
  z < 10 ^ Z.of_nat (count_digits fuel z).
Proof.
  revert z. induction fuel as [ | fuel IH]; intros z H.
  - cbn [count_digits]. simpl in *. lia.
  - cbn [count_digits]. destruct (z <? 10) eqn:E.
    + apply Z.ltb_lt in E. simpl. lia.
    + apply Z.ltb_ge in E.
      rewrite Nat2Z.inj_succ, Z.pow_succ_r by lia.
      assert (B : z / 10 < 10 ^ Z.of_nat (count_digits fuel (z / 10))).
      { apply IH. split; [apply Z.div_pos; lia | ].
        apply Z.div_lt_upper_bound; [lia | ].
        rewrite Nat2Z.inj_succ, Z.pow_succ_r in H by lia. lia. }
      pose proof (Z.div_mod z 10 ltac:(lia)) as D.
      pose proof (Z.mod_pos_bound z 10 ltac:(lia)). lia.
Qed.

Lemma dec_bound (z : Z) :
  0 <= z -> z < 10 ^ Z.of_nat (count_digits (Z.to_nat (Z.log2 z)) z).
Proof.
  intros H. apply count_digits_bound. split; [assumption | ].
  destruct (Z.eq_dec z 0) as [-> | N]; [simpl; lia | ].
  rewrite Z2Nat.id by apply Z.log2_nonneg.
  pose proof (Z.log2_spec z ltac:(lia)) as [_ L].
  rewrite Z.pow_succ_r in L by apply Z.log2_nonneg. lia.
Qed.

Lemma count_digits_pos (fuel : nat) (z : Z) : (1 <= count_digits fuel z)%nat.
Proof. destruct fuel; cbn [count_digits]; [lia | destruct (z <? 10); lia]. Qed.

Lemma read_digits_dec (z : Z) :
  0 <= z ->
  exists count, 0 < count /\ read_digits 10 (dec z) 0 0 = (z, count, EmptyString).
Proof.
  intros H. unfold dec.
  set (k := count_digits (Z.to_nat (Z.log2 z)) z).
  exists (Z.of_nat k).
  split; [pose proof (count_digits_pos (Z.to_nat (Z.log2 z)) z); lia | ].
  rewrite <- (append_empty (digits k z)).
  rewrite read_digits_digits by assumption. cbn [read_digits].
  rewrite Z.mod_small by (split; [assumption | apply dec_bound; assumption]).
  f_equal.
Qed.

Lemma digits_not_Infinity (k : nat) (z : Z) (rest : string) :
  (0 < k)%nat -> (digits k z ++ rest =? "Infinity")%string = false.
Proof.
  destruct k as [ | k]; [lia | intros _].
  cbn [digits append]. apply digit_not_I. apply Z.mod_pos_bound. lia.
Qed.

Lemma read_exponent_part (e : Z) :
  read_exponent (exponent_part e) = Some (e, EmptyString).
Proof.
  unfold exponent_part, read_exponent. cbn [append].
  change (Ascii.eqb "e" "e") with true. cbn [orb].
  destruct (read_digits_dec (Z.abs e) (Z.abs_nonneg e)) as (count & Hc & R).
  destruct (e <? 0) eqn:E; cbn [append]; rewrite R.
  - apply Z.ltb_lt in E. destruct (count =? 0) eqn:C; [apply Z.eqb_eq in C; lia | ].
    f_equal. f_equal. lia.
  - apply Z.ltb_ge in E. destruct (count =? 0) eqn:C; [apply Z.eqb_eq in C; lia | ].
    f_equal. f_equal. lia.
Qed.

Lemma round_decimal_integer (neg : bool) (s q : Z) :
  0 < s -> 0 <= q -> round_decimal neg (s * 10 ^ q) 0 = round_decimal neg s q.
Proof.
  intros Hs Hq. unfold round_decimal.
  assert (P : 0 < 10 ^ q) by (apply Z.pow_pos_nonneg; lia).
  destruct (s * 10 ^ q =? 0) eqn:E; [apply Z.eqb_eq in E; nia | ].
  destruct (s =? 0) eqn:E'; [apply Z.eqb_eq in E'; lia | ].
  change (0 <=? 0) with true. cbv iota.
  destruct (0 <=? q) eqn:Q; [ | apply Z.leb_gt in Q; lia].
  now rewrite Z.pow_0_r, Z.mul_1_r.
Qed.

(** ** Reading back what [render] wrote *)

Section Render.
Variables (neg : bool) (s n k : Z).
Hypothesis Hk : 1 <= k.
Hypothesis Hs : 10 ^ (k - 1) <= s < 10 ^ k.

Lemma rendered_is_positive : 0 < s.
Proof. assert (0 < 10 ^ (k - 1)) by (apply Z.pow_pos_nonneg; lia). lia. Qed.

Lemma render_integer :
  k <= n ->
  unsigned_decimal neg (digits (Z.to_nat k) s ++ zeros (Z.to_nat (n - k)))
  = round_decimal neg s (n - k).
Proof.
  intros Hn. pose proof rendered_is_positive as Pos. unfold unsigned_decimal.
  rewrite digits_not_Infinity by lia.
  rewrite <- (append_empty (zeros _)).
  rewrite read_digits_digits, read_digits_zeros by lia.
  cbn [read_digits]. rewrite !Z2Nat.id by lia.
  rewrite Z.mod_small by lia.
  destruct (0 + k + (n - k) + 0 =? 0) eqn:E; [apply Z.eqb_eq in E; lia | ].
  change (read_exponent "") with (Some (0, EmptyString)). cbv iota.
  rewrite Z.pow_0_r, Z.mul_1_r, Z.add_0_r, Z.sub_0_r.
  rewrite Z.mul_0_l, Z.add_0_l.
  now apply round_decimal_integer; lia.
Qed.

Lemma render_fraction :
  0 < n -> n < k ->
  unsigned_decimal neg (digits (Z.to_nat n) (s / 10 ^ (k - n)) ++ "."
                        ++ digits (Z.to_nat (k - n)) s)
  = round_decimal neg s (n - k).
Proof.
  intros Hn Hnk. pose proof rendered_is_positive as Pos. unfold unsigned_decimal.
  assert (P : 0 < 10 ^ (k - n)) by (apply Z.pow_pos_nonneg; lia).
  assert (H0 : 0 <= s / 10 ^ (k - n)) by (apply Z.div_pos; lia).
  assert (H1 : s / 10 ^ (k - n) < 10 ^ n).
  { apply Z.div_lt_upper_bound; [lia | ]. rewrite <- Z.pow_add_r by lia.
    replace (k - n + n) with k by lia. lia. }
  rewrite digits_not_Infinity by lia.
  rewrite read_digits_digits by assumption.
  cbn [append]. rewrite read_digits_stop by reflexivity.
  rewrite <- (append_empty (digits _ s)).
  rewrite read_digits_digits by lia. cbn [read_digits].
  rewrite !Z2Nat.id by lia.
  destruct (0 + n + (0 + (k - n)) =? 0) eqn:E; [apply Z.eqb_eq in E; lia | ].
  change (read_exponent "") with (Some (0, EmptyString)). cbv iota.
  f_equal; [ | lia].
  rewrite !Z.mul_0_l, !Z.add_0_l.
  rewrite (Z.mod_small (s / 10 ^ (k - n))) by lia.
  pose proof (Z.div_mod s (10 ^ (k - n)) ltac:(lia)). lia.
Qed.

Lemma render_small :
  n <= 0 ->
  unsigned_decimal neg ("0." ++ zeros (Z.to_nat (- n)) ++ digits (Z.to_nat k) s)
  = round_decimal neg s (n - k).
Proof.
  intros Hn. pose proof rendered_is_positive as Pos. unfold unsigned_decimal.
  change ("0." ++ ?x) with (String "0" (String "." x)).
  change (String "0" (String "." ?x) =? "Infinity")%string with false. cbv iota.
  cbn [read_digits]. change (digit_value 10 "0") with (Some 0).
  change (digit_value 10 ".") with (@None Z). cbv iota.
  rewrite <- (append_empty (digits _ s)).
  rewrite read_digits_zeros, read_digits_digits by lia. cbn [read_digits].
  rewrite !Z2Nat.id by lia.
  destruct (0 + 1 + (0 + - n + k) =? 0) eqn:E; [apply Z.eqb_eq in E; lia | ].
  change (read_exponent "") with (Some (0, EmptyString)). cbv iota.
  f_equal; [ | lia].
  rewrite !Z.mul_0_l, !Z.add_0_l.
  rewrite Z.mod_small by lia. lia.
Qed.

Lemma render_exponent_one :
  k = 1 ->
  unsigned_decimal neg (digits 1 s ++ exponent_part (n - 1))
  = round_decimal neg s (n - k).
Proof.
  intros K. pose proof Hs as Hs'. rewrite K in Hs'. unfold unsigned_decimal.
  rewrite digits_not_Infinity by lia.
  rewrite (read_digits_digits 1) by lia.
  unfold exponent_part at 1. cbn [append].
  rewrite read_digits_stop by reflexivity. cbv iota.
  change (String "e" ((if n - 1 <? 0 then "-" else "+") ++ dec (Z.abs (n - 1))))
    with (exponent_part (n - 1)).
  rewrite read_exponent_part.
  change (Z.of_nat 1) with 1. change (10 ^ 1) with 10 in *.
  change (10 ^ (1 - 1)) with 1 in *.
  destruct (0 + 1 + 0 =? 0) eqn:E; [discriminate | ].
  f_equal; [ | lia]. rewrite Z.mod_small by lia. lia.
Qed.

Lemma render_exponent_many :
  1 < k ->
  unsigned_decimal neg (digits 1 (s / 10 ^ (k - 1)) ++ "." ++ digits (Z.to_nat (k - 1)) s
                        ++ exponent_part (n - 1))
  = round_decimal neg s (n - k).
Proof.
  intros K. pose proof rendered_is_positive as Pos. unfold unsigned_decimal.
  assert (P : 0 < 10 ^ (k - 1)) by (apply Z.pow_pos_nonneg; lia).
  assert (H0 : 0 <= s / 10 ^ (k - 1)) by (apply Z.div_pos; lia).
  assert (H1 : s / 10 ^ (k - 1) < 10).
  { apply Z.div_lt_upper_bound; [lia | ].
    replace (10 ^ (k - 1) * 10) with (10 ^ k); [lia | ].
    replace k with (Z.succ (k - 1)) at 1 by lia. rewrite Z.pow_succ_r by lia. ring. }
  rewrite digits_not_Infinity by lia.
  rewrite (read_digits_digits 1) by assumption.
  cbn [append]. rewrite read_digits_stop by reflexivity.
  rewrite read_digits_digits by lia.
  unfold exponent_part at 1. cbn [append].
  rewrite read_digits_stop by reflexivity.
  change (String "e" ((if n - 1 <? 0 then "-" else "+") ++ dec (Z.abs (n - 1))))
    with (exponent_part (n - 1)).
  rewrite read_exponent_part.
  rewrite !Z2Nat.id by lia. change (Z.of_nat 1) with 1. change (10 ^ 1) with 10.
  destruct (0 + 1 + (0 + (k - 1)) =? 0) eqn:E; [apply Z.eqb_eq in E; lia | ].
  f_equal; [ | lia].
  rewrite !Z.mul_0_l, !Z.add_0_l.
  rewrite (Z.mod_small (s / 10 ^ (k - 1))) by lia.
  pose proof (Z.div_mod s (10 ^ (k - 1)) ltac:(lia)). lia.
Qed.

(** Reading what [render] wrote gives 𝔽(s × 10^(n-k)). *)
Lemma unsigned_decimal_render :
  unsigned_decimal neg (render s n k) = round_decimal neg s (n - k).
Proof.
  unfold render.
  destruct ((k <=? n) && (n <=? 21)) eqn:C1.
  { apply andb_prop in C1 as [C _]. apply Z.leb_le in C. now apply render_integer. }
  destruct ((0 <? n) && (n <=? 21)) eqn:C2.
  { apply andb_prop in C2 as [C C']. apply Z.ltb_lt in C.
    apply render_fraction; [assumption | ].
    destruct (k <=? n) eqn:K; [ | apply Z.leb_gt in K; assumption].
    rewrite C' in C1. discriminate C1. }
  destruct ((-6 <? n) && (n <=? 0)) eqn:C3.
  { apply andb_prop in C3 as [_ C]. apply Z.leb_le in C. now apply render_small. }
  cbv zeta. destruct (k =? 1) eqn:K.
  - apply Z.eqb_eq in K. now apply render_exponent_one.
  - apply Z.eqb_neq in K. apply render_exponent_many. lia.
Qed.

End Render.

(** ** Nothing to trim, and no prefix, in a rendered number *)

Lemma is_digit_numeric (c : ascii) : is_digit c = true -> numeric c = true.
Proof. each_byte c; intros H; try discriminate H; reflexivity. Qed.

Lemma numeric_plain (c : ascii) :
  numeric c = true ->
  is_continuation c = false /\ is_white_space (String c EmptyString) = false.
Proof. each_byte c; intros H; try discriminate H; split; reflexivity. Qed.

Lemma digits_numeric (k : nat) (z : Z) : all numeric (digits k z) = true.
Proof.
  induction k as [ | k IH]; [reflexivity | ].
  cbn [digits all]. rewrite IH, is_digit_numeric; [reflexivity | ].
  apply digit_is_digit. apply Z.mod_pos_bound. lia.
Qed.

Lemma zeros_numeric (j : nat) : all numeric (zeros j) = true.
Proof. induction j as [ | j IH]; [reflexivity | ]. cbn [zeros all]. now rewrite IH. Qed.

Lemma dec_numeric (z : Z) : all numeric (dec z) = true.
Proof. apply digits_numeric. Qed.

Lemma render_numeric (s n k : Z) : all numeric (render s n k) = true.
Proof.
  unfold render. cbv zeta.
  destruct ((k <=? n) && (n <=? 21));
    [ | destruct ((0 <? n) && (n <=? 21));
        [ | destruct ((-6 <? n) && (n <=? 0));
            [ | destruct (k =? 1); destruct (n - 1 <? 0)]]];
    now rewrite ?all_app, ?digits_numeric, ?zeros_numeric, ?dec_numeric.
Qed.

Lemma first_digit_S (k : nat) (z : Z) (rest : string) :
  exists c tail, digits (S k) z ++ rest = String c tail /\ is_digit c = true.
Proof.
  eexists. eexists. split; [reflexivity | ].
  apply digit_is_digit. apply Z.mod_pos_bound. lia.
Qed.

Lemma render_starts_with_digit (s n k : Z) :
  1 <= k -> exists c tail, render s n k = String c tail /\ is_digit c = true.
Proof.
  intros Hk. unfold render.
  destruct ((k <=? n) && (n <=? 21)) eqn:C1.
  { destruct (Z.to_nat k) as [ | k'] eqn:K; [lia | apply first_digit_S]. }
  destruct ((0 <? n) && (n <=? 21)) eqn:C2.
  { apply andb_prop in C2 as [C _]. apply Z.ltb_lt in C.
    destruct (Z.to_nat n) as [ | n'] eqn:N; [lia | apply first_digit_S]. }
  destruct ((-6 <? n) && (n <=? 0)).
  { eexists. eexists. split; reflexivity. }
  cbv zeta. destruct (k =? 1); apply (first_digit_S 0).
Qed.

Lemma chars_from_plain (cur s : string) :
  all numeric s = true ->
  chars_from cur s = cur :: map single (list_ascii_of_string s).
Proof.
  revert cur. induction s as [ | c s IH]; intros cur H; [reflexivity | ].
  cbn [all] in H. apply andb_prop in H as [H1 H2].
  cbn [chars_from]. rewrite (proj1 (numeric_plain c H1)).
  now rewrite IH.
Qed.

Lemma code_points_plain (s : string) :
  all numeric s = true -> code_points s = map single (list_ascii_of_string s).
Proof.
  destruct s as [ | c s]; [reflexivity | ]. intros H.
  cbn [all] in H. apply andb_prop in H as [H1 H2].
  cbn [code_points]. now rewrite chars_from_plain.
Qed.

Lemma drop_white_space_none (l : list string) :
  Forall (fun ch => is_white_space ch = false) l -> drop_white_space l = l.
Proof.
  intros H. destruct H as [ | ch l H _]; [reflexivity | ].
  cbn [drop_white_space]. now rewrite H.
Qed.

Lemma singles_not_white (s : string) :
  all numeric s = true ->
  Forall (fun ch => is_white_space ch = false) (map single (list_ascii_of_string s)).
Proof.
  induction s as [ | c s IH]; intros H; [constructor | ].
  cbn [all] in H. apply andb_prop in H as [H1 H2].
  cbn [list_ascii_of_string map]. constructor; [ | now apply IH].
  apply (numeric_plain c H1).
Qed.

Lemma join_singles (s : string) : join "" (map single (list_ascii_of_string s)) = s.
Proof.
  unfold join. induction s as [ | c s IH]; [reflexivity | ].
  cbn [list_ascii_of_string map String.concat].
  destruct (map single (list_ascii_of_string s)) eqn:E.
  - destruct s; [reflexivity | discriminate E].
  - cbn [append single]. cbn [append] in IH. now rewrite IH.
Qed.

Lemma trim_numeric (s : string) : all numeric s = true -> trim s = s.
Proof.
  intros H. unfold trim. rewrite code_points_plain by assumption.
  pose proof (singles_not_white s H) as F.
  rewrite (drop_white_space_none _ F).
  rewrite (drop_white_space_none _ (Forall_rev F)).
  rewrite rev_involutive. apply join_singles.
Qed.

Lemma StringToNumber_unsigned (c : ascii) (tail : string) :
  is_digit c = true -> all numeric tail = true ->
  StringToNumber (String c tail) = SF2Prim (unsigned_decimal false (String c tail)).
Proof.
  intros D N. unfold StringToNumber.
  rewrite trim_numeric by (cbn [all]; now rewrite is_digit_numeric, N).
  revert D. each_byte c; intros D; try discriminate D; try reflexivity.
  destruct tail as [ | c1 t1]; [reflexivity | ].
  cbn [all] in N. apply andb_prop in N as [N1 _].
  revert N1. each_byte c1; intros N1; try discriminate N1; reflexivity.
Qed.

Lemma StringToNumber_negative (s : string) :
  all numeric s = true ->
  StringToNumber (String "-" s) = SF2Prim (unsigned_decimal true s).
Proof.
  intros N. unfold StringToNumber.
  rewrite trim_numeric by (cbn [all]; now rewrite N). reflexivity.
Qed.

(** [Number(text)] for the text of the digits [s], [n], [k]. *)
Lemma StringToNumber_render (neg : bool) (s n k : Z) :
  1 <= k -> 10 ^ (k - 1) <= s < 10 ^ k ->
  StringToNumber ((if neg then "-" else "") ++ render s n k)
  = SF2Prim (round_decimal neg s (n - k)).
Proof.
  intros Hk Hs. destruct neg; cbn [append].
  - rewrite StringToNumber_negative by apply render_numeric.
    now rewrite unsigned_decimal_render.
  - destruct (render_starts_with_digit s n k Hk) as (c & tail & E & D).
    pose proof (render_numeric s n k) as N. rewrite E in N.
    cbn [all] in N. apply andb_prop in N as [_ N].
    rewrite <- (unsigned_decimal_render false s n k Hk Hs). rewrite E.
    now apply StringToNumber_unsigned.
Qed.

(** ** The digits that [Number_toString] finds *)

Lemma sf_is_eq (a b : spec_float) : sf_is a b = true -> a = b.
Proof.
  destruct a as [ | | | s1 m1 e1], b as [ | | | s2 m2 e2]; try discriminate.
  cbn [sf_is]. intros H. apply andb_prop in H as [H He]. apply andb_prop in H as [Hs Hm].
  apply Bool.eqb_prop in Hs. apply Pos.eqb_eq in Hm. apply Z.eqb_eq in He. now subst.
Qed.

Lemma sf_is_refl (s : bool) (m : positive) (e : Z) :
  sf_is (S754_finite s m e) (S754_finite s m e) = true.
Proof. cbn [sf_is]. now rewrite Bool.eqb_reflx, Pos.eqb_refl, Z.eqb_refl. Qed.

Lemma fits_spec (x : spec_float) (k s n : Z) :
  fits x k (s, n) = true ->
  10 ^ (k - 1) <= s < 10 ^ k /\ round_decimal false s (n - k) = x.
Proof.
  unfold fits. intros H. apply andb_prop in H as [H R]. apply andb_prop in H as [L U].
  apply Z.leb_le in L. apply Z.ltb_lt in U. apply sf_is_eq in R. auto.
Qed.

Lemma candidate_fits (x : spec_float) (v : Z * Z) (n k : Z) (sn : Z * Z) :
  candidate x v n k = Some sn -> fits x k sn = true.
Proof.
  unfold candidate.
  set (down := (scaled_floor v (n - k), n)).
  set (up := if scaled_floor v (n - k) + 1 =? 10 ^ k then (10 ^ (k - 1), n + 1)
             else (scaled_floor v (n - k) + 1, n)).
  destruct (fits x k down) eqn:D, (fits x k up) eqn:U; try discriminate.
  - destruct (compare_midpoint _ _ _); [destruct (Z.even _) | | ]; congruence.
  - congruence.
  - congruence.
Qed.

Lemma candidate_found (x : spec_float) (v : Z * Z) (n k : Z) :
  fits x k (scaled_floor v (n - k), n) = true -> candidate x v n k <> None.
Proof.
  intros H. unfold candidate. cbv zeta. rewrite H. clear H.
  match goal with |- context [if ?b then match _ with Eq => _ | _ => _ end else _] =>
    destruct b end; [ | discriminate].
  destruct (compare_midpoint _ _ _); [destruct (Z.even _) | | ]; discriminate.
Qed.

Lemma shortest_fits (fuel : nat) (x : spec_float) (v : Z * Z) (n k s n' k' : Z) :
  shortest fuel x v n k = Some (s, n', k') ->
  k <= k' /\ fits x k' (s, n') = true.
Proof.
  revert k. induction fuel as [ | fuel IH]; intros k; [discriminate | ].
  cbn [shortest]. destruct (candidate x v n k) as [[s0 n0] | ] eqn:C.
  - intros E. inversion E; subst. split; [lia | ]. now apply candidate_fits in C.
  - intros E. apply IH in E. split; [lia | tauto].
Qed.

Lemma shortest_found (fuel : nat) (x : spec_float) (v : Z * Z) (n k k0 : Z) :
  k <= k0 < k + Z.of_nat fuel ->
  candidate x v n k0 <> None ->
  shortest fuel x v n k <> None.
Proof.
  revert k. induction fuel as [ | fuel IH]; intros k R C; [lia | ].
  cbn [shortest]. destruct (candidate x v n k) as [[s n'] | ] eqn:E; [discriminate | ].
  destruct (Z.eq_dec k k0) as [-> | N]; [congruence | ].
  apply IH; [lia | assumption].
Qed.

(** The sign is put on the rounded value as it is. *)
Lemma binary_round_aux_sign (neg : bool) (mx ex : Z) (lx : location) (m : positive) (e : Z) :
  binary_round_aux prec emax false mx ex lx = S754_finite false m e ->
  binary_round_aux prec emax neg mx ex lx = S754_finite neg m e.
Proof.
  unfold binary_round_aux.
  destruct (shr_fexp prec emax mx ex lx) as [mrs' e'].
  destruct (shr_fexp prec emax _ e' loc_Exact) as [mrs'' e''].
  destruct (shr_m mrs''); try discriminate.
  destruct (e'' <=? emax - prec); try discriminate.
  intros H. inversion H. reflexivity.
Qed.

Lemma round_decimal_sign (neg : bool) (s q : Z) (m : positive) (e : Z) :
  round_decimal false s q = S754_finite false m e ->
  round_decimal neg s q = S754_finite neg m e.
Proof.
  unfold round_decimal, round_ratio.
  destruct (s =? 0); [discriminate | ].
  destruct (0 <=? q); apply binary_round_aux_sign.
Qed.

(** [Number(x.toString())] is [x] as soon as the search for the digits
    ends within its bound. *)
Lemma round_trip_finite (x : float) (neg : bool) (m : positive) (e : Z) :
  Prim2SF x = S754_finite neg m e ->
  shortest 800 (S754_finite false m e) (fraction m e) (decimal_exponent m e) 1 <> None ->
  StringToNumber (Number_toString x) = x.
Proof.
  intros Hx Hs. unfold Number_toString. rewrite Hx.
  destruct (shortest _ _ _ _ _) as [[[s n] k] | ] eqn:S; [ | congruence].
  apply shortest_fits in S as [Hk F]. apply fits_spec in F as [B R].
  rewrite StringToNumber_render by assumption.
  rewrite (round_decimal_sign neg _ _ _ _ R), <- Hx.
  apply SF2Prim_Prim2SF.
Qed.

(** ** Rounding a value that is a binary64 value already *)

Lemma shl_value (m : positive) (t : nat) : Zpos (shl m t) = Zpos m * 2 ^ Z.of_nat t.
Proof.
  induction t as [ | t IH]; [cbn [shl]; lia | ].
  cbn [shl]. rewrite (Pos2Z.inj_xO (shl m t)), IH, Nat2Z.inj_succ, Z.pow_succ_r by lia.
  ring.
Qed.

Lemma shl_digits (m : positive) (t : nat) :
  Zpos (digits2_pos (shl m t)) = Zpos (digits2_pos m) + Z.of_nat t.
Proof.
  induction t as [ | t IH]; [cbn [shl]; lia | ].
  cbn [shl digits2_pos]. rewrite Pos2Z.inj_succ, IH. lia.
Qed.

Lemma iter_pos_nat {A} (f : A -> A) (p : positive) (x : A) :
  iter_pos f p x = Nat.iter (Pos.to_nat p) f x.
Proof.
  revert x. induction p as [p IH | p IH | ]; intros x; cbn [iter_pos].
  - rewrite !IH, Pos2Nat.inj_xI.
    replace (S (2 * Pos.to_nat p)) with (Pos.to_nat p + (Pos.to_nat p + 1))%nat by lia.
    rewrite !Nat.iter_add. reflexivity.
  - rewrite !IH, Pos2Nat.inj_xO.
    replace (2 * Pos.to_nat p)%nat with (Pos.to_nat p + Pos.to_nat p)%nat by lia.
    now rewrite Nat.iter_add.
  - reflexivity.
Qed.

Lemma shr_1_shl (m : positive) (t : nat) :
  Nat.iter t shr_1 {| shr_m := Zpos (shl m t); shr_r := false; shr_s := false |}
  = {| shr_m := Zpos m; shr_r := false; shr_s := false |}.
Proof.
  induction t as [ | t IH]; [reflexivity | ].
  rewrite Nat.iter_succ_r. cbn [shl shr_1 orb]. exact IH.
Qed.

Lemma binary_round_aux_exact (neg : bool) (m : positive) (e : Z) (t : nat) :
  bounded prec emax m e = true ->
  binary_round_aux prec emax neg (Zpos (shl m t)) (e - Z.of_nat t) loc_Exact
  = S754_finite neg m e.
Proof.
  intros B. unfold bounded in B. apply andb_prop in B as [C E].
  assert (F : fexp prec emax (Zpos (digits2_pos m) + e) = e)
    by (now apply Z.eqb_eq).
  assert (R : shr_fexp prec emax (Zpos (shl m t)) (e - Z.of_nat t) loc_Exact
              = ({| shr_m := Zpos m; shr_r := false; shr_s := false |}, e)).
  { unfold shr_fexp. cbn [Zdigits2 shr_record_of_loc].
    rewrite shl_digits.
    replace (Zpos (digits2_pos m) + Z.of_nat t + (e - Z.of_nat t))
      with (Zpos (digits2_pos m) + e) by lia.
    rewrite F. replace (e - (e - Z.of_nat t)) with (Z.of_nat t) by lia.
    destruct t as [ | t].
    - cbn [Z.of_nat shr shl]. f_equal. lia.
    - cbn [Z.of_nat]. unfold shr.
      rewrite iter_pos_nat, SuccNat2Pos.id_succ, shr_1_shl. f_equal. lia. }
  unfold binary_round_aux. rewrite R. cbn [shr_m loc_of_shr_record round_nearest_even].
  assert (R0 : shr_fexp prec emax (Zpos m) e loc_Exact
               = ({| shr_m := Zpos m; shr_r := false; shr_s := false |}, e)).
  { unfold shr_fexp. cbn [Zdigits2 shr_record_of_loc]. rewrite F, Z.sub_diag. reflexivity. }
  rewrite R0. cbn [shr_m]. now rewrite E.
Qed.

Lemma digits2_pos_bounds (p : positive) :
  2 ^ (Zpos (digits2_pos p) - 1) <= Zpos p < 2 ^ Zpos (digits2_pos p).
Proof.
  induction p as [p IH | p IH | ]; cbn [digits2_pos].
  - rewrite Pos2Z.inj_succ, (Pos2Z.inj_xI p).
    replace (Z.succ (Zpos (digits2_pos p)) - 1) with (Z.succ (Zpos (digits2_pos p) - 1)) by lia.
    rewrite !Z.pow_succ_r by lia.
    generalize dependent (2 ^ (Zpos (digits2_pos p) - 1)).
    generalize dependent (2 ^ Zpos (digits2_pos p)). intros; lia.
  - rewrite Pos2Z.inj_succ, (Pos2Z.inj_xO p).
    replace (Z.succ (Zpos (digits2_pos p)) - 1) with (Z.succ (Zpos (digits2_pos p) - 1)) by lia.
    rewrite !Z.pow_succ_r by lia.
    generalize dependent (2 ^ (Zpos (digits2_pos p) - 1)).
    generalize dependent (2 ^ Zpos (digits2_pos p)). intros; lia.
  - cbv. split; [discriminate | reflexivity].
Qed.

Lemma Zdigits2_bounds (z : Z) :
  0 < z -> 2 ^ (Zdigits2 z - 1) <= z < 2 ^ Zdigits2 z.
Proof. destruct z as [ | p | p]; try lia. intros _. apply digits2_pos_bounds. Qed.

Lemma Zdigits2_pos (z : Z) : 0 < z -> 0 < Zdigits2 z.
Proof. destruct z; cbn [Zdigits2]; lia. Qed.

(** [z < 2^b] bounds the number of bits of [z]. *)
Lemma Zdigits2_le (z b : Z) : 0 < z -> z < 2 ^ b -> Zdigits2 z <= b.
Proof.
  intros Hz H. pose proof (Zdigits2_bounds z Hz) as [L _].
  pose proof (Zdigits2_pos z Hz).
  destruct (Z.le_gt_cases (Zdigits2 z) b) as [ | G]; [assumption | exfalso].
  assert (0 <= b)
    by (destruct (Z.le_gt_cases 0 b); [assumption | rewrite Z.pow_neg_r in H; lia]).
  assert (2 ^ b <= 2 ^ (Zdigits2 z - 1)) by (apply Z.pow_le_mono_r; lia).
  lia.
Qed.

(** [2^b <= z] too. *)
Lemma Zdigits2_gt (z b : Z) : 0 < z -> 0 <= b -> 2 ^ b <= z -> b < Zdigits2 z.
Proof.
  intros Hz Hb H. pose proof (Zdigits2_bounds z Hz) as [_ U].
  pose proof (Zdigits2_pos z Hz).
  destruct (Z.lt_ge_cases b (Zdigits2 z)) as [ | G]; [assumption | exfalso].
  assert (2 ^ Zdigits2 z <= 2 ^ b) by (apply Z.pow_le_mono_r; lia).
  lia.
Qed.

Lemma round_ratio_exact (neg : bool) (m : positive) (e p d : Z) :
  bounded prec emax m e = true ->
  0 < d ->
  (let sh := Z.max 0 (Zdigits2 d - Zdigits2 p + 55) in
   0 <= e + sh /\ p * 2 ^ sh = d * (Zpos m * 2 ^ (e + sh))) ->
  round_ratio neg p d = S754_finite neg m e.
Proof.
  intros B Hd. cbv zeta. intros [T E]. unfold round_ratio. rewrite E.
  rewrite Z.mul_comm, Z.div_mul, Z.mod_mul by lia.
  change (0 =? 0) with true. cbv iota.
  rewrite <- (Z2Nat.id _ T), <- shl_value.
  set (sh := Z.max 0 (Zdigits2 d - Zdigits2 p + 55)) in *.
  replace (- sh) with (e - Z.of_nat (Z.to_nat (e + sh))) by lia.
  now apply binary_round_aux_exact.
Qed.

(** What [valid_binary] says of a mantissa and its exponent. *)
Lemma bounded_ranges (m : positive) (e : Z) :
  bounded prec emax m e = true ->
  Zpos m < 2 ^ 53 /\ -1074 <= e <= 971 /\ Zpos (digits2_pos m) <= 53.
Proof.
  unfold bounded, canonical_mantissa, fexp, SpecFloat.emin, emax, prec.
  intros H. apply andb_prop in H as [C E]. apply Z.eqb_eq in C. apply Z.leb_le in E.
  assert (D : Zpos (digits2_pos m) <= 53) by lia.
  pose proof (digits2_pos_bounds m) as [_ U].
  assert (2 ^ Zpos (digits2_pos m) <= 2 ^ 53) by (apply Z.pow_le_mono_r; lia).
  lia.
Qed.

(** An integer [m × 2^e]. *)
Lemma round_integer_exact (neg : bool) (m : positive) (e : Z) :
  bounded prec emax m e = true -> 0 <= e ->
  round_decimal neg (Zpos m * 2 ^ e) 0 = S754_finite neg m e.
Proof.
  intros B He. unfold round_decimal.
  assert (P : 0 < 2 ^ e) by (apply Z.pow_pos_nonneg; lia).
  destruct (Zpos m * 2 ^ e =? 0) eqn:Z0; [apply Z.eqb_eq in Z0; nia | ].
  change (0 <=? 0) with true. cbv iota. rewrite Z.pow_0_r, Z.mul_1_r.
  apply round_ratio_exact; [assumption | lia | ]. cbv zeta.
  split; [lia | ].
  rewrite Z.mul_1_l, Z.pow_add_r by lia. ring.
Qed.

(** A fraction [m / 2^j], written [m × 5^j / 10^j]. *)
Lemma round_fraction_exact (neg : bool) (m : positive) (j : Z) :
  bounded prec emax m (- j) = true -> 0 < j ->
  round_decimal neg (Zpos m * 5 ^ j) (- j) = S754_finite neg m (- j).
Proof.
  intros B Hj. unfold round_decimal.
  assert (P5 : 0 < 5 ^ j) by (apply Z.pow_pos_nonneg; lia).
  assert (P2 : 0 < 2 ^ j) by (apply Z.pow_pos_nonneg; lia).
  assert (P10 : 10 ^ j = 2 ^ j * 5 ^ j) by (rewrite <- Z.pow_mul_l; reflexivity).
  destruct (Zpos m * 5 ^ j =? 0) eqn:Z0; [apply Z.eqb_eq in Z0; nia | ].
  destruct (0 <=? - j) eqn:Q; [apply Z.leb_le in Q; lia | ].
  rewrite Z.opp_involutive.
  apply round_ratio_exact; [assumption | lia | ]. cbv zeta.
  pose proof (bounded_ranges m (- j) B) as (_ & _ & Dm).
  pose proof (digits2_pos_bounds m) as [_ Um].
  pose proof (Zdigits2_bounds (5 ^ j) P5) as [L5 U5].
  pose proof (Zdigits2_pos (5 ^ j) P5) as D5.
  assert (D10 : Zdigits2 (5 ^ j) - 1 + j < Zdigits2 (10 ^ j)).
  { apply Zdigits2_gt; [lia | lia | ]. rewrite Z.pow_add_r by lia. nia. }
  assert (Dp : Zdigits2 (Zpos m * 5 ^ j) <= Zpos (digits2_pos m) + Zdigits2 (5 ^ j)).
  { apply Zdigits2_le; [nia | ]. rewrite Z.pow_add_r by lia. nia. }
  set (sh := Z.max 0 (Zdigits2 (10 ^ j) - Zdigits2 (Zpos m * 5 ^ j) + 55)).
  assert (S : j <= sh) by lia.
  split; [lia | ].
  replace sh with (j + (- j + sh)) at 1 by lia.
  rewrite Z.pow_add_r by lia. rewrite P10. ring.
Qed.

(** ** The decimal exponent *)

Lemma pow10_pos (n : Z) : 0 <= n -> 0 < 10 ^ n.
Proof. intros. apply Z.pow_pos_nonneg; lia. Qed.

Lemma pow10_succ (n : Z) : 0 <= n -> 10 ^ (n + 1) = 10 * 10 ^ n.
Proof. intros. rewrite Z.pow_add_r by lia. change (10 ^ 1) with 10. ring. Qed.

Lemma pow10_lt_inv (a b : Z) : 0 <= b -> 10 ^ a < 10 ^ b -> a < b.
Proof.
  intros Hb H. destruct (Z.lt_ge_cases a b) as [ | G]; [assumption | exfalso].
  assert (10 ^ b <= 10 ^ a) by (apply Z.pow_le_mono_r; lia). lia.
Qed.

Lemma below_pow10_succ (N D n : Z) :
  0 < N -> 0 < D ->
  below_pow10 (N, D) n = true -> below_pow10 (N, D) (n + 1) = true.
Proof.
  intros HN HD. unfold below_pow10.
  destruct (0 <=? n) eqn:A.
  - apply Z.leb_le in A. destruct (0 <=? n + 1) eqn:B; [ | apply Z.leb_gt in B; lia].
    rewrite !Z.ltb_lt, pow10_succ by assumption.
    pose proof (pow10_pos n A). nia.
  - apply Z.leb_gt in A. destruct (0 <=? n + 1) eqn:B.
    + apply Z.leb_le in B. assert (n = -1) by lia. subst n.
      change (- -1) with 1. change (-1 + 1) with 0.
      rewrite !Z.ltb_lt. change (10 ^ 1) with 10. change (10 ^ 0) with 1. lia.
    + apply Z.leb_gt in B. rewrite !Z.ltb_lt.
      replace (- n) with (- (n + 1) + 1) by lia.
      rewrite pow10_succ by lia. pose proof (pow10_pos (- (n + 1)) ltac:(lia)). nia.
Qed.

Lemma below_pow10_mono (N D n n' : Z) :
  0 < N -> 0 < D -> n <= n' ->
  below_pow10 (N, D) n = true -> below_pow10 (N, D) n' = true.
Proof.
  intros HN HD L H. replace n' with (n + Z.of_nat (Z.to_nat (n' - n))) by lia.
  induction (Z.to_nat (n' - n)) as [ | j IH]; [now rewrite Z.add_0_r | ].
  rewrite Nat2Z.inj_succ. replace (n + Z.succ (Z.of_nat j)) with (n + Z.of_nat j + 1) by lia.
  now apply below_pow10_succ.
Qed.

Lemma find_exponent_spec (fuel : nat) (v : Z * Z) (n : Z) :
  below_pow10 v (n + Z.of_nat fuel) = true ->
  below_pow10 v (n - 1) = false ->
  below_pow10 v (find_exponent fuel v n) = true
  /\ below_pow10 v (find_exponent fuel v n - 1) = false.
Proof.
  revert n. induction fuel as [ | fuel IH]; intros n U L.
  - cbn [find_exponent]. rewrite Z.add_0_r in U. auto.
  - cbn [find_exponent]. destruct (below_pow10 v n) eqn:B; [auto | ].
    apply IH.
    + rewrite Nat2Z.inj_succ in U.
      now replace (n + 1 + Z.of_nat fuel) with (n + Z.succ (Z.of_nat fuel)) by lia.
    + now replace (n + 1 - 1) with n by lia.
Qed.

Section Valid.
Variables (m : positive) (e : Z).
Hypothesis Hvalid : bounded prec emax m e = true.

Lemma fraction_pos : 0 < fst (fraction m e) /\ 0 < snd (fraction m e).
Proof.
  unfold fraction. destruct (0 <=? e) eqn:E; cbn [fst snd].
  - apply Z.leb_le in E. assert (0 < 2 ^ e) by (apply Z.pow_pos_nonneg; lia). nia.
  - apply Z.leb_gt in E. assert (0 < 2 ^ (- e)) by (apply Z.pow_pos_nonneg; lia). lia.
Qed.

Lemma below_310 : below_pow10 (fraction m e) 310 = true.
Proof.
  pose proof (bounded_ranges m e Hvalid) as (Bm & Be & _).
  unfold fraction, below_pow10. change (0 <=? 310) with true. cbv iota.
  assert (C : 2 ^ 1024 < 10 ^ 310) by (apply Z.ltb_lt; vm_compute; reflexivity).
  destruct (0 <=? e) eqn:E; apply Z.ltb_lt.
  - apply Z.leb_le in E.
    assert (2 ^ e <= 2 ^ 971) by (apply Z.pow_le_mono_r; lia).
    assert (0 < 2 ^ e) by (apply Z.pow_pos_nonneg; lia).
    assert (2 ^ 53 * 2 ^ 971 = 2 ^ 1024) by (vm_compute; reflexivity).
    nia.
  - apply Z.leb_gt in E. assert (0 < 2 ^ (- e)) by (apply Z.pow_pos_nonneg; lia).
    assert (2 ^ 53 < 2 ^ 1024) by (apply Z.ltb_lt; vm_compute; reflexivity). nia.
Qed.

Lemma not_below_331 : below_pow10 (fraction m e) (-331) = false.
Proof.
  pose proof (bounded_ranges m e Hvalid) as (Bm & Be & _).
  unfold fraction, below_pow10.
  assert (C : 2 ^ 1074 < 10 ^ 331) by (apply Z.ltb_lt; vm_compute; reflexivity).
  destruct (0 <=? e) eqn:E.
  - apply Z.leb_le in E. change (0 <=? -331) with false. cbv iota. apply Z.ltb_ge.
    change (- -331) with 331. assert (0 < 2 ^ e) by (apply Z.pow_pos_nonneg; lia). nia.
  - apply Z.leb_gt in E. change (0 <=? -331) with false. cbv iota. apply Z.ltb_ge.
    change (- -331) with 331.
    assert (2 ^ (- e) <= 2 ^ 1074) by (apply Z.pow_le_mono_r; lia). nia.
Qed.

Lemma decimal_exponent_spec :
  below_pow10 (fraction m e) (decimal_exponent m e) = true
  /\ below_pow10 (fraction m e) (decimal_exponent m e - 1) = false.
Proof.
  unfold decimal_exponent. cbv zeta.
  set (estimate := Z.max (-330) _).
  set (start := if below_pow10 (fraction m e) (estimate - 1) then -330 else estimate).
  assert (S : -330 <= start) by (subst start estimate; destruct (below_pow10 _ _); lia).
  pose proof below_310 as U. pose proof not_below_331 as L.
  destruct (fraction m e) as [N D] eqn:F.
  pose proof fraction_pos as [PN PD]. rewrite F in PN, PD. cbn [fst snd] in PN, PD.
  apply find_exponent_spec.
  - apply (below_pow10_mono N D 310); [assumption | assumption | lia | exact U].
  - subst start. destruct (below_pow10 (N, D) (estimate - 1)) eqn:B; [exact L | exact B].
Qed.

(** ** The search for the digits ends *)

(** An integer: its own digits fit. *)
Lemma integer_fits :
  0 <= e ->
  1 <= decimal_exponent m e <= 800
  /\ fits (S754_finite false m e) (decimal_exponent m e)
       (scaled_floor (fraction m e) (decimal_exponent m e - decimal_exponent m e),
        decimal_exponent m e) = true.
Proof.
  intros He. pose proof (bounded_ranges m e Hvalid) as (Bm & Be & _).
  pose proof decimal_exponent_spec as [U L].
  set (n := decimal_exponent m e) in *.
  revert U L. unfold fraction, below_pow10, scaled_floor, fits.
  destruct (0 <=? e) eqn:E; [ | apply Z.leb_gt in E; lia]. clear E.
  rewrite Z.sub_diag. change (0 <=? 0) with true. cbv iota.
  change (10 ^ 0) with 1. rewrite !Z.mul_1_l, Z.div_1_r.
  assert (P : 0 < 2 ^ e) by (apply Z.pow_pos_nonneg; lia).
  assert (N1 : 1 <= Zpos m * 2 ^ e) by nia.
  assert (N2 : Zpos m * 2 ^ e < 10 ^ 800).
  { assert (2 ^ e <= 2 ^ 971) by (apply Z.pow_le_mono_r; lia).
    assert (2 ^ 53 * 2 ^ 971 < 10 ^ 800) by (apply Z.ltb_lt; vm_compute; reflexivity).
    nia. }
  destruct (0 <=? n) eqn:A.
  2:{ apply Z.leb_gt in A. intros U _. apply Z.ltb_lt in U.
      pose proof (pow10_pos (- n) ltac:(lia)). nia. }
  apply Z.leb_le in A. intros U. apply Z.ltb_lt in U.
  assert (n <> 0) by (intros Z0; rewrite Z0 in U; change (10 ^ 0) with 1 in U; lia).
  destruct (0 <=? n - 1) eqn:B; [ | apply Z.leb_gt in B; lia].
  intros L. apply Z.ltb_ge in L.
  assert (n - 1 < 800) by (apply pow10_lt_inv; lia).
  split; [lia | ].
  rewrite (proj2 (Z.leb_le _ _) L), (proj2 (Z.ltb_lt _ _) U). cbn [andb].
  rewrite round_integer_exact by assumption. apply sf_is_refl.
Qed.

(** A fraction [m / 2^j]: the digits of [m × 5^j] fit. *)
Lemma fraction_fits :
  e < 0 ->
  1 <= decimal_exponent m e - e <= 800
  /\ fits (S754_finite false m e) (decimal_exponent m e - e)
       (scaled_floor (fraction m e) (decimal_exponent m e - (decimal_exponent m e - e)),
        decimal_exponent m e) = true.
Proof.
  intros He. pose proof (bounded_ranges m e Hvalid) as (Bm & Be & _).
  pose proof decimal_exponent_spec as [U L].
  set (n := decimal_exponent m e) in *.
  revert U L. unfold fraction, below_pow10, scaled_floor, fits.
  destruct (0 <=? e) eqn:E; [apply Z.leb_le in E; lia | ]. clear E.
  replace (n - (n - e)) with e by lia.
  destruct (0 <=? e) eqn:E; [apply Z.leb_le in E; lia | ]. clear E.
  set (j := - e). assert (Hj : 0 < j <= 1074) by (subst j; lia).
  assert (P2 : 0 < 2 ^ j) by (apply Z.pow_pos_nonneg; lia).
  assert (P5 : 0 < 5 ^ j) by (apply Z.pow_pos_nonneg; lia).
  assert (P10 : 10 ^ j = 2 ^ j * 5 ^ j) by (rewrite <- Z.pow_mul_l; reflexivity).
  assert (S : Zpos m * 10 ^ j / 2 ^ j = Zpos m * 5 ^ j).
  { rewrite P10. replace (Zpos m * (2 ^ j * 5 ^ j)) with (Zpos m * 5 ^ j * 2 ^ j) by ring.
    apply Z.div_mul. lia. }
  rewrite S.
  assert (N1 : 1 <= Zpos m * 5 ^ j) by nia.
  assert (N2 : Zpos m * 5 ^ j < 10 ^ 800).
  { assert (5 ^ j <= 5 ^ 1074) by (apply Z.pow_le_mono_r; lia).
    assert (2 ^ 53 * 5 ^ 1074 < 10 ^ 800) by (apply Z.ltb_lt; vm_compute; reflexivity).
    nia. }
  replace (n - e) with (n + j) by (subst j; lia).
  assert (UB : below_pow10 (Zpos m, 2 ^ j) n = true -> Zpos m * 5 ^ j < 10 ^ (n + j)).
  { unfold below_pow10. destruct (0 <=? n) eqn:A.
    - apply Z.leb_le in A. rewrite Z.ltb_lt. intros H.
      rewrite Z.pow_add_r, P10 by lia. pose proof (pow10_pos n A). nia.
    - apply Z.leb_gt in A. rewrite Z.ltb_lt. intros H.
      destruct (Z.lt_ge_cases (n + j) 0) as [G | G].
      + exfalso.
        assert (10 ^ j <= 10 ^ (- n)) by (apply Z.pow_le_mono_r; lia).
        nia.
      + assert (Q : 10 ^ j = 10 ^ (n + j) * 10 ^ (- n)).
        { rewrite <- Z.pow_add_r by lia. f_equal. lia. }
        pose proof (pow10_pos (- n) ltac:(lia)).
        assert (Zpos m * 5 ^ j * 10 ^ (- n) < 10 ^ (n + j) * 10 ^ (- n))
          by (rewrite <- Q; nia).
        nia. }
  assert (LB : below_pow10 (Zpos m, 2 ^ j) (n - 1) = false ->
               10 ^ (n + j - 1) <= Zpos m * 5 ^ j).
  { unfold below_pow10. destruct (0 <=? n - 1) eqn:A.
    - apply Z.leb_le in A. rewrite Z.ltb_ge. intros H.
      replace (n + j - 1) with (n - 1 + j) by lia.
      rewrite Z.pow_add_r, P10 by lia. pose proof (pow10_pos (n - 1) A). nia.
    - apply Z.leb_gt in A. rewrite Z.ltb_ge. intros H.
      destruct (Z.lt_ge_cases (n + j - 1) 0) as [G | G].
      + rewrite (Z.pow_neg_r 10 (n + j - 1)) by assumption. lia.
      + assert (Q : 10 ^ j = 10 ^ (n + j - 1) * 10 ^ (- (n - 1))).
        { rewrite <- Z.pow_add_r by lia. f_equal. lia. }
        pose proof (pow10_pos (- (n - 1)) ltac:(lia)).
        assert (10 ^ (n + j - 1) * 10 ^ (- (n - 1)) <= Zpos m * 5 ^ j * 10 ^ (- (n - 1)))
          by (rewrite <- Q; nia).
        nia. }
  intros U L. specialize (UB U). specialize (LB L).
  assert (K1 : 1 <= n + j).
  { destruct (Z.lt_ge_cases (n + j) 1) as [G | G]; [exfalso | assumption].
    destruct (Z.eq_dec (n + j) 0) as [Z0 | NZ].
    - rewrite Z0 in UB. change (10 ^ 0) with 1 in UB. lia.
    - rewrite (Z.pow_neg_r 10 (n + j)) in UB by lia. lia. }
  assert (K2 : n + j - 1 < 800) by (apply pow10_lt_inv; lia).
  split; [lia | ].
  rewrite (proj2 (Z.leb_le _ _) LB), (proj2 (Z.ltb_lt _ _) UB). cbn [andb].
  replace e with (- j) by (subst j; lia).
  rewrite round_fraction_exact; [apply sf_is_refl | | lia].
  now replace (- j) with e by (subst j; lia).
Qed.

Lemma digits_found :
  shortest 800 (S754_finite false m e) (fraction m e) (decimal_exponent m e) 1 <> None.
Proof.
  destruct (Z.lt_ge_cases e 0) as [N | P].
  - destruct (fraction_fits N) as [K F].
    apply (shortest_found 800 _ _ _ 1 (decimal_exponent m e - e));
      [lia | now apply candidate_found].
  - destruct (integer_fits P) as [K F].
    apply (shortest_found 800 _ _ _ 1 (decimal_exponent m e));
      [lia | now apply candidate_found].
Qed.

End Valid.

(** [Number(x.toString())] is [x], for every number but NaN and -0. *)
Lemma Number_round_trip (x : float) :
  StringToNumber (Number_toString x) = x
  \/ Prim2SF x = S754_nan \/ Prim2SF x = S754_zero true.
Proof.
  destruct (Prim2SF x) as [s | s | | s m e] eqn:E.
  - destruct s; [auto | ]. left. unfold Number_toString. rewrite E.
    change (StringToNumber "0") with (SF2Prim (S754_zero false)).
    rewrite <- E. apply SF2Prim_Prim2SF.
  - left. unfold Number_toString. rewrite E. rewrite <- (SF2Prim_Prim2SF x), E.
    destruct s; vm_compute; reflexivity.
  - auto.
  - left. apply (round_trip_finite x s m e E).
    apply digits_found.
    pose proof (Prim2SF_valid x) as V. rewrite E in V. exact V.
Qed.

(** ... and equal to [x] as [===] has it, for every number but NaN. *)
Lemma Number_round_trip_eqb (x : float) :
  is_nan x = false -> (StringToNumber (Number_toString x) =? x)%float = true.
Proof.
  intros N. destruct (Number_round_trip x) as [E | [E | E]].
  - rewrite E. unfold is_nan in N. now apply negb_false_iff in N.
  - now apply is_nan_Prim2SF in N.
  - unfold Number_toString. rewrite E. rewrite eqb_spec, E.
    vm_compute. reflexivity.
Qed.

(** * The claims *)

(** C1, as stated, fails: a call of geocode with the empty location
    passes validation, the request [search?name=&count=5...] is sent, and
    its answer comes back as a success result. *)
Lemma empty_location_is_accepted :
  callTool (answers (Obj [("results", Arr [])]))
    {| name := "geocode"; arguments := Obj [("location", Str "")] |}
  = (["https://geocoding-api.open-meteo.com/v1/search?name=&count=5&language=en&format=json"],
     Returns (text_result "No results found for location: "))
  /\ ~ fails_with InvalidArguments
         (callTool (answers (Obj [("results", Arr [])]))
            {| name := "geocode"; arguments := Obj [("location", Str "")] |}).
Proof.
  split; [vm_compute; reflexivity | ].
  intros (e & H & _). vm_compute in H. discriminate H.
Qed.

(** C1, amended: the geocode schema asks for a string and nothing more.
    Whatever string [location] holds, the empty one included, is the
    validated value and one request for it is sent; a call whose
    [location] is absent or not a string fails with InvalidArguments
    before any request. *)
Theorem geocode_validation (net : upstream) (props : list (string * value)) :
  let call := callTool net {| name := "geocode"; arguments := Obj props |} in
  match lookup "location" props with
  | Str location =>
      Zod.parse GeocodeArgsSchema (Obj props)
      = Returns {| GeocodeArgs.location := location |}
      /\ fst call = [Url.toString (geocodeRequest location)]
  | _ => fst call = [] /\ fails_with InvalidArguments call
  end.
Proof.
  intros call. subst call. rewrite callTool_geocode.
  unfold Zod.parse, GeocodeArgsSchema, Zod.object, Zod.field, Zod.string.
  destruct (lookup "location" props); cbn [Zod.map_result];
    first [ split; [reflexivity | apply invalid_call] | split; reflexivity ].
Qed.

(** C2, as stated, fails: for the location Nowhere123 and an empty
    results list the text is [No results found for location: Nowhere123],
    with no quotes around the location. *)
Lemma no_results_text_is_unquoted :
  geocodeResults "Nowhere123" (Obj [("results", Arr [])])
  = Returns "No results found for location: Nowhere123"
  /\ geocodeResults "Nowhere123" (Obj [("results", Arr [])])
     <> Returns ("No results found for location: " ++ DQUOTE ++ "Nowhere123" ++ DQUOTE).
Proof. split; [reflexivity | discriminate]. Qed.

(** C2, amended: for every location, when the results list of the body is
    empty the text is exactly [No results found for location: <location>],
    the location as it is, on a single line with nothing after it. *)
Theorem no_results_text (location : string) (props : list (string * value)) :
  lookup "results" props = Arr [] ->
  geocodeResults location (Obj props)
  = Returns ("No results found for location: " ++ location).
Proof.
  intros H. unfold geocodeResults, Get. cbn [bind]. rewrite H. reflexivity.
Qed.

Lemma no_results_text_witness :
  lookup "results" [("generationtime_ms", num "0.5"); ("results", Arr [])] = Arr []
  /\ geocodeResults "Atlantis" (Obj [("generationtime_ms", num "0.5"); ("results", Arr [])])
     = Returns "No results found for location: Atlantis".
Proof.
  split; [reflexivity | ].
  exact (no_results_text "Atlantis"
           [("generationtime_ms", num "0.5"); ("results", Arr [])] eq_refl).
Defined.

(** C3, as stated, fails: a JSON body without [results] is not an
    UpstreamError; the call ends with the success text of an empty list. *)
Lemma missing_results_is_a_success :
  callTool (answers (Obj [("generationtime_ms", num "0.5")]))
    {| name := "geocode"; arguments := Obj [("location", Str "Berlin")] |}
  = (["https://geocoding-api.open-meteo.com/v1/search?name=Berlin&count=5&language=en&format=json"],
     Returns (text_result "No results found for location: Berlin"))
  /\ ~ fails_with UpstreamError
         (callTool (answers (Obj [("generationtime_ms", num "0.5")]))
            {| name := "geocode"; arguments := Obj [("location", Str "Berlin")] |}).
Proof.
  split; [vm_compute; reflexivity | ].
  intros (e & H & _). vm_compute in H. discriminate H.
Qed.

(** C3, amended: for every geocode call whose upstream body is a JSON
    object without [results], the guard [!data.results] takes it for an
    empty list: the call succeeds with the text
    [No results found for location: <location>]. *)
Theorem missing_results_reads_as_no_results (net : upstream) (location : string)
  (response : Response) (props : list (string * value)) :
  net (Url.toString (geocodeRequest location)) = Some response ->
  ok response = true ->
  json response = Some (Obj props) ->
  lookup "results" props = Undefined ->
  geocodeLocation net location
  = ([Url.toString (geocodeRequest location)],
     Returns ("No results found for location: " ++ location))
  /\ callTool net {| name := "geocode"; arguments := Obj [("location", Str location)] |}
     = ([Url.toString (geocodeRequest location)],
        Returns (text_result ("No results found for location: " ++ location))).
Proof.
  intros Hnet Hok Hjson Hresults.
  assert (R : reply net (Url.toString (geocodeRequest location)) (geocodeResults location)
                "Geocoding API error: "
              = Returns ("No results found for location: " ++ location)).
  { unfold reply, Response_json. rewrite Hnet, Hok, Hjson. cbn [bind].
    unfold geocodeResults, Get. cbn [bind]. rewrite Hresults. reflexivity. }
  split.
  - rewrite geocodeLocation_run. cbv zeta. now rewrite R.
  - rewrite callTool_geocode.
    change (GeocodeArgsSchema [] (Obj [("location", Str location)]))
      with (Zod.Ok {| GeocodeArgs.location := location |}).
    cbv zeta. cbn [GeocodeArgs.location]. now rewrite R.
Qed.

Lemma missing_results_reads_as_no_results_witness :
  geocodeLocation (answers (Obj [("generationtime_ms", num "0.5")])) "Berlin"
  = ([Url.toString (geocodeRequest "Berlin")],
     Returns "No results found for location: Berlin")
  /\ callTool (answers (Obj [("generationtime_ms", num "0.5")]))
       {| name := "geocode"; arguments := Obj [("location", Str "Berlin")] |}
     = ([Url.toString (geocodeRequest "Berlin")],
        Returns (text_result "No results found for location: Berlin")).
Proof.
  exact (missing_results_reads_as_no_results
           (answers (Obj [("generationtime_ms", num "0.5")])) "Berlin"
           {| ok := true; statusText := "OK";
              json := Some (Obj [("generationtime_ms", num "0.5")]) |}
           [("generationtime_ms", num "0.5")] eq_refl eq_refl eq_refl eq_refl).
Defined.

(** C4, as stated, fails: a forecast body whose date list has two entries
    and whose other series have one is not refused.  The call succeeds,
    and the second block prints [undefined] for every missing entry. *)
Lemma short_series_is_printed_as_undefined :
  formatForecast short_forecast
  = Returns "Weather Forecast for coordinates (52.52, 13.41)

Date: 2024-01-01
  Temperature: 5.3°C max, -1.2°C min
  Precipitation: 0 mm
  Wind Speed: 12.5 km/h max
  Weather Code: 3

Date: 2024-01-02
  Temperature: undefined°C max, undefined°C min
  Precipitation: undefined mm
  Wind Speed: undefined km/h max
  Weather Code: undefined

"
  /\ ~ (exists e, snd (callTool (answers short_forecast)
                         {| name := "get_forecast";
                            arguments := Obj [("latitude", num "52.52");
                                              ("longitude", num "13.41")] |})
                  = Throws e).
Proof.
  split; [vm_compute; reflexivity | ].
  intros (e & H). vm_compute in H. discriminate H.
Qed.

(** C4, amended: the body is not validated; it is read field by field.
    A forecast body without [daily] and a current-weather body without
    [current] make the formatter throw a TypeError: that of reading a
    property of undefined or, where latitude or longitude has no string,
    that of the conversion, which comes first.  The get_forecast and the
    get_current_weather call fail with that error after their one
    request.  A forecast body whose six series are lists of values that
    have a string, as have its latitude and longitude, is always printed,
    one block per entry of the date list, whatever the lengths of the
    other five: an entry past the end of a series reads as undefined and
    prints as the word [undefined]. *)
Theorem missing_fields (forecasts currents : upstream) (lat lon days : number)
  (forecast current : Response)
  (no_daily no_current props daily : list (string * value))
  (times maxs mins rains winds codes : list value) :
  (forall url, forecasts url = Some forecast) ->
  ok forecast = true ->
  json forecast = Some (Obj no_daily) ->
  lookup "daily" no_daily = Undefined ->
  (forall url, currents url = Some current) ->
  ok current = true ->
  json current = Some (Obj no_current) ->
  lookup "current" no_current = Undefined ->
  within (-90) 90 lat = true ->
  within (-180) 180 lon = true ->
  lookup "daily" props = Obj daily ->
  lookup "time" daily = Arr times ->
  lookup "temperature_2m_max" daily = Arr maxs ->
  lookup "temperature_2m_min" daily = Arr mins ->
  lookup "precipitation_sum" daily = Arr rains ->
  lookup "wind_speed_10m_max" daily = Arr winds ->
  lookup "weather_code" daily = Arr codes ->
  printable (lookup "latitude" props) = true ->
  printable (lookup "longitude" props) = true ->
  forallb (forallb printable) [times; maxs; mins; rains; winds; codes] = true ->
  let thrown body :=
    if printable (lookup "latitude" body) && printable (lookup "longitude" body)
    then TypeError "time" else NotPrimitive in
  let arguments := Obj [("latitude", Num lat); ("longitude", Num lon)] in
  (forall body, is_TypeError (thrown body) = true)
  /\ (formatForecast (Obj no_daily) = Throws (thrown no_daily)
      /\ getForecast forecasts lat lon (Some days)
         = ([Url.toString (forecastRequest lat lon days)], Throws (thrown no_daily))
      /\ callTool forecasts {| name := "get_forecast"; arguments := arguments |}
         = ([Url.toString (forecastRequest lat lon 7)], Throws (thrown no_daily)))
  /\ (formatCurrentWeather (Obj no_current) = Throws (thrown no_current)
      /\ getCurrentWeather currents lat lon
         = ([Url.toString (currentWeatherRequest lat lon)], Throws (thrown no_current))
      /\ callTool currents {| name := "get_current_weather"; arguments := arguments |}
         = ([Url.toString (currentWeatherRequest lat lon)], Throws (thrown no_current)))
  /\ formatForecast (Obj props)
     = Returns (forecast_header (lookup "latitude" props) (lookup "longitude" props)
                ++ join "" (map (block_at times maxs mins rains winds codes)
                              (seq 0 (List.length times))))
  /\ (forall (series : list value) (i : nat),
        (List.length series <= i)%nat ->
        ToString (nth i series Undefined) = Returns "undefined").
Proof.
  intros Hforecasts Hok Hjson Hdaily Hcurrents Hok' Hjson' Hcurrent Rlat Rlon
    Hprops Htime Hmax Hmin Hrain Hwind Hcode Plat Plon Pseries thrown arguments.
  assert (T : forall body, is_TypeError (thrown body) = true
                           /\ rethrow (thrown body) = thrown body).
  { intros body. subst thrown. cbv beta.
    now destruct (printable (lookup "latitude" body) && printable (lookup "longitude" body)). }
  assert (Fforecast : formatForecast (Obj no_daily) = Throws (thrown no_daily)).
  { unfold formatForecast, Get, ToString. cbn [bind]. rewrite Hdaily. subst thrown.
    cbv beta.
    destruct (printable (lookup "latitude" no_daily)); cbn [bind andb]; [ | reflexivity].
    now destruct (printable (lookup "longitude" no_daily)). }
  assert (Fcurrent : formatCurrentWeather (Obj no_current) = Throws (thrown no_current)).
  { unfold formatCurrentWeather, Get, ToString. cbn [bind]. rewrite Hcurrent.
    subst thrown. cbv beta.
    destruct (printable (lookup "latitude" no_current)); cbn [bind andb]; [ | reflexivity].
    now destruct (printable (lookup "longitude" no_current)). }
  split; [intros body; apply T | ].
  split.
  { split; [exact Fforecast | ].
    subst arguments. rewrite callTool_get_forecast, getForecast_run.
    rewrite (forecast_schema_valid [("latitude", Num lat); ("longitude", Num lon)]
               lat lon None eq_refl Rlat eq_refl Rlon eq_refl I).
    cbv zeta. cbn [GetForecastArgs.latitude GetForecastArgs.longitude
                   GetForecastArgs.forecast_days].
    unfold reply, Response_json. rewrite !Hforecasts, Hok, Hjson. cbn [bind].
    rewrite Fforecast. cbn [finish]. now rewrite (proj2 (T no_daily)). }
  split.
  { split; [exact Fcurrent | ].
    subst arguments. rewrite callTool_get_current_weather, getCurrentWeather_run.
    rewrite (current_schema_valid [("latitude", Num lat); ("longitude", Num lon)]
               lat lon eq_refl Rlat eq_refl Rlon).
    cbv zeta. cbn [GetCurrentWeatherArgs.latitude GetCurrentWeatherArgs.longitude].
    unfold reply, Response_json. rewrite !Hcurrents, Hok', Hjson'. cbn [bind].
    rewrite Fcurrent. cbn [finish]. now rewrite (proj2 (T no_current)). }
  split.
  { cbn [forallb] in Pseries. rewrite !andb_true_iff in Pseries.
    destruct Pseries as (Ptime & Pmax & Pmin & Prain & Pwind & Pcode & _).
    now apply formatForecast_series with (daily := daily). }
  intros series i H. now rewrite nth_overflow.
Qed.

Lemma missing_fields_witness :
  callTool (answers (Obj [("current", Obj [])]))
    {| name := "get_forecast";
       arguments := Obj [("latitude", Num 52.52); ("longitude", Num 13.41)] |}
  = ([Url.toString (forecastRequest 52.52 13.41 7)], Throws (TypeError "time"))
  /\ callTool (answers (Obj [("daily", Obj [])]))
       {| name := "get_current_weather";
          arguments := Obj [("latitude", Num 52.52); ("longitude", Num 13.41)] |}
     = ([Url.toString (currentWeatherRequest 52.52 13.41)], Throws (TypeError "time"))
  /\ formatForecast short_forecast
     = Returns (forecast_header (num "52.52") (num "13.41")
                ++ join "" (map (block_at [Str "2024-01-01"; Str "2024-01-02"]
                                   [num "5.3"] [num "-1.2"] [num "0"] [num "12.5"]
                                   [num "3"])
                              [0%nat; 1%nat])).
Proof.
  pose proof (missing_fields (answers (Obj [("current", Obj [])]))
                (answers (Obj [("daily", Obj [])]))
                52.52%float 13.41%float 7%float
                {| ok := true; statusText := "OK";
                   json := Some (Obj [("current", Obj [])]) |}
                {| ok := true; statusText := "OK";
                   json := Some (Obj [("daily", Obj [])]) |}
                [("current", Obj [])] [("daily", Obj [])]
                [("latitude", num "52.52"); ("longitude", num "13.41");
                 ("daily", mocked_daily [num "5.3"] [num "-1.2"] [num "0"]
                             [num "12.5"] [num "3"])]
                [("time", Arr [Str "2024-01-01"; Str "2024-01-02"]);
                 ("temperature_2m_max", Arr [num "5.3"]);
                 ("temperature_2m_min", Arr [num "-1.2"]);
                 ("precipitation_sum", Arr [num "0"]);
                 ("wind_speed_10m_max", Arr [num "12.5"]);
                 ("weather_code", Arr [num "3"])]
                [Str "2024-01-01"; Str "2024-01-02"]
                [num "5.3"] [num "-1.2"] [num "0"] [num "12.5"] [num "3"]
                (fun _ => eq_refl) eq_refl eq_refl eq_refl
                (fun _ => eq_refl) eq_refl eq_refl eq_refl
                eq_refl eq_refl
                eq_refl eq_refl eq_refl eq_refl eq_refl eq_refl eq_refl
                eq_refl eq_refl eq_refl)
    as (_ & (_ & _ & Hforecast) & (_ & _ & Hcurrent) & Hseries & _).
  split; [exact Hforecast | split; [exact Hcurrent | exact Hseries]].
Defined.

(** C5: get_forecast and get_current_weather refuse a latitude outside
    [-90, 90] or a longitude outside [-180, 180], whatever the other
    arguments and whatever upstream would answer: the call fails with
    InvalidArguments and no request is sent, so nothing is clamped.
    Coordinates within the bounds pass validation, the four bounds
    themselves included: the request is sent with them, and where
    upstream answers it with a body that the formatter prints, the call
    returns that text. *)
Theorem coordinates_are_validated (net : upstream)
  (refused : list (string * value)) (lat lon : number) :
  (lookup "latitude" refused = Num lat /\ within (-90) 90 lat = false)
  \/ (lookup "longitude" refused = Num lon /\ within (-180) 180 lon = false) ->
  ((fst (callTool net {| name := "get_forecast"; arguments := Obj refused |}) = []
    /\ fails_with InvalidArguments
         (callTool net {| name := "get_forecast"; arguments := Obj refused |}))
   /\ (fst (callTool net {| name := "get_current_weather"; arguments := Obj refused |}) = []
       /\ fails_with InvalidArguments
            (callTool net {| name := "get_current_weather"; arguments := Obj refused |})))
  /\ (within (-90) 90 (-90) = true /\ within (-90) 90 90 = true
      /\ within (-180) 180 (-180) = true /\ within (-180) 180 180 = true)
  /\ forall (reached : upstream) (accepted : list (string * value)) (lat' lon' : number),
       lookup "latitude" accepted = Num lat' ->
       lookup "longitude" accepted = Num lon' ->
       lookup "forecast_days" accepted = Undefined ->
       within (-90) 90 lat' = true ->
       within (-180) 180 lon' = true ->
       (fst (callTool reached {| name := "get_forecast"; arguments := Obj accepted |})
        = [Url.toString (forecastRequest lat' lon' 7)]
        /\ fst (callTool reached
                  {| name := "get_current_weather"; arguments := Obj accepted |})
           = [Url.toString (currentWeatherRequest lat' lon')])
       /\ (forall text,
             well_formed reached (Url.toString (forecastRequest lat' lon' 7))
               formatForecast text ->
             snd (callTool reached {| name := "get_forecast"; arguments := Obj accepted |})
             = Returns (text_result text))
       /\ (forall text,
             well_formed reached (Url.toString (currentWeatherRequest lat' lon'))
               formatCurrentWeather text ->
             snd (callTool reached
                    {| name := "get_current_weather"; arguments := Obj accepted |})
             = Returns (text_result text)).
Proof.
  intros Hout. split; [ | split; [repeat split | ]].
  - rewrite callTool_get_forecast, callTool_get_current_weather.
    destruct (forecast_schema_invalid refused) as [i ->].
    { destruct Hout as [[-> H] | [-> H]]; simpl; tauto. }
    destruct (current_schema_invalid refused) as [j ->].
    { destruct Hout as [[-> H] | [-> H]]; simpl; tauto. }
    repeat split; auto using invalid_call.
  - intros reached accepted lat' lon' Hlat Hlon Hdays Rlat Rlon.
    rewrite !callTool_get_forecast, !callTool_get_current_weather.
    rewrite (current_schema_valid accepted lat' lon' Hlat Rlat Hlon Rlon).
    rewrite (forecast_schema_valid accepted lat' lon' None Hlat Rlat Hlon Rlon Hdays I).
    cbv zeta.
    cbn [GetCurrentWeatherArgs.latitude GetCurrentWeatherArgs.longitude
         GetForecastArgs.latitude GetForecastArgs.longitude GetForecastArgs.forecast_days
         fst snd].
    split; [split; reflexivity | ].
    split; intros text W; now rewrite (reply_well_formed _ _ _ _ _ W).
Qed.

Lemma coordinates_are_validated_witness :
  within (-90) 90 90.5 = false
  /\ fails_with InvalidArguments
       (callTool unreachable
          {| name := "get_forecast";
             arguments := Obj [("latitude", Num 90.5); ("longitude", Num 0)] |})
  /\ callTool (answers mocked_weather)
       {| name := "get_current_weather";
          arguments := Obj [("latitude", Num 90); ("longitude", Num (-180))] |}
     = ([Url.toString (currentWeatherRequest 90 (-180))],
        Returns (text_result mocked_current_text)).
Proof.
  assert (Wcurrent : well_formed (answers mocked_weather)
                       (Url.toString (currentWeatherRequest 90 (-180)))
                       formatCurrentWeather mocked_current_text).
  { exists {| ok := true; statusText := "OK"; json := Some mocked_weather |}, mocked_weather.
    split; [reflexivity | split; [reflexivity | split; [reflexivity | ]]].
    vm_compute. reflexivity. }
  pose proof (coordinates_are_validated unreachable
                [("latitude", Num 90.5); ("longitude", Num 0)] 90.5%float 0%float
                (or_introl (conj eq_refl eq_refl)))
    as (((_ & Hrefused) & _) & _ & Haccepted).
  destruct (Haccepted (answers mocked_weather)
              [("latitude", Num 90); ("longitude", Num (-180))] 90%float (-180)%float
              eq_refl eq_refl eq_refl eq_refl eq_refl)
    as ((_ & Hrequest) & _ & Hcurrent).
  split; [reflexivity | ]. split; [exact Hrefused | ].
  rewrite (surjective_pairing (callTool _ _)).
  now rewrite Hrequest, (Hcurrent _ Wcurrent).
Defined.

Lemma Number_toString_7 : Number_toString 7 = "7".
Proof. vm_compute. reflexivity. Qed.

Lemma get_forecast_days (a b c d e : string) :
  Url.get "forecast_days"
    [("latitude", a); ("longitude", b); ("daily", c); ("forecast_days", d); ("timezone", e)]
  = Some d.
Proof. reflexivity. Qed.

(** C6: when [forecast_days] is left out, get_forecast validates it to 7
    and the request carries [forecast_days=7].  The values 0 and 17 fail
    with InvalidArguments before any request; 1 and 16 are accepted and
    requested as given. *)
Theorem forecast_days_default_and_bounds (net : upstream)
  (props : list (string * value)) (lat lon bad good : number) :
  lookup "latitude" props = Num lat -> within (-90) 90 lat = true ->
  lookup "longitude" props = Num lon -> within (-180) 180 lon = true ->
  lookup "forecast_days" props = Undefined ->
  bad = 0%float \/ bad = 17%float ->
  good = 1%float \/ good = 16%float ->
  let call days := callTool net {| name := "get_forecast";
                                   arguments := Obj (("forecast_days", Num days) :: props) |} in
  let parsed days := Returns {| GetForecastArgs.latitude := lat;
                                GetForecastArgs.longitude := lon;
                                GetForecastArgs.forecast_days := Some days |} in
  (Zod.parse GetForecastArgsSchema (Obj props) = parsed 7%float
   /\ fst (callTool net {| name := "get_forecast"; arguments := Obj props |})
      = [Url.toString (forecastRequest lat lon 7)]
   /\ Url.get "forecast_days" (Url.params_of (Url.toString (forecastRequest lat lon 7)))
      = Some "7")
  /\ (fst (call bad) = [] /\ fails_with InvalidArguments (call bad))
  /\ (Zod.parse GetForecastArgsSchema (Obj (("forecast_days", Num good) :: props))
      = parsed good
      /\ fst (call good) = [Url.toString (forecastRequest lat lon good)]).
Proof.
  intros Hlat Rlat Hlon Rlon Hdays Hbad Hgood call parsed. subst call parsed.
  cbv beta. rewrite !callTool_get_forecast. unfold Zod.parse.
  rewrite (forecast_schema_valid props lat lon None Hlat Rlat Hlon Rlon Hdays I).
  destruct (forecast_schema_invalid (("forecast_days", Num bad) :: props)) as [i ->].
  { right. right. cbn [lookup String.eqb Ascii.eqb Bool.eqb].
    split; [discriminate | ]. destruct Hbad; subst; reflexivity. }
  rewrite (forecast_schema_valid (("forecast_days", Num good) :: props) lat lon (Some good));
    try assumption; try reflexivity;
    [ | destruct Hgood; subst; reflexivity].
  rewrite forecast_params, get_forecast_days, Number_toString_7.
  repeat split. apply invalid_call.
Qed.

Lemma forecast_days_default_and_bounds_witness :
  within (-90) 90 52.52 = true /\ within (-180) 180 13.41 = true
  /\ Zod.parse GetForecastArgsSchema
       (Obj [("latitude", Num 52.52); ("longitude", Num 13.41)])
     = Returns {| GetForecastArgs.latitude := 52.52;
                  GetForecastArgs.longitude := 13.41;
                  GetForecastArgs.forecast_days := Some 7%float |}
  /\ fails_with InvalidArguments
       (callTool (answers mocked_weather)
          {| name := "get_forecast";
             arguments := Obj [("forecast_days", Num 17); ("latitude", Num 52.52);
                               ("longitude", Num 13.41)] |})
  /\ fst (callTool (answers mocked_weather)
            {| name := "get_forecast";
               arguments := Obj [("forecast_days", Num 16); ("latitude", Num 52.52);
                                 ("longitude", Num 13.41)] |})
     = [Url.toString (forecastRequest 52.52 13.41 16)].
Proof.
  pose proof (forecast_days_default_and_bounds (answers mocked_weather)
                [("latitude", Num 52.52); ("longitude", Num 13.41)]
                52.52%float 13.41%float 17%float 16%float
                eq_refl eq_refl eq_refl eq_refl eq_refl
                (or_intror eq_refl) (or_intror eq_refl))
    as ((Hdefault & _) & (_ & Hbad) & (_ & Hgood)).
  split; [reflexivity | ]. split; [reflexivity | ].
  split; [exact Hdefault | ]. split; [exact Hbad | exact Hgood].
Defined.

(** C7: each tool's request is a function of its validated arguments
    alone and is the only request of the call.  get_forecast asks
    https://api.open-meteo.com/v1/forecast for latitude, longitude, the
    five daily fields, forecast_days and timezone=auto; get_current_weather
    asks the same path for latitude, longitude and the six current fields;
    geocode asks https://geocoding-api.open-meteo.com/v1/search for
    name=<location>, count=5, language=en and format=json.  No other
    parameter is sent; in the text of the address the commas of the two
    field lists are written as %2C. *)
Theorem request_urls (net : upstream) (lat lon days : number) (location : string) :
  (Url.toString (forecastRequest lat lon days)
   = "https://api.open-meteo.com/v1/forecast"
     ++ "?latitude=" ++ Url.encode (Number_toString lat)
     ++ "&longitude=" ++ Url.encode (Number_toString lon)
     ++ "&daily=temperature_2m_max%2Ctemperature_2m_min%2Cprecipitation_sum%2Cwind_speed_10m_max%2Cweather_code"
     ++ "&forecast_days=" ++ Url.encode (Number_toString days)
     ++ "&timezone=auto"
   /\ Url.params_of (Url.toString (forecastRequest lat lon days))
      = [("latitude", Number_toString lat); ("longitude", Number_toString lon);
         ("daily",
          "temperature_2m_max,temperature_2m_min,precipitation_sum,wind_speed_10m_max,weather_code");
         ("forecast_days", Number_toString days); ("timezone", "auto")]
   /\ fst (getForecast net lat lon (Some days))
      = [Url.toString (forecastRequest lat lon days)])
  /\
  (Url.toString (currentWeatherRequest lat lon)
   = "https://api.open-meteo.com/v1/forecast"
     ++ "?latitude=" ++ Url.encode (Number_toString lat)
     ++ "&longitude=" ++ Url.encode (Number_toString lon)
     ++ "&current=temperature_2m%2Crelative_humidity_2m%2Cprecipitation%2Cwind_speed_10m%2Cwind_direction_10m%2Cweather_code"
   /\ Url.params_of (Url.toString (currentWeatherRequest lat lon))
      = [("latitude", Number_toString lat); ("longitude", Number_toString lon);
         ("current",
          "temperature_2m,relative_humidity_2m,precipitation,wind_speed_10m,wind_direction_10m,weather_code")]
   /\ fst (getCurrentWeather net lat lon)
      = [Url.toString (currentWeatherRequest lat lon)])
  /\
  (Url.toString (geocodeRequest location)
   = "https://geocoding-api.open-meteo.com/v1/search"
     ++ "?name=" ++ Url.encode location ++ "&count=5&language=en&format=json"
   /\ Url.params_of (Url.toString (geocodeRequest location))
      = [("name", location); ("count", "5"); ("language", "en"); ("format", "json")]
   /\ fst (geocodeLocation net location) = [Url.toString (geocodeRequest location)]).
Proof.
  rewrite forecast_params, current_params, geocode_params.
  rewrite getForecast_run, getCurrentWeather_run, geocodeLocation_run.
  repeat split.
Qed.

(** C8, as stated, fails: the values of a series are converted as they
    come.  For the two-day series whose second weather code is an object
    with a key [toString], the formatter returns no text: the conversion
    of that code throws a TypeError. *)
Lemma unprintable_series_is_not_printed :
  formatForecast unprintable_forecast = Throws NotPrimitive
  /\ ~ (exists text, formatForecast unprintable_forecast = Returns text).
Proof.
  split; [vm_compute; reflexivity | ].
  intros (text & H). vm_compute in H. discriminate H.
Qed.

(** C8, amended: for every daily series whose values have a string, as
    have latitude and longitude (numbers, strings, booleans and null have
    one; an object with a key [toString] has none), the forecast text is
    the header line
    [Weather Forecast for coordinates (<lat>, <lon>)], a blank line, and
    then one block per day in the order of the series, each with the lines
    Date, Temperature, Precipitation, Wind Speed and Weather Code and a
    blank line after it.  The empty series gives the header alone, and the
    mocked series of two days gives exactly two blocks in that order. *)
Theorem forecast_layout (props daily : list (string * value)) (days : list day) :
  lookup "daily" props = Obj daily ->
  lookup "time" daily = Arr (map date days) ->
  lookup "temperature_2m_max" daily = Arr (map high days) ->
  lookup "temperature_2m_min" daily = Arr (map low days) ->
  lookup "precipitation_sum" daily = Arr (map rain days) ->
  lookup "wind_speed_10m_max" daily = Arr (map wind days) ->
  lookup "weather_code" daily = Arr (map weather days) ->
  printable (lookup "latitude" props) = true ->
  printable (lookup "longitude" props) = true ->
  forallb printable_day days = true ->
  formatForecast (Obj props)
  = Returns (forecast_header (lookup "latitude" props) (lookup "longitude" props)
             ++ join "" (map block_of days))
  /\ formatForecast empty_forecast
     = Returns ("Weather Forecast for coordinates (52.52, 13.41)" ++ LF ++ LF)
  /\ formatForecast mocked_forecast = Returns mocked_forecast_text.
Proof.
  intros Hdaily Htime Hmax Hmin Hrain Hwind Hcode Plat Plon Pdays.
  split; [ | split; vm_compute; reflexivity].
  apply printable_days in Pdays. cbn [forallb] in Pdays.
  rewrite !andb_true_iff in Pdays.
  destruct Pdays as (Ptime & Pmax & Pmin & Prain & Pwind & Pcode & _).
  rewrite (formatForecast_series daily _ _ _ _ _ _ Htime Hmax Hmin Hrain Hwind Hcode
             Ptime Pmax Pmin Prain Pwind Pcode props Hdaily Plat Plon).
  now rewrite length_map, blocks_of_days.
Qed.

Lemma forecast_layout_witness :
  formatForecast mocked_forecast
  = Returns (forecast_header (num "52.52") (num "13.41")
             ++ join "" (map block_of
                           [ {| date := Str "2024-01-01"; high := num "5.3"; low := num "-1.2";
                                rain := num "0"; wind := num "12.5"; weather := num "3" |};
                             {| date := Str "2024-01-02"; high := num "6.1"; low := num "0.4";
                                rain := num "2.4"; wind := num "20.3"; weather := num "61" |} ])).
Proof.
  exact (proj1 (forecast_layout
                  [("latitude", num "52.52"); ("longitude", num "13.41");
                   ("daily", mocked_daily [num "5.3"; num "6.1"] [num "-1.2"; num "0.4"]
                               [num "0"; num "2.4"] [num "12.5"; num "20.3"]
                               [num "3"; num "61"])]
                  [("time", Arr [Str "2024-01-01"; Str "2024-01-02"]);
                   ("temperature_2m_max", Arr [num "5.3"; num "6.1"]);
                   ("temperature_2m_min", Arr [num "-1.2"; num "0.4"]);
                   ("precipitation_sum", Arr [num "0"; num "2.4"]);
                   ("wind_speed_10m_max", Arr [num "12.5"; num "20.3"]);
                   ("weather_code", Arr [num "3"; num "61"])]
                  [ {| date := Str "2024-01-01"; high := num "5.3"; low := num "-1.2";
                       rain := num "0"; wind := num "12.5"; weather := num "3" |};
                    {| date := Str "2024-01-02"; high := num "6.1"; low := num "0.4";
                       rain := num "2.4"; wind := num "20.3"; weather := num "61" |} ]
                  eq_refl eq_refl eq_refl eq_refl eq_refl eq_refl eq_refl
                  eq_refl eq_refl eq_refl)).
Defined.

Lemma get_forecast_fields (a b c d e : string) :
  let params := [("latitude", a); ("longitude", b); ("daily", c);
                 ("forecast_days", d); ("timezone", e)] in
  Url.get "latitude" params = Some a /\ Url.get "longitude" params = Some b.
Proof. split; reflexivity. Qed.

Lemma within_round_trip (lo hi x : number) :
  within lo hi x = true ->
  (StringToNumber (Number_toString x) =? x)%float = true
  /\ (StringToNumber (Number_toString x) = x \/ Prim2SF x = S754_zero true).
Proof.
  unfold within. intros H. apply andb_true_iff in H. destruct H as [H _].
  apply leb_not_nan in H. split.
  - now apply Number_round_trip_eqb.
  - destruct (Number_round_trip x) as [E | [E | E]]; auto.
    now apply is_nan_Prim2SF in H.
Qed.

(** C9: for every validated argument record of get_forecast, reading
    latitude, longitude and forecast_days back from the query of the built
    address gives numbers equal to the original ones.  Equal is the
    equality of numbers; the number read back is the very same float
    unless the original is the negative zero, which is written 0 and read
    back as zero. *)
Theorem forecast_request_round_trip (lat lon days : number) :
  within (-90) 90 lat = true ->
  within (-180) 180 lon = true ->
  within 1 16 days = true ->
  let address := Url.toString (forecastRequest lat lon days) in
  exists lat' lon' days',
    read_number "latitude" address = Some lat'
    /\ read_number "longitude" address = Some lon'
    /\ read_number "forecast_days" address = Some days'
    /\ ((lat' =? lat)%float = true /\ (lon' =? lon)%float = true
        /\ (days' =? days)%float = true)
    /\ (lat' = lat \/ Prim2SF lat = S754_zero true)
    /\ (lon' = lon \/ Prim2SF lon = S754_zero true)
    /\ days' = days.
Proof.
  intros Rlat Rlon Rdays address. subst address.
  unfold read_number. rewrite forecast_params, get_forecast_days.
  destruct (get_forecast_fields (Number_toString lat) (Number_toString lon)
              "temperature_2m_max,temperature_2m_min,precipitation_sum,wind_speed_10m_max,weather_code"
              (Number_toString days) "auto") as [-> ->].
  destruct (within_round_trip _ _ _ Rlat) as [Elat Ilat].
  destruct (within_round_trip _ _ _ Rlon) as [Elon Ilon].
  destruct (within_round_trip _ _ _ Rdays) as [Edays Idays].
  exists (StringToNumber (Number_toString lat)), (StringToNumber (Number_toString lon)),
    (StringToNumber (Number_toString days)).
  cbn [option_map]. repeat split; try assumption.
  destruct Idays as [E | Z]; [exact E | exfalso].
  unfold within in Rdays. apply andb_true_iff in Rdays. destruct Rdays as [L _].
  rewrite leb_spec in L. rewrite Z in L. vm_compute in L. discriminate L.
Qed.

Lemma forecast_request_round_trip_witness :
  within (-90) 90 52.52 = true /\ within (-180) 180 13.41 = true
  /\ within 1 16 7 = true
  /\ exists lat' lon' days',
       read_number "latitude" (Url.toString (forecastRequest 52.52 13.41 7)) = Some lat'
       /\ read_number "longitude" (Url.toString (forecastRequest 52.52 13.41 7)) = Some lon'
       /\ read_number "forecast_days" (Url.toString (forecastRequest 52.52 13.41 7))
          = Some days'
       /\ ((lat' =? 52.52)%float = true /\ (lon' =? 13.41)%float = true
           /\ (days' =? 7)%float = true)
       /\ (lat' = 52.52%float \/ Prim2SF 52.52 = S754_zero true)
       /\ (lon' = 13.41%float \/ Prim2SF 13.41 = S754_zero true)
       /\ days' = 7%float.
Proof.
  split; [reflexivity | ]. split; [reflexivity | ]. split; [reflexivity | ].
  exact (forecast_request_round_trip 52.52%float 13.41%float 7%float
           eq_refl eq_refl eq_refl).
Defined.

(** C10, as stated, fails: the fields are converted as they come.  For
    the body whose [current] holds the seven fields and whose time is an
    object with a key [toString], the formatter returns no text: the
    conversion of the time throws a TypeError. *)
Lemma unprintable_field_is_not_printed :
  formatCurrentWeather unprintable_current = Throws NotPrimitive
  /\ ~ (exists text, formatCurrentWeather unprintable_current = Returns text).
Proof.
  split; [vm_compute; reflexivity | ].
  intros (text & H). vm_compute in H. discriminate H.
Qed.

(** C10, amended: for every current-weather body with a [current] object,
    where latitude, longitude and the seven fields have a string (numbers,
    strings, booleans and null have one, and so has a field that is not
    there; an object with a key [toString] has none), the text is the
    header line
    [Current Weather for coordinates (<lat>, <lon>)], one blank line, then
    the seven lines Time, Temperature, Relative Humidity, Precipitation,
    Wind Speed, Wind Direction and Weather Code in that order with no
    blank line among them, and a single newline at the end. *)
Theorem current_weather_layout (props current : list (string * value)) :
  lookup "current" props = Obj current ->
  printable (lookup "latitude" props) = true ->
  printable (lookup "longitude" props) = true ->
  forallb (fun field => printable (lookup field current)) current_fields = true ->
  formatCurrentWeather (Obj props)
  = Returns ("Current Weather for coordinates (" ++ string_of (lookup "latitude" props)
             ++ ", " ++ string_of (lookup "longitude" props) ++ ")" ++ LF
             ++ LF
             ++ "Time: " ++ string_of (lookup "time" current) ++ LF
             ++ "Temperature: " ++ string_of (lookup "temperature_2m" current) ++ "°C" ++ LF
             ++ "Relative Humidity: " ++ string_of (lookup "relative_humidity_2m" current)
             ++ "%" ++ LF
             ++ "Precipitation: " ++ string_of (lookup "precipitation" current) ++ " mm" ++ LF
             ++ "Wind Speed: " ++ string_of (lookup "wind_speed_10m" current) ++ " km/h" ++ LF
             ++ "Wind Direction: " ++ string_of (lookup "wind_direction_10m" current)
             ++ "°" ++ LF
             ++ "Weather Code: " ++ string_of (lookup "weather_code" current) ++ LF)
  /\ formatCurrentWeather mocked_current = Returns mocked_current_text.
Proof.
  intros Hcurrent Plat Plon Pfields. split.
  - rewrite current_weather_text, Plat, Plon, Hcurrent. cbn [andb property_of].
    now rewrite Pfields.
  - vm_compute. reflexivity.
Qed.

Lemma current_weather_layout_witness :
  formatCurrentWeather
    (Obj [("latitude", num "-33.87"); ("longitude", num "151.21");
          ("current", Obj [("time", Str "2024-06-30T09:15");
                           ("temperature_2m", num "14");
                           ("relative_humidity_2m", num "60");
                           ("precipitation", num "0");
                           ("wind_speed_10m", num "7.9");
                           ("wind_direction_10m", num "185");
                           ("weather_code", num "1")])])
  = Returns "Current Weather for coordinates (-33.87, 151.21)

Time: 2024-06-30T09:15
Temperature: 14°C
Relative Humidity: 60%
Precipitation: 0 mm
Wind Speed: 7.9 km/h
Wind Direction: 185°
Weather Code: 1
".
Proof.
  pose proof (proj1 (current_weather_layout
                       [("latitude", num "-33.87"); ("longitude", num "151.21");
                        ("current", Obj [("time", Str "2024-06-30T09:15");
                                         ("temperature_2m", num "14");
                                         ("relative_humidity_2m", num "60");
                                         ("precipitation", num "0");
                                         ("wind_speed_10m", num "7.9");
                                         ("wind_direction_10m", num "185");
                                         ("weather_code", num "1")])]
                       [("time", Str "2024-06-30T09:15");
                        ("temperature_2m", num "14");
                        ("relative_humidity_2m", num "60");
                        ("precipitation", num "0");
                        ("wind_speed_10m", num "7.9");
                        ("wind_direction_10m", num "185");
                        ("weather_code", num "1")] eq_refl eq_refl eq_refl eq_refl)) as H.
  rewrite H. vm_compute. reflexivity.
Defined.

(** * Further properties of the code *)

(** ** What upstream can do to a call *)

(** The three calls with valid arguments: one request, and what the
    handler makes of the reply. *)
Lemma valid_calls (net : upstream) (lat lon days : number) (location : string) :
  within (-90) 90 lat = true ->
  within (-180) 180 lon = true ->
  within 1 16 days = true ->
  callTool net {| name := "get_forecast";
                  arguments := Obj [("latitude", Num lat); ("longitude", Num lon);
                                    ("forecast_days", Num days)] |}
  = ([Url.toString (forecastRequest lat lon days)],
     finish (reply net (Url.toString (forecastRequest lat lon days)) formatForecast
               "Open Meteo API error: "))
  /\ callTool net {| name := "get_current_weather";
                     arguments := Obj [("latitude", Num lat); ("longitude", Num lon)] |}
     = ([Url.toString (currentWeatherRequest lat lon)],
        finish (reply net (Url.toString (currentWeatherRequest lat lon))
                  formatCurrentWeather "Open Meteo API error: "))
  /\ callTool net {| name := "geocode"; arguments := Obj [("location", Str location)] |}
     = ([Url.toString (geocodeRequest location)],
        finish (reply net (Url.toString (geocodeRequest location))
                  (geocodeResults location) "Geocoding API error: ")).
Proof.
  intros Rlat Rlon Rdays.
  rewrite callTool_get_forecast, callTool_get_current_weather, callTool_geocode.
  rewrite (forecast_schema_valid
             [("latitude", Num lat); ("longitude", Num lon); ("forecast_days", Num days)]
             lat lon (Some days) eq_refl Rlat eq_refl Rlon eq_refl Rdays).
  rewrite (current_schema_valid [("latitude", Num lat); ("longitude", Num lon)]
             lat lon eq_refl Rlat eq_refl Rlon).
  change (GeocodeArgsSchema [] (Obj [("location", Str location)]))
    with (Zod.Ok {| GeocodeArgs.location := location |}).
  repeat split.
Qed.

(** X1: when upstream answers with a status that is not a success, each
    API function throws an Error whose message is its prefix followed by
    the status text of the response, after its one request; the body of
    the response is not read, and the handler passes the error of each of
    the three tools on as it is. *)
Theorem upstream_status_is_reported (net : upstream) (response : Response)
  (lat lon days : number) (location : string) :
  (forall url, net url = Some response) ->
  ok response = false ->
  within (-90) 90 lat = true ->
  within (-180) 180 lon = true ->
  within 1 16 days = true ->
  let weather := Error ("Open Meteo API error: " ++ statusText response) in
  let geocoding := Error ("Geocoding API error: " ++ statusText response) in
  (getForecast net lat lon (Some days)
   = ([Url.toString (forecastRequest lat lon days)], Throws weather)
   /\ getCurrentWeather net lat lon
      = ([Url.toString (currentWeatherRequest lat lon)], Throws weather)
   /\ geocodeLocation net location
      = ([Url.toString (geocodeRequest location)], Throws geocoding))
  /\ (callTool net {| name := "get_forecast";
                      arguments := Obj [("latitude", Num lat); ("longitude", Num lon);
                                        ("forecast_days", Num days)] |}
      = ([Url.toString (forecastRequest lat lon days)], Throws weather)
      /\ callTool net {| name := "get_current_weather";
                         arguments := Obj [("latitude", Num lat); ("longitude", Num lon)] |}
         = ([Url.toString (currentWeatherRequest lat lon)], Throws weather)
      /\ callTool net {| name := "geocode";
                         arguments := Obj [("location", Str location)] |}
         = ([Url.toString (geocodeRequest location)], Throws geocoding)).
Proof.
  intros Hnet Hok Rlat Rlon Rdays weather geocoding. subst weather geocoding.
  destruct (valid_calls net lat lon days location Rlat Rlon Rdays) as (-> & -> & ->).
  rewrite getForecast_run, getCurrentWeather_run, geocodeLocation_run.
  cbv zeta. unfold reply. rewrite !Hnet, Hok. repeat split.
Qed.

Lemma upstream_status_is_reported_witness :
  getForecast (responds {| ok := false; statusText := "Too Many Requests";
                           json := Some mocked_forecast |}) 52.52 13.41 (Some 3%float)
  = ([Url.toString (forecastRequest 52.52 13.41 3)],
     Throws (Error "Open Meteo API error: Too Many Requests"))
  /\ callTool (responds {| ok := false; statusText := "Too Many Requests";
                           json := Some mocked_forecast |})
       {| name := "get_current_weather";
          arguments := Obj [("latitude", Num 52.52); ("longitude", Num 13.41)] |}
     = ([Url.toString (currentWeatherRequest 52.52 13.41)],
        Throws (Error "Open Meteo API error: Too Many Requests")).
Proof.
  pose proof (upstream_status_is_reported
                (responds {| ok := false; statusText := "Too Many Requests";
                             json := Some mocked_forecast |})
                {| ok := false; statusText := "Too Many Requests";
                   json := Some mocked_forecast |}
                52.52%float 13.41%float 3%float "Berlin"
                (fun _ => eq_refl) eq_refl eq_refl eq_refl eq_refl)
    as ((Hforecast & _) & _ & Hcurrent & _).
  split; [exact Hforecast | exact Hcurrent].
Defined.

(** X2: when the request cannot be made at all, the rejection of [fetch]
    is what each API function throws: there is one attempt, no second
    one, and nothing is formatted.  The handler passes the rejection of
    each of the three tools on as it is. *)
Theorem network_failure_is_not_retried (net : upstream)
  (lat lon days : number) (location : string) :
  (forall url, net url = None) ->
  within (-90) 90 lat = true ->
  within (-180) 180 lon = true ->
  within 1 16 days = true ->
  (getForecast net lat lon (Some days)
   = ([Url.toString (forecastRequest lat lon days)], Throws FetchFailed)
   /\ getCurrentWeather net lat lon
      = ([Url.toString (currentWeatherRequest lat lon)], Throws FetchFailed)
   /\ geocodeLocation net location
      = ([Url.toString (geocodeRequest location)], Throws FetchFailed))
  /\ (callTool net {| name := "get_forecast";
                      arguments := Obj [("latitude", Num lat); ("longitude", Num lon);
                                        ("forecast_days", Num days)] |}
      = ([Url.toString (forecastRequest lat lon days)], Throws FetchFailed)
      /\ callTool net {| name := "get_current_weather";
                         arguments := Obj [("latitude", Num lat); ("longitude", Num lon)] |}
         = ([Url.toString (currentWeatherRequest lat lon)], Throws FetchFailed)
      /\ callTool net {| name := "geocode";
                         arguments := Obj [("location", Str location)] |}
         = ([Url.toString (geocodeRequest location)], Throws FetchFailed)).
Proof.
  intros Hnet Rlat Rlon Rdays.
  destruct (valid_calls net lat lon days location Rlat Rlon Rdays) as (-> & -> & ->).
  rewrite getForecast_run, getCurrentWeather_run, geocodeLocation_run.
  cbv zeta. unfold reply. rewrite !Hnet. repeat split.
Qed.

Lemma network_failure_is_not_retried_witness :
  getCurrentWeather unreachable 52.52 13.41
  = ([Url.toString (currentWeatherRequest 52.52 13.41)], Throws FetchFailed)
  /\ callTool unreachable
       {| name := "get_forecast";
          arguments := Obj [("latitude", Num 52.52); ("longitude", Num 13.41);
                            ("forecast_days", Num 7)] |}
     = ([Url.toString (forecastRequest 52.52 13.41 7)], Throws FetchFailed).
Proof.
  pose proof (network_failure_is_not_retried unreachable
                52.52%float 13.41%float 7%float "Berlin" (fun _ => eq_refl)
                eq_refl eq_refl eq_refl) as ((_ & Hcurrent & _) & Hforecast & _).
  split; [exact Hcurrent | exact Hforecast].
Defined.

(** X3: when the status is a success and the body is not JSON, the
    rejection of [response.json()] is what each API function throws, and
    the handler turns it into an API error message for none of the three
    tools. *)
Theorem unparsable_body_is_a_syntax_error (net : upstream) (response : Response)
  (lat lon days : number) (location : string) :
  (forall url, net url = Some response) ->
  ok response = true ->
  json response = None ->
  within (-90) 90 lat = true ->
  within (-180) 180 lon = true ->
  within 1 16 days = true ->
  (getForecast net lat lon (Some days)
   = ([Url.toString (forecastRequest lat lon days)], Throws SyntaxError)
   /\ getCurrentWeather net lat lon
      = ([Url.toString (currentWeatherRequest lat lon)], Throws SyntaxError)
   /\ geocodeLocation net location
      = ([Url.toString (geocodeRequest location)], Throws SyntaxError))
  /\ (callTool net {| name := "get_forecast";
                      arguments := Obj [("latitude", Num lat); ("longitude", Num lon);
                                        ("forecast_days", Num days)] |}
      = ([Url.toString (forecastRequest lat lon days)], Throws SyntaxError)
      /\ callTool net {| name := "get_current_weather";
                         arguments := Obj [("latitude", Num lat); ("longitude", Num lon)] |}
         = ([Url.toString (currentWeatherRequest lat lon)], Throws SyntaxError)
      /\ callTool net {| name := "geocode";
                         arguments := Obj [("location", Str location)] |}
         = ([Url.toString (geocodeRequest location)], Throws SyntaxError)).
Proof.
  intros Hnet Hok Hjson Rlat Rlon Rdays.
  destruct (valid_calls net lat lon days location Rlat Rlon Rdays) as (-> & -> & ->).
  rewrite getForecast_run, getCurrentWeather_run, geocodeLocation_run.
  cbv zeta. unfold reply, Response_json. rewrite !Hnet, Hok, Hjson. repeat split.
Qed.

Lemma unparsable_body_is_a_syntax_error_witness :
  geocodeLocation (responds {| ok := true; statusText := "OK"; json := None |}) "Berlin"
  = ([Url.toString (geocodeRequest "Berlin")], Throws SyntaxError)
  /\ callTool (responds {| ok := true; statusText := "OK"; json := None |})
       {| name := "get_forecast";
          arguments := Obj [("latitude", Num 52.52); ("longitude", Num 13.41);
                            ("forecast_days", Num 7)] |}
     = ([Url.toString (forecastRequest 52.52 13.41 7)], Throws SyntaxError).
Proof.
  pose proof (unparsable_body_is_a_syntax_error
                (responds {| ok := true; statusText := "OK"; json := None |})
                {| ok := true; statusText := "OK"; json := None |}
                52.52%float 13.41%float 7%float "Berlin"
                (fun _ => eq_refl) eq_refl eq_refl eq_refl eq_refl eq_refl)
    as ((_ & _ & Hgeocode) & Hforecast & _).
  split; [exact Hgeocode | exact Hforecast].
Defined.

(** ** What the formatters can throw *)

Lemma fails_as_formatter_Returns {A} (a : A) : fails_as_formatter (Returns a).
Proof. intros e H. discriminate H. Qed.

Lemma fails_as_formatter_bind {A B} (c : outcome A) (k : A -> outcome B) :
  fails_as_formatter c -> (forall a, fails_as_formatter (k a)) -> fails_as_formatter (bind c k).
Proof.
  intros Hc Hk e. destruct c as [a | e']; cbn [bind].
  - apply Hk.
  - intros H. apply Hc. now inversion H.
Qed.

Lemma fails_as_formatter_Get (v : value) (p : string) : fails_as_formatter (Get v p).
Proof. intros e. destruct v; cbn [Get]; intros H; inversion H; reflexivity. Qed.

Lemma fails_as_formatter_GetIndex (v : value) (i : nat) : fails_as_formatter (GetIndex v i).
Proof. intros e. destruct v; cbn [GetIndex]; intros H; inversion H; reflexivity. Qed.

Lemma fails_as_formatter_GetLength (v : value) : fails_as_formatter (GetLength v).
Proof.
  intros e. destruct v; cbn [GetLength Get bind]; intros H; inversion H; reflexivity.
Qed.

Lemma fails_as_formatter_iterate (v : value) : fails_as_formatter (iterate v).
Proof. intros e. destruct v; cbn [iterate]; intros H; inversion H; reflexivity. Qed.

Lemma fails_as_formatter_ToString (v : value) : fails_as_formatter (ToString v).
Proof.
  intros e. unfold ToString. destruct (printable v); intros H; inversion H; reflexivity.
Qed.

Lemma fails_as_formatter_ToNumber (v : value) : fails_as_formatter (ToNumber v).
Proof.
  destruct v; cbn [ToNumber]; try apply fails_as_formatter_Returns;
    (apply fails_as_formatter_bind;
     [apply fails_as_formatter_ToString | intros s; apply fails_as_formatter_Returns]).
Qed.

Lemma fails_as_formatter_iterations (len : length_value) :
  fails_as_formatter (iterations len).
Proof.
  destruct len as [n | v]; cbn [iterations]; [apply fails_as_formatter_Returns | ].
  apply fails_as_formatter_bind;
    [apply fails_as_formatter_ToNumber | intros x; apply fails_as_formatter_Returns].
Qed.

Lemma fails_as_formatter_append_if_truthy (result : string) (v : value)
  (before after : string) :
  fails_as_formatter (append_if_truthy result v before after).
Proof.
  unfold append_if_truthy. destruct (ToBoolean v); [ | apply fails_as_formatter_Returns].
  apply fails_as_formatter_bind;
    [apply fails_as_formatter_ToString | intros s; apply fails_as_formatter_Returns].
Qed.

Lemma fails_as_formatter_at_index (daily : value) (field : string) (i : nat) :
  fails_as_formatter (at_index daily field i).
Proof.
  unfold at_index. apply fails_as_formatter_bind; [apply fails_as_formatter_Get | ].
  intros series. apply fails_as_formatter_GetIndex.
Qed.

Ltac reads :=
  repeat first
    [ apply fails_as_formatter_Returns
    | apply fails_as_formatter_Get
    | apply fails_as_formatter_GetLength
    | apply fails_as_formatter_iterate
    | apply fails_as_formatter_ToString
    | apply fails_as_formatter_iterations
    | apply fails_as_formatter_append_if_truthy
    | apply fails_as_formatter_at_index
    | apply fails_as_formatter_bind; [ | intros ? ] ].

Lemma fails_as_formatter_forecast_day (daily : value) (result : string) (i : nat) :
  fails_as_formatter (forecast_day daily result i).
Proof. unfold forecast_day. reads. Qed.

Lemma fails_as_formatter_for_loop (body : string -> nat -> outcome string) (indices : list nat) :
  (forall result i, fails_as_formatter (body result i)) ->
  forall result, fails_as_formatter (for_loop body result indices).
Proof.
  intros Hbody. induction indices as [ | i indices IH]; intros result; cbn [for_loop].
  - apply fails_as_formatter_Returns.
  - apply fails_as_formatter_bind; [apply Hbody | intros result'; apply IH].
Qed.

Lemma fails_as_formatter_formatForecast (data : value) : fails_as_formatter (formatForecast data).
Proof.
  unfold formatForecast. reads.
  match goal with |- fails_as_formatter (forecast_loop _ _ ?n) => destruct n end;
    cbn [forecast_loop].
  - apply fails_as_formatter_for_loop. apply fails_as_formatter_forecast_day.
  - apply fails_as_formatter_bind.
    + apply fails_as_formatter_for_loop. apply fails_as_formatter_forecast_day.
    + intros text e H. inversion H. reflexivity.
Qed.

Lemma fails_as_formatter_formatCurrentWeather (data : value) :
  fails_as_formatter (formatCurrentWeather data).
Proof. unfold formatCurrentWeather. reads. Qed.

Lemma fails_as_formatter_geocode_place (result : string) (place : value) :
  fails_as_formatter (geocode_place result place).
Proof. unfold geocode_place. reads. Qed.

Lemma fails_as_formatter_for_of (body : string -> value -> outcome string) (items : list value) :
  (forall result item, fails_as_formatter (body result item)) ->
  forall result, fails_as_formatter (for_of body result items).
Proof.
  intros Hbody. induction items as [ | item items IH]; intros result; cbn [for_of].
  - apply fails_as_formatter_Returns.
  - apply fails_as_formatter_bind; [apply Hbody | intros result'; apply IH].
Qed.

Lemma fails_as_formatter_geocodeResults (location : string) (data : value) :
  fails_as_formatter (geocodeResults location data).
Proof.
  unfold geocodeResults. apply fails_as_formatter_bind; [apply fails_as_formatter_Get | intros results].
  cbv zeta. destruct (negb (ToBoolean results)); [apply fails_as_formatter_Returns | ].
  apply fails_as_formatter_bind; [apply fails_as_formatter_GetLength | intros len].
  destruct (is_zero_length len); [apply fails_as_formatter_Returns | ].
  apply fails_as_formatter_bind; [apply fails_as_formatter_iterate | intros places].
  apply fails_as_formatter_for_of. apply fails_as_formatter_geocode_place.
Qed.

(** What [reply] throws: the rejection of [fetch], the status text, the
    rejection of [response.json()], or what the formatter throws. *)
Lemma reply_throws (net : upstream) (url : string) (format : value -> outcome string)
  (failure : string) (e : exn) :
  (forall data, fails_as_formatter (format data)) ->
  reply net url format failure = Throws e ->
  e = FetchFailed \/ e = SyntaxError
  \/ (exists status, e = Error (failure ++ status))
  \/ formatter_error e = true.
Proof.
  intros Hformat. unfold reply, Response_json.
  destruct (net url) as [response | ]; [ | intros H; inversion H; auto].
  destruct (ok response); [ | intros H; inversion H; eauto].
  destruct (json response) as [data | ]; cbn [bind]; [ | intros H; inversion H; auto].
  intros H. right. right. right. exact (Hformat data e H).
Qed.

(** The two shapes of a call: refused before any request, or one request
    and what became of it. *)
Lemma callTool_shape (net : upstream) (request : CallToolRequest) :
  (exists message,
     callTool net request = ([], Throws (Error message))
     /\ ((starts_with "Invalid arguments: " message = true
          /\ In (name request) ["get_forecast"; "get_current_weather"; "geocode"])
         \/ (message = "Unknown tool: " ++ name request
             /\ ~ In (name request) ["get_forecast"; "get_current_weather"; "geocode"])))
  \/ (exists url format failure,
        callTool net request = ([url], finish (reply net url format failure))
        /\ (failure = "Open Meteo API error: " \/ failure = "Geocoding API error: ")
        /\ (forall data, fails_as_formatter (format data))
        /\ In (name request) ["get_forecast"; "get_current_weather"; "geocode"]).
Proof.
  destruct request as [tool args].
  destruct (String.eqb tool "get_forecast") eqn:E1.
  { apply String.eqb_eq in E1. subst tool. rewrite callTool_get_forecast. cbn [name].
    destruct (GetForecastArgsSchema [] args) as [parsed | issues].
    - right. do 3 eexists. split; [reflexivity | ].
      split; [now left | ]. split; [apply fails_as_formatter_formatForecast | simpl; auto].
    - left. eexists. split; [reflexivity | left].
      split; [apply starts_with_app | simpl; auto]. }
  destruct (String.eqb tool "get_current_weather") eqn:E2.
  { apply String.eqb_eq in E2. subst tool. rewrite callTool_get_current_weather. cbn [name].
    destruct (GetCurrentWeatherArgsSchema [] args) as [parsed | issues].
    - right. do 3 eexists. split; [reflexivity | ].
      split; [now left | ]. split; [apply fails_as_formatter_formatCurrentWeather | simpl; auto].
    - left. eexists. split; [reflexivity | left].
      split; [apply starts_with_app | simpl; auto]. }
  destruct (String.eqb tool "geocode") eqn:E3.
  { apply String.eqb_eq in E3. subst tool. rewrite callTool_geocode. cbn [name].
    destruct (GeocodeArgsSchema [] args) as [parsed | issues].
    - right. do 3 eexists. split; [reflexivity | ].
      split; [now right | ]. split; [apply fails_as_formatter_geocodeResults | simpl; auto].
    - left. eexists. split; [reflexivity | left].
      split; [apply starts_with_app | simpl; auto]. }
  left. exists ("Unknown tool: " ++ tool). unfold callTool. cbn [name arguments].
  rewrite E1, E2, E3. split; [reflexivity | right; split; [reflexivity | ]].
  apply String.eqb_neq in E1, E2, E3. simpl. intros [H | [H | [H | []]]]; congruence.
Qed.

Lemma request_hosts (lat lon days : number) (location : string) :
  starts_with "https://api.open-meteo.com/v1/forecast?"
    (Url.toString (forecastRequest lat lon days)) = true
  /\ starts_with "https://api.open-meteo.com/v1/forecast?"
       (Url.toString (currentWeatherRequest lat lon)) = true
  /\ starts_with "https://geocoding-api.open-meteo.com/v1/search?"
       (Url.toString (geocodeRequest location)) = true.
Proof.
  split; [ | split].
  - change (Url.toString (forecastRequest lat lon days))
      with ("https://api.open-meteo.com/v1/forecast?"
            ++ Url.serialize (Url.searchParams (forecastRequest lat lon days))).
    apply starts_with_app.
  - change (Url.toString (currentWeatherRequest lat lon))
      with ("https://api.open-meteo.com/v1/forecast?"
            ++ Url.serialize (Url.searchParams (currentWeatherRequest lat lon))).
    apply starts_with_app.
  - change (Url.toString (geocodeRequest location))
      with ("https://geocoding-api.open-meteo.com/v1/search?"
            ++ Url.serialize (Url.searchParams (geocodeRequest location))).
    apply starts_with_app.
Qed.

(** ** The handler *)

(** X4: a call of any tool name other than the three of the switch, a
    name that differs only in case included, throws the Error
    [Unknown tool: <name>]; its arguments are not looked at and no request
    is made. *)
Theorem unknown_tool_is_refused (net : upstream) (tool : string) (args : value) :
  tool <> "get_forecast" ->
  tool <> "get_current_weather" ->
  tool <> "geocode" ->
  callTool net {| name := tool; arguments := args |}
  = ([], Throws (Error ("Unknown tool: " ++ tool))).
Proof.
  intros H1 H2 H3. apply String.eqb_neq in H1, H2, H3.
  unfold callTool. cbn [name arguments]. now rewrite H1, H2, H3.
Qed.

Lemma unknown_tool_is_refused_witness :
  callTool (answers mocked_weather)
    {| name := "Geocode"; arguments := Obj [("location", Str "Berlin")] |}
  = ([], Throws (Error "Unknown tool: Geocode")).
Proof.
  apply (unknown_tool_is_refused (answers mocked_weather) "Geocode"
           (Obj [("location", Str "Berlin")])); discriminate.
Defined.

(** X5: whatever the request and whatever upstream does, a call makes at
    most one request, and a request goes to one of the two Open Meteo
    addresses of the code and nowhere else. *)
Theorem at_most_one_request (net : upstream) (request : CallToolRequest) :
  (List.length (fst (callTool net request)) <= 1)%nat
  /\ forall url, In url (fst (callTool net request)) ->
       starts_with "https://api.open-meteo.com/v1/forecast?" url = true
       \/ starts_with "https://geocoding-api.open-meteo.com/v1/search?" url = true.
Proof.
  destruct request as [tool args].
  destruct (String.eqb tool "get_forecast") eqn:E1.
  { apply String.eqb_eq in E1. subst tool. rewrite callTool_get_forecast.
    destruct (GetForecastArgsSchema [] args) as [parsed | issues]; cbn [fst List.length In].
    - split; [apply le_n | intros url [<- | []]; left].
      exact (proj1 (request_hosts _ _ _ EmptyString)).
    - split; [apply Nat.le_0_1 | intros url []]. }
  destruct (String.eqb tool "get_current_weather") eqn:E2.
  { apply String.eqb_eq in E2. subst tool. rewrite callTool_get_current_weather.
    destruct (GetCurrentWeatherArgsSchema [] args) as [parsed | issues];
      cbn [fst List.length In].
    - split; [apply le_n | intros url [<- | []]; left].
      exact (proj1 (proj2 (request_hosts _ _ zero EmptyString))).
    - split; [apply Nat.le_0_1 | intros url []]. }
  destruct (String.eqb tool "geocode") eqn:E3.
  { apply String.eqb_eq in E3. subst tool. rewrite callTool_geocode.
    destruct (GeocodeArgsSchema [] args) as [parsed | issues]; cbn [fst List.length In].
    - split; [apply le_n | intros url [<- | []]; right].
      exact (proj2 (proj2 (request_hosts zero zero zero _))).
    - split; [apply Nat.le_0_1 | intros url []]. }
  unfold callTool. cbn [name arguments]. rewrite E1, E2, E3. cbn.
  split; [apply Nat.le_0_1 | intros url []].
Qed.


(** X6: a call that fails was either refused before any request, with
    an Error that starts [Invalid arguments: ] or is [Unknown tool: <name>],
    or it made its one request and throws the rejection of [fetch], the
    rejection of [response.json()], the API error with the status text,
    or an error of the formatter: the TypeError of a read or of a
    conversion to a string, or the RangeError of a text that has grown too
    long.  The ZodError of a schema never leaves the handler. *)
Theorem call_failures (net : upstream) (request : CallToolRequest) (e : exn) :
  snd (callTool net request) = Throws e ->
  (fst (callTool net request) = []
   /\ exists message,
        e = Error message
        /\ (starts_with "Invalid arguments: " message = true
            \/ message = "Unknown tool: " ++ name request))
  \/ (List.length (fst (callTool net request)) = 1%nat
      /\ (e = FetchFailed \/ e = SyntaxError
          \/ (exists status, e = Error ("Open Meteo API error: " ++ status))
          \/ (exists status, e = Error ("Geocoding API error: " ++ status))
          \/ is_TypeError e = true
          \/ e = RangeError)).
Proof.
  destruct (callTool_shape net request)
    as [(message & -> & H) | (url & format & failure & -> & Hfailure & Hformat & _)];
    cbn [fst snd].
  - intros E. inversion E. subst e. left. split; [reflexivity | ].
    exists message. split; [reflexivity | tauto].
  - intros E. right. split; [reflexivity | ].
    unfold finish in E.
    destruct (reply net url format failure) as [text | e'] eqn:R; try discriminate E.
    inversion E. subst e. clear E.
    destruct (reply_throws _ _ _ _ _ Hformat R) as [-> | [-> | [(status & ->) | T]]].
    + now left.
    + right. now left.
    + cbn [rethrow]. destruct Hfailure as [-> | ->]; eauto 6.
    + destruct e'; try discriminate T; cbn [rethrow is_TypeError]; auto 7.
Qed.

Lemma call_failures_witness :
  snd (callTool (responds {| ok := false; statusText := "Bad Gateway"; json := None |})
         {| name := "geocode"; arguments := Obj [("location", Str "Berlin")] |})
  = Throws (Error "Geocoding API error: Bad Gateway")
  /\ List.length
       (fst (callTool (responds {| ok := false; statusText := "Bad Gateway"; json := None |})
               {| name := "geocode"; arguments := Obj [("location", Str "Berlin")] |}))
     = 1%nat.
Proof.
  split; [reflexivity | ].
  destruct (call_failures (responds {| ok := false; statusText := "Bad Gateway"; json := None |})
              {| name := "geocode"; arguments := Obj [("location", Str "Berlin")] |}
              (Error "Geocoding API error: Bad Gateway") eq_refl)
    as [(H & _) | (H & _)]; [discriminate H | exact H].
Defined.

(** X7: the names that the tool list gives are the names that the handler
    of calls knows: a call throws [Unknown tool: <name>] exactly when its
    name is not one of the listed names. *)
Theorem listed_tools_are_handled (net : upstream) (tool : string) (args : value) :
  tool_names ListTools = ["get_forecast"; "get_current_weather"; "geocode"]
  /\ (In tool (tool_names ListTools)
      <-> snd (callTool net {| name := tool; arguments := args |})
          <> Throws (Error ("Unknown tool: " ++ tool))).
Proof.
  split; [reflexivity | ].
  change (tool_names ListTools) with ["get_forecast"; "get_current_weather"; "geocode"].
  destruct (callTool_shape net {| name := tool; arguments := args |})
    as [(message & E & H) | (url & format & failure & E & Hfailure & Hformat & Hin)];
    rewrite E; cbn [fst snd name] in *.
  - destruct H as [(H & Hin) | (-> & Hout)].
    + split; [intros _ | intros _; exact Hin].
      intros C. inversion C. subst message. discriminate H.
    + split; [intros I; contradiction | intros C; now contradiction C].
  - split; [intros _ | intros _; exact Hin].
    unfold finish. destruct (reply net url format failure) as [text | e] eqn:R;
      try discriminate.
    intros C. inversion C as [C']. clear C.
    destruct (reply_throws _ _ _ _ _ Hformat R) as [-> | [-> | [(status & ->) | T]]];
      try discriminate C'.
    + destruct Hfailure as [-> | ->]; discriminate C'.
    + destruct e; discriminate.
Qed.

(** ** What the schemas accept *)

Lemma valid_number_Num (lo hi : number) (v : value) :
  valid_number lo hi v = true -> exists x, v = Num x /\ within lo hi x = true.
Proof. destruct v; try discriminate. intros H. eauto. Qed.

(** X8: get_forecast sends its request exactly when latitude is a number
    in [-90, 90], longitude is a number in [-180, 180] and forecast_days
    is absent or a number in [1, 16], whole or not; the request then
    carries these numbers, and 7 for an absent forecast_days.  In every
    other case (a number given as a string, null, NaN, a value out of
    range) the call fails with InvalidArguments and sends nothing. *)
Theorem forecast_arguments (net : upstream) (props : list (string * value)) :
  let call := callTool net {| name := "get_forecast"; arguments := Obj props |} in
  if valid_number (-90) 90 (lookup "latitude" props)
     && valid_number (-180) 180 (lookup "longitude" props)
     && match lookup "forecast_days" props with
        | Undefined => true
        | days => valid_number 1 16 days
        end
  then fst call
       = [Url.toString
            (forecastRequest (number_of (lookup "latitude" props))
               (number_of (lookup "longitude" props))
               match lookup "forecast_days" props with
               | Undefined => 7%float
               | days => number_of days
               end)]
  else fst call = [] /\ fails_with InvalidArguments call.
Proof.
  intros call. subst call. rewrite callTool_get_forecast.
  destruct (valid_number (-90) 90 (lookup "latitude" props)) eqn:Hlat; cbn [andb].
  - destruct (valid_number (-180) 180 (lookup "longitude" props)) eqn:Hlon; cbn [andb].
    + apply valid_number_Num in Hlat, Hlon.
      destruct Hlat as (lat & Elat & Rlat). destruct Hlon as (lon & Elon & Rlon).
      destruct (lookup "forecast_days" props) as [ | | b | d | s | l | o] eqn:Edays;
        try (destruct (forecast_schema_invalid props) as [i ->];
             [right; right; rewrite Edays; split; [discriminate | reflexivity]
             | split; [reflexivity | apply invalid_call]]).
      * rewrite (forecast_schema_valid props lat lon None Elat Rlat Elon Rlon Edays I).
        rewrite Elat, Elon. reflexivity.
      * destruct (valid_number 1 16 (Num d)) eqn:Rdays.
        -- rewrite (forecast_schema_valid props lat lon (Some d) Elat Rlat Elon Rlon Edays Rdays).
           rewrite Elat, Elon. reflexivity.
        -- destruct (forecast_schema_invalid props) as [i ->];
             [right; right; rewrite Edays; split; [discriminate | exact Rdays]
             | split; [reflexivity | apply invalid_call]].
    + destruct (forecast_schema_invalid props) as [i ->]; [auto | ].
      split; [reflexivity | apply invalid_call].
  - destruct (forecast_schema_invalid props) as [i ->]; [auto | ].
    split; [reflexivity | apply invalid_call].
Qed.

(** X9: a call depends on its arguments only through the keys that the
    schema of its tool names: two argument objects that agree on these
    keys give the same call, whatever else they hold.  So a key the schema
    does not name is ignored, not refused, and get_current_weather ignores
    forecast_days. *)
Theorem other_arguments_are_ignored (net : upstream) (tool : string)
  (props props' : list (string * value)) :
  (forall key, In key (arguments_read tool) -> lookup key props = lookup key props') ->
  callTool net {| name := tool; arguments := Obj props |}
  = callTool net {| name := tool; arguments := Obj props' |}.
Proof.
  unfold arguments_read. intros H.
  destruct (String.eqb tool "get_forecast") eqn:E1.
  { apply String.eqb_eq in E1. subst tool. rewrite !callTool_get_forecast.
    unfold GetForecastArgsSchema, Zod.object, Zod.field.
    now rewrite !H by (simpl; auto). }
  destruct (String.eqb tool "get_current_weather") eqn:E2.
  { apply String.eqb_eq in E2. subst tool. rewrite !callTool_get_current_weather.
    unfold GetCurrentWeatherArgsSchema, Zod.object, Zod.field.
    now rewrite !H by (simpl; auto). }
  destruct (String.eqb tool "geocode") eqn:E3.
  { apply String.eqb_eq in E3. subst tool. rewrite !callTool_geocode.
    unfold GeocodeArgsSchema, Zod.object, Zod.field.
    now rewrite !H by (simpl; auto). }
  unfold callTool. cbn [name arguments]. now rewrite E1, E2, E3.
Qed.

Lemma other_arguments_are_ignored_witness :
  callTool (answers mocked_weather)
    {| name := "get_current_weather";
       arguments := Obj [("latitude", Num 52.52); ("longitude", Num 13.41)] |}
  = callTool (answers mocked_weather)
      {| name := "get_current_weather";
         arguments := Obj [("forecast_days", Str "many"); ("latitude", Num 52.52);
                           ("units", Str "imperial"); ("longitude", Num 13.41)] |}.
Proof.
  apply (other_arguments_are_ignored (answers mocked_weather) "get_current_weather"
           [("latitude", Num 52.52); ("longitude", Num 13.41)]
           [("forecast_days", Str "many"); ("latitude", Num 52.52);
            ("units", Str "imperial"); ("longitude", Num 13.41)]).
  intros key [<- | [<- | []]]; reflexivity.
Defined.

(** X10: for each of the three tools, arguments that are not an object
    (left out, null, a list, a string, a number) are refused before any
    request.  The issue has the empty path, so the message reads
    [Invalid arguments: : Required] when the arguments are left out and
    [Invalid arguments: : Expected object, received <type>] otherwise. *)
Theorem arguments_must_be_an_object (net : upstream) (tool : string) (args : value) :
  In tool ["get_forecast"; "get_current_weather"; "geocode"] ->
  (forall props, args <> Obj props) ->
  callTool net {| name := tool; arguments := args |}
  = ([], Throws (Error ("Invalid arguments: : "
                        ++ match args with
                           | Undefined => "Required"
                           | _ => "Expected object, received " ++ Zod.parsed_type args
                           end))).
Proof.
  intros [<- | [<- | [<- | []]]] H;
    rewrite ?callTool_get_forecast, ?callTool_get_current_weather, ?callTool_geocode;
    destruct args; try reflexivity; exfalso; eapply H; reflexivity.
Qed.

Lemma arguments_must_be_an_object_witness :
  callTool (answers mocked_weather) {| name := "geocode"; arguments := Undefined |}
  = ([], Throws (Error "Invalid arguments: : Required"))
  /\ callTool (answers mocked_weather)
       {| name := "get_forecast"; arguments := Arr [Num 52.52; Num 13.41] |}
     = ([], Throws (Error "Invalid arguments: : Expected object, received array")).
Proof.
  split.
  - apply (arguments_must_be_an_object (answers mocked_weather) "geocode" Undefined);
      [simpl; auto | discriminate].
  - apply (arguments_must_be_an_object (answers mocked_weather) "get_forecast"
             (Arr [Num 52.52; Num 13.41])); [simpl; auto | discriminate].
Defined.

(** X11: validation reports every issue, in the order of the keys of the
    schema and joined by a comma: when latitude and longitude are both
    missing, get_forecast and get_current_weather throw
    [Invalid arguments: latitude: Required, longitude: Required] and send
    nothing. *)
Theorem missing_coordinates_are_both_reported (net : upstream)
  (props : list (string * value)) :
  lookup "latitude" props = Undefined ->
  lookup "longitude" props = Undefined ->
  lookup "forecast_days" props = Undefined ->
  callTool net {| name := "get_forecast"; arguments := Obj props |}
  = ([], Throws (Error "Invalid arguments: latitude: Required, longitude: Required"))
  /\ callTool net {| name := "get_current_weather"; arguments := Obj props |}
     = ([], Throws (Error "Invalid arguments: latitude: Required, longitude: Required")).
Proof.
  intros Hlat Hlon Hdays. rewrite callTool_get_forecast, callTool_get_current_weather.
  unfold GetForecastArgsSchema, GetCurrentWeatherArgsSchema, Zod.object, Zod.field.
  rewrite Hlat, Hlon, Hdays. split; reflexivity.
Qed.

Lemma missing_coordinates_are_both_reported_witness :
  callTool unreachable
    {| name := "get_forecast"; arguments := Obj [("location", Str "Berlin")] |}
  = ([], Throws (Error "Invalid arguments: latitude: Required, longitude: Required")).
Proof.
  exact (proj1 (missing_coordinates_are_both_reported unreachable
                  [("location", Str "Berlin")] eq_refl eq_refl eq_refl)).
Defined.

Lemma ltb_not_nan (x y : float) : (x <? y)%float = true -> is_nan y = false.
Proof.
  rewrite ltb_spec. unfold is_nan. rewrite eqb_spec. unfold SFltb, SFeqb.
  intros H.
  rewrite SFcompare_refl; [reflexivity | ].
  intros E. rewrite E in H. destruct (Prim2SF x); discriminate.
Qed.

Lemma above_90 (x : float) : (90 <? x)%float = true -> (x <? -90)%float = false.
Proof.
  rewrite !ltb_spec. unfold SFltb.
  remember (Prim2SF 90) as a eqn:Ea. vm_compute in Ea. subst a.
  remember (Prim2SF (-90)) as b eqn:Eb. vm_compute in Eb. subst b.
  destruct (Prim2SF x) as [s | s | | s m e]; try destruct s; cbn [SFcompare];
    congruence.
Qed.

(** X12: a latitude above 90, with the other arguments valid, is refused
    by get_forecast and get_current_weather with the message
    [Invalid arguments: latitude: Number must be less than or equal to 90];
    nothing is sent and the value is not clamped. *)
Theorem latitude_above_90_message (net : upstream) (props : list (string * value))
  (lat lon : number) :
  lookup "latitude" props = Num lat ->
  (90 <? lat)%float = true ->
  lookup "longitude" props = Num lon ->
  within (-180) 180 lon = true ->
  lookup "forecast_days" props = Undefined ->
  callTool net {| name := "get_forecast"; arguments := Obj props |}
  = ([], Throws (Error "Invalid arguments: latitude: Number must be less than or equal to 90"))
  /\ callTool net {| name := "get_current_weather"; arguments := Obj props |}
     = ([], Throws (Error "Invalid arguments: latitude: Number must be less than or equal to 90")).
Proof.
  intros Hlat Rlat Hlon Rlon Hdays.
  rewrite callTool_get_forecast, callTool_get_current_weather.
  unfold GetForecastArgsSchema, GetCurrentWeatherArgsSchema, Zod.object, Zod.field.
  rewrite Hlat, Hlon, Hdays. rewrite (number_accepts _ _ _ _ Rlon).
  unfold Zod.number at 1 3. rewrite (ltb_not_nan _ _ Rlat).
  unfold flat_map, Zod.run_check. rewrite Rlat, (above_90 _ Rlat).
  split; vm_compute; reflexivity.
Qed.

Lemma latitude_above_90_message_witness :
  (90 <? 90.5)%float = true
  /\ callTool unreachable
       {| name := "get_current_weather";
          arguments := Obj [("latitude", Num 90.5); ("longitude", Num 0)] |}
     = ([], Throws (Error "Invalid arguments: latitude: Number must be less than or equal to 90")).
Proof.
  split; [reflexivity | ].
  exact (proj2 (latitude_above_90_message unreachable
                  [("latitude", Num 90.5); ("longitude", Num 0)] 90.5%float 0%float
                  eq_refl eq_refl eq_refl eq_refl eq_refl)).
Defined.

(** ** The geocoding text *)

Lemma join_cons (block : string) (blocks : list string) :
  join "" (block :: blocks) = block ++ join "" blocks.
Proof.
  unfold join. destruct blocks; simpl; [now rewrite append_empty | reflexivity].
Qed.

Lemma geocode_place_block (result : string) (place : list (string * value)) :
  printable_place place = true ->
  geocode_place result (Obj place) = Returns (result ++ place_block place).
Proof.
  unfold printable_place. cbn [forallb]. rewrite !andb_true_iff.
  intros (Pname & Padmin1 & Pcountry & Platitude & Plongitude & Pelevation & _).
  unfold geocode_place, append_if_truthy, Get. cbn [bind].
  rewrite !ToString_printable by assumption.
  unfold place_block, place_line, coordinates_line, elevation_line.
  destruct (ToBoolean (lookup "admin1" place)), (ToBoolean (lookup "country" place)),
    (ToBoolean (lookup "elevation" place));
    cbn [bind]; now rewrite ?append_assoc, ?append_empty.
Qed.

Lemma for_of_blocks (places : list (list (string * value))) :
  forallb printable_place places = true ->
  forall result,
    for_of geocode_place result (map Obj places)
    = Returns (result ++ join "" (map place_block places)).
Proof.
  induction places as [ | place places IH]; intros P result; cbn [map for_of].
  - now rewrite append_empty.
  - cbn [forallb] in P. apply andb_prop in P as [Pplace Pplaces].
    rewrite geocode_place_block by exact Pplace. cbn [bind].
    rewrite IH by exact Pplaces. rewrite join_cons. now rewrite append_assoc.
Qed.

(** X13: when [results] is a list of places whose values have a string,
    as numbers, strings, booleans and null have, the geocoding text is the
    no-results line for the empty list and otherwise the header
    [Geocoding results for <location in double quotes>:], a blank line, and
    one block per place in the order of the list, as many as upstream
    sends.  A block is the name with [, admin1] and [, country] where the
    place has them, the line of the coordinates, the line of the elevation
    where the place has one, and a blank line. *)
Theorem geocode_layout (location : string) (props : list (string * value))
  (places : list (list (string * value))) :
  lookup "results" props = Arr (map Obj places) ->
  forallb printable_place places = true ->
  geocodeResults location (Obj props)
  = Returns match places with
            | [] => "No results found for location: " ++ location
            | _ => geocode_header location ++ join "" (map place_block places)
            end.
Proof.
  intros H P. unfold geocodeResults, Get. cbn [bind]. rewrite H.
  cbn [ToBoolean negb GetLength bind is_zero_length]. rewrite length_map.
  destruct places as [ | place places]; [reflexivity | ].
  cbn [List.length Nat.eqb iterate bind]. cbv zeta.
  rewrite for_of_blocks by exact P. reflexivity.
Qed.

Lemma geocode_layout_witness :
  geocodeResults "Springfield"
    (Obj [("results",
           Arr [Obj [("name", Str "Springfield"); ("admin1", Str "Illinois");
                     ("country", Str "United States"); ("latitude", num "39.8");
                     ("longitude", num "-89.64"); ("elevation", num "181")];
                Obj [("name", Str "Springfield"); ("latitude", num "-43.34");
                     ("longitude", num "171.93"); ("elevation", num "0")]])])
  = Returns ("Geocoding results for " ++ DQUOTE ++ "Springfield" ++ DQUOTE ++ ":

Springfield, Illinois, United States
  Coordinates: 39.8, -89.64
  Elevation: 181m

Springfield
  Coordinates: -43.34, 171.93

").
Proof.
  pose proof (geocode_layout "Springfield"
                [("results",
                  Arr [Obj [("name", Str "Springfield"); ("admin1", Str "Illinois");
                            ("country", Str "United States"); ("latitude", num "39.8");
                            ("longitude", num "-89.64"); ("elevation", num "181")];
                       Obj [("name", Str "Springfield"); ("latitude", num "-43.34");
                            ("longitude", num "171.93"); ("elevation", num "0")]])]
                [[("name", Str "Springfield"); ("admin1", Str "Illinois");
                  ("country", Str "United States"); ("latitude", num "39.8");
                  ("longitude", num "-89.64"); ("elevation", num "181")];
                 [("name", Str "Springfield"); ("latitude", num "-43.34");
                  ("longitude", num "171.93"); ("elevation", num "0")]]
                eq_refl eq_refl) as H.
  rewrite H. vm_compute. reflexivity.
Defined.

(** X14: a place whose elevation is 0 (or -0), and whose other values
    have a string, is printed without the line of the elevation, as a
    place that has none. *)
Theorem sea_level_elevation_is_not_printed (result : string)
  (place : list (string * value)) (elevation : number) :
  lookup "elevation" place = Num elevation ->
  (elevation =? 0)%float = true ->
  forallb (fun field => printable (lookup field place))
    ["name"; "admin1"; "country"; "latitude"; "longitude"] = true ->
  geocode_place result (Obj place)
  = Returns (result ++ place_line place ++ coordinates_line place ++ LF).
Proof.
  intros H Z P.
  assert (P' : printable_place place = true).
  { unfold printable_place. cbn [forallb] in *. rewrite H. cbn [printable].
    rewrite !andb_true_iff in *. tauto. }
  rewrite geocode_place_block by exact P'. unfold place_block, elevation_line.
  rewrite H. cbn [ToBoolean].
  assert (E : is_zero elevation = true).
  { unfold is_zero. exact Z. }
  rewrite E, orb_true_r. reflexivity.
Qed.

Lemma sea_level_elevation_is_not_printed_witness :
  geocode_place "" (Obj [("name", Str "Amsterdam"); ("country", Str "Netherlands");
                         ("latitude", num "52.37"); ("longitude", num "4.89");
                         ("elevation", num "-0")])
  = Returns ("Amsterdam, Netherlands" ++ LF ++ "  Coordinates: 52.37, 4.89" ++ LF ++ LF).
Proof.
  pose proof (sea_level_elevation_is_not_printed ""
                [("name", Str "Amsterdam"); ("country", Str "Netherlands");
                 ("latitude", num "52.37"); ("longitude", num "4.89");
                 ("elevation", num "-0")] (StringToNumber "-0") eq_refl eq_refl eq_refl)
    as H.
  rewrite H. vm_compute. reflexivity.
Defined.

(** X15: every body whose [results] is absent or falsy (null, false, 0,
    the empty string), a body that is a list, a number, a string or a
    boolean among them, gives the no-results line. *)
Theorem falsy_results_read_as_no_results (location : string) (data results : value) :
  Get data "results" = Returns results ->
  ToBoolean results = false ->
  geocodeResults location data
  = Returns ("No results found for location: " ++ location).
Proof.
  intros H F. unfold geocodeResults. rewrite H. cbn [bind]. now rewrite F.
Qed.

Lemma falsy_results_read_as_no_results_witness :
  geocodeResults "Berlin" (Arr []) = Returns "No results found for location: Berlin"
  /\ geocodeResults "Berlin" (Obj [("results", Null)])
     = Returns "No results found for location: Berlin".
Proof.
  split.
  - exact (falsy_results_read_as_no_results "Berlin" (Arr []) Undefined eq_refl eq_refl).
  - exact (falsy_results_read_as_no_results "Berlin" (Obj [("results", Null)]) Null
             eq_refl eq_refl).
Defined.

(** ** The forecast text and the result of a call *)

Lemma throws_TypeError_bind {A B} (c : outcome A) (k : A -> outcome B) :
  throws_TypeError c -> throws_TypeError (bind c k).
Proof. intros (e & -> & T). exists e. now split. Qed.

Lemma throws_TypeError_later {A B} (c : outcome A) (k : A -> outcome B) :
  throws_TypeError c \/ (exists a, c = Returns a) ->
  (forall a, throws_TypeError (k a)) ->
  throws_TypeError (bind c k).
Proof.
  intros [H | (a & ->)] Hk; [now apply throws_TypeError_bind | apply Hk].
Qed.

Lemma at_index_cases (daily : list (string * value)) (field : string) (i : nat) :
  throws_TypeError (at_index (Obj daily) field i)
  \/ exists v, at_index (Obj daily) field i = Returns v.
Proof.
  unfold at_index, Get. cbn [bind].
  destruct (lookup field daily); cbn [GetIndex]; eauto;
    left; eexists; split; reflexivity.
Qed.

Lemma ToString_cases (v : value) :
  throws_TypeError (ToString v) \/ exists s, ToString v = Returns s.
Proof.
  unfold ToString. destruct (printable v); eauto.
  left. eexists. split; reflexivity.
Qed.

Lemma at_index_missing (daily : list (string * value)) (field : string) (i : nat) :
  lookup field daily = Undefined ->
  throws_TypeError (at_index (Obj daily) field i).
Proof.
  intros H. unfold at_index, Get. cbn [bind]. rewrite H.
  eexists. split; reflexivity.
Qed.

Lemma forecast_day_missing (daily : list (string * value)) (series result : string)
  (i : nat) :
  In series ["temperature_2m_max"; "temperature_2m_min"; "precipitation_sum";
             "wind_speed_10m_max"; "weather_code"] ->
  lookup series daily = Undefined ->
  throws_TypeError (forecast_day (Obj daily) result i).
Proof.
  intros Hin Hmissing. pose proof (at_index_missing daily series i Hmissing) as Hthrow.
  unfold forecast_day.
  destruct Hin as [<- | [<- | [<- | [<- | [<- | []]]]]];
    repeat first
      [ apply throws_TypeError_bind; exact Hthrow
      | apply throws_TypeError_later;
        [first [apply at_index_cases | apply ToString_cases] | intros ?] ].
Qed.

(** X16: when one of the five series other than [time] is missing from
    [daily], the forecast formatter throws a TypeError in its first turn
    as soon as there is a day: that of reading index 0 of undefined, or
    that of a conversion before it.  With no day in [time] the loop does
    not run and the header is returned.  Latitude and longitude are taken
    to have a string. *)
Theorem missing_series (props daily : list (string * value)) (times : list value)
  (series : string) :
  lookup "daily" props = Obj daily ->
  lookup "time" daily = Arr times ->
  In series ["temperature_2m_max"; "temperature_2m_min"; "precipitation_sum";
             "wind_speed_10m_max"; "weather_code"] ->
  lookup series daily = Undefined ->
  printable (lookup "latitude" props) = true ->
  printable (lookup "longitude" props) = true ->
  match times with
  | [] =>
      formatForecast (Obj props)
      = Returns (forecast_header (lookup "latitude" props) (lookup "longitude" props))
  | _ :: _ =>
      exists e, formatForecast (Obj props) = Throws e /\ is_TypeError e = true
  end.
Proof.
  intros Hdaily Htime Hin Hmissing Plat Plon.
  unfold formatForecast, Get. cbn [bind]. rewrite Hdaily, Htime.
  rewrite !ToString_printable by assumption.
  cbn [bind GetLength iterations forecast_loop].
  destruct times as [ | t times]; [reflexivity | ].
  cbn [List.length seq for_loop].
  apply throws_TypeError_bind. now apply forecast_day_missing with (series := series).
Qed.

Lemma missing_series_witness :
  (exists e,
     formatForecast
       (Obj [("latitude", num "52.52"); ("longitude", num "13.41");
             ("daily", Obj [("time", Arr [Str "2024-01-01"]);
                            ("temperature_2m_max", Arr [num "5.3"]);
                            ("temperature_2m_min", Arr [num "-1.2"]);
                            ("precipitation_sum", Arr [num "0"]);
                            ("wind_speed_10m_max", Arr [num "12.5"])])])
     = Throws e /\ is_TypeError e = true)
  /\ formatForecast
       (Obj [("latitude", num "52.52"); ("longitude", num "13.41");
             ("daily", Obj [("time", Arr [])])])
     = Returns (forecast_header (num "52.52") (num "13.41")).
Proof.
  split.
  - exact (missing_series
             [("latitude", num "52.52"); ("longitude", num "13.41");
              ("daily", Obj [("time", Arr [Str "2024-01-01"]);
                             ("temperature_2m_max", Arr [num "5.3"]);
                             ("temperature_2m_min", Arr [num "-1.2"]);
                             ("precipitation_sum", Arr [num "0"]);
                             ("wind_speed_10m_max", Arr [num "12.5"])])]
             [("time", Arr [Str "2024-01-01"]);
              ("temperature_2m_max", Arr [num "5.3"]);
              ("temperature_2m_min", Arr [num "-1.2"]);
              ("precipitation_sum", Arr [num "0"]);
              ("wind_speed_10m_max", Arr [num "12.5"])]
             [Str "2024-01-01"] "weather_code" eq_refl eq_refl
             (or_intror (or_intror (or_intror (or_intror (or_introl eq_refl))))) eq_refl
             eq_refl eq_refl).
  - exact (missing_series
             [("latitude", num "52.52"); ("longitude", num "13.41");
              ("daily", Obj [("time", Arr [])])]
             [("time", Arr [])] [] "weather_code" eq_refl eq_refl
             (or_intror (or_intror (or_intror (or_intror (or_introl eq_refl))))) eq_refl
             eq_refl eq_refl).
Defined.

(** X17: a call that succeeds made exactly one request, and its result
    holds exactly one content item, of type [text]. *)
Theorem success_is_one_text (net : upstream) (request : CallToolRequest)
  (result : CallToolResult) :
  snd (callTool net request) = Returns result ->
  List.length (fst (callTool net request)) = 1%nat
  /\ exists s, content result = [{| type := "text"; text := s |}].
Proof.
  destruct (callTool_shape net request)
    as [(message & -> & _) | (url & format & failure & -> & _)]; cbn [fst snd].
  - discriminate.
  - unfold finish. destruct (reply net url format failure) as [s | e]; try discriminate.
    intros H. inversion H. split; [reflexivity | ]. exists s. reflexivity.
Qed.

Lemma success_is_one_text_witness :
  snd (callTool (answers mocked_weather)
         {| name := "get_current_weather";
            arguments := Obj [("latitude", Num 52.52); ("longitude", Num 13.41)] |})
  = Returns (text_result mocked_current_text)
  /\ List.length
       (fst (callTool (answers mocked_weather)
               {| name := "get_current_weather";
                  arguments := Obj [("latitude", Num 52.52); ("longitude", Num 13.41)] |}))
     = 1%nat.
Proof.
  assert (H : snd (callTool (answers mocked_weather)
                     {| name := "get_current_weather";
                        arguments := Obj [("latitude", Num 52.52); ("longitude", Num 13.41)] |})
              = Returns (text_result mocked_current_text)) by (vm_compute; reflexivity).
  split; [exact H | ].
  exact (proj1 (success_is_one_text _ _ _ H)).
Defined.

(** ** The tool list and the schemas *)

Lemma forecast_sent_iff (net : upstream) (props : list (string * value)) :
  fst (callTool net {| name := "get_forecast"; arguments := Obj props |}) <> []
  <-> valid_number (-90) 90 (lookup "latitude" props) = true
      /\ valid_number (-180) 180 (lookup "longitude" props) = true
      /\ (lookup "forecast_days" props = Undefined
          \/ valid_number 1 16 (lookup "forecast_days" props) = true).
Proof.
  rewrite callTool_get_forecast. split.
  - intros Sent.
    destruct (valid_number (-90) 90 (lookup "latitude" props)) eqn:Hlat.
    + destruct (valid_number (-180) 180 (lookup "longitude" props)) eqn:Hlon.
      * destruct (valid_number 1 16 (lookup "forecast_days" props)) eqn:Hdays; [auto | ].
        destruct (lookup "forecast_days" props) eqn:E; auto;
          destruct (forecast_schema_invalid props) as [i Hi];
          try (rewrite Hi in Sent; now contradiction Sent);
          right; right; rewrite E; split; (discriminate || exact Hdays).
      * destruct (forecast_schema_invalid props) as [i Hi]; [auto | ].
        rewrite Hi in Sent. now contradiction Sent.
    + destruct (forecast_schema_invalid props) as [i Hi]; [auto | ].
      rewrite Hi in Sent. now contradiction Sent.
  - intros (Hlat & Hlon & Hdays).
    apply valid_number_Num in Hlat, Hlon.
    destruct Hlat as (lat & Elat & Rlat). destruct Hlon as (lon & Elon & Rlon).
    destruct Hdays as [Hdays | Hdays].
    + rewrite (forecast_schema_valid props lat lon None Elat Rlat Elon Rlon Hdays I).
      discriminate.
    + apply valid_number_Num in Hdays. destruct Hdays as (d & Ed & Rd).
      rewrite (forecast_schema_valid props lat lon (Some d) Elat Rlat Elon Rlon Ed Rd).
      discriminate.
Qed.

Lemma current_sent_iff (net : upstream) (props : list (string * value)) :
  fst (callTool net {| name := "get_current_weather"; arguments := Obj props |}) <> []
  <-> valid_number (-90) 90 (lookup "latitude" props) = true
      /\ valid_number (-180) 180 (lookup "longitude" props) = true.
Proof.
  rewrite callTool_get_current_weather. split.
  - intros Sent.
    destruct (valid_number (-90) 90 (lookup "latitude" props)) eqn:Hlat;
      [destruct (valid_number (-180) 180 (lookup "longitude" props)) eqn:Hlon; [auto | ] | ];
      destruct (current_schema_invalid props) as [i Hi]; auto;
      rewrite Hi in Sent; now contradiction Sent.
  - intros (Hlat & Hlon).
    apply valid_number_Num in Hlat, Hlon.
    destruct Hlat as (lat & Elat & Rlat). destruct Hlon as (lon & Elon & Rlon).
    rewrite (current_schema_valid props lat lon Elat Rlat Elon Rlon). discriminate.
Qed.

(** X18: the minimum and maximum that the tool list advertises for
    latitude, longitude and forecast_days are the bounds that validation
    enforces: get_forecast and get_current_weather send their request
    exactly when each argument is a number within its advertised range
    (forecast_days may also be absent). *)
Theorem advertised_bounds_are_enforced (net : upstream) (props : list (string * value)) :
  let bound tool key keyword :=
    number_of (property_of (advertised ListTools tool key) keyword) in
  let in_range tool key :=
    valid_number (bound tool key "minimum") (bound tool key "maximum") (lookup key props) in
  (fst (callTool net {| name := "get_forecast"; arguments := Obj props |}) <> []
   <-> in_range "get_forecast" "latitude" = true
       /\ in_range "get_forecast" "longitude" = true
       /\ (lookup "forecast_days" props = Undefined
           \/ in_range "get_forecast" "forecast_days" = true))
  /\ (fst (callTool net {| name := "get_current_weather"; arguments := Obj props |}) <> []
      <-> in_range "get_current_weather" "latitude" = true
          /\ in_range "get_current_weather" "longitude" = true).
Proof.
  intros bound in_range. subst bound in_range. cbv beta.
  change (number_of (property_of (advertised ListTools "get_forecast" "latitude") "minimum"))
    with (-90)%float.
  change (number_of (property_of (advertised ListTools "get_forecast" "latitude") "maximum"))
    with 90%float.
  change (number_of (property_of (advertised ListTools "get_forecast" "longitude") "minimum"))
    with (-180)%float.
  change (number_of (property_of (advertised ListTools "get_forecast" "longitude") "maximum"))
    with 180%float.
  change (number_of (property_of (advertised ListTools "get_forecast" "forecast_days")
                      "minimum")) with 1%float.
  change (number_of (property_of (advertised ListTools "get_forecast" "forecast_days")
                      "maximum")) with 16%float.
  change (number_of (property_of (advertised ListTools "get_current_weather" "latitude")
                      "minimum")) with (-90)%float.
  change (number_of (property_of (advertised ListTools "get_current_weather" "latitude")
                      "maximum")) with 90%float.
  change (number_of (property_of (advertised ListTools "get_current_weather" "longitude")
                      "minimum")) with (-180)%float.
  change (number_of (property_of (advertised ListTools "get_current_weather" "longitude")
                      "maximum")) with 180%float.
  split; [apply forecast_sent_iff | apply current_sent_iff].
Qed.

Lemma required_keys_cases (tool : string) :
  required_keys ListTools tool
  = if String.eqb "get_forecast" tool then ["latitude"; "longitude"]
    else if String.eqb "get_current_weather" tool then ["latitude"; "longitude"]
    else if String.eqb "geocode" tool then ["location"]
    else [].
Proof.
  unfold required_keys.
  change (property_of ListTools "tools")
    with (Arr match property_of ListTools "tools" with Arr l => l | _ => [] end).
  cbv beta iota.
  set (tools := match property_of ListTools "tools" with Arr l => l | _ => [] end).
  cbv [ListTools property_of lookup String.eqb Ascii.eqb Bool.eqb] in tools.
  subst tools. cbn [find property_of lookup string_of].
  change (("name" =? "name")%string) with true. cbv iota.
  change (string_of (Str "get_forecast")) with "get_forecast".
  destruct (String.eqb "get_forecast" tool); [reflexivity | ].
  cbn [find property_of lookup].
  change (string_of (Str "get_current_weather")) with "get_current_weather".
  destruct (String.eqb "get_current_weather" tool); [reflexivity | ].
  cbn [find property_of lookup].
  change (string_of (Str "geocode")) with "geocode".
  destruct (String.eqb "geocode" tool); reflexivity.
Qed.

(** X19: every key that the tool list advertises as required is
    required: a call of a listed tool whose arguments lack one of the
    required keys of that tool fails with InvalidArguments and sends
    nothing. *)
Theorem required_keys_are_required (net : upstream) (tool key : string)
  (props : list (string * value)) :
  In key (required_keys ListTools tool) ->
  lookup key props = Undefined ->
  fst (callTool net {| name := tool; arguments := Obj props |}) = []
  /\ fails_with InvalidArguments (callTool net {| name := tool; arguments := Obj props |}).
Proof.
  intros Hin Hkey. rewrite required_keys_cases in Hin.
  destruct (String.eqb "get_forecast" tool) eqn:E1.
  { apply String.eqb_eq in E1. subst tool. rewrite callTool_get_forecast.
    destruct (forecast_schema_invalid props) as [i ->];
      [ | split; [reflexivity | apply invalid_call]].
    destruct Hin as [<- | [<- | []]]; rewrite Hkey; auto. }
  destruct (String.eqb "get_current_weather" tool) eqn:E2.
  { apply String.eqb_eq in E2. subst tool. rewrite callTool_get_current_weather.
    destruct (current_schema_invalid props) as [i ->];
      [ | split; [reflexivity | apply invalid_call]].
    destruct Hin as [<- | [<- | []]]; rewrite Hkey; auto. }
  destruct (String.eqb "geocode" tool) eqn:E3; [ | contradiction Hin].
  apply String.eqb_eq in E3. subst tool. rewrite callTool_geocode.
  destruct Hin as [<- | []].
  unfold GeocodeArgsSchema, Zod.object, Zod.field. rewrite Hkey.
  split; [reflexivity | apply invalid_call].
Qed.

Lemma required_keys_are_required_witness :
  In "location" (required_keys ListTools "geocode")
  /\ fst (callTool (answers mocked_weather)
            {| name := "geocode"; arguments := Obj [("name", Str "Berlin")] |}) = [].
Proof.
  split; [left; reflexivity | ].
  exact (proj1 (required_keys_are_required (answers mocked_weather) "geocode" "location"
                  [("name", Str "Berlin")] (or_introl eq_refl) eq_refl)).
Defined.

(** X20: the default that the tool list advertises for forecast_days is
    the one that validation applies: a get_forecast call without
    forecast_days is the same call as the one with the advertised default
    given. *)
Theorem advertised_default_is_applied (net : upstream) (props : list (string * value)) :
  lookup "forecast_days" props = Undefined ->
  callTool net {| name := "get_forecast"; arguments := Obj props |}
  = callTool net
      {| name := "get_forecast";
         arguments :=
           Obj (("forecast_days",
                 property_of (advertised ListTools "get_forecast" "forecast_days") "default")
                :: props) |}.
Proof.
  intros Hdays. rewrite !callTool_get_forecast.
  unfold GetForecastArgsSchema, Zod.object, Zod.field.
  change (lookup "latitude" (("forecast_days", ?v) :: props))
    with (lookup "latitude" props).
  change (lookup "longitude" (("forecast_days", ?v) :: props))
    with (lookup "longitude" props).
  change (lookup "forecast_days" (("forecast_days", ?v) :: props)) with v.
  rewrite Hdays. reflexivity.
Qed.

Lemma advertised_default_is_applied_witness :
  callTool (answers mocked_weather)
    {| name := "get_forecast";
       arguments := Obj [("latitude", Num 52.52); ("longitude", Num 13.41)] |}
  = callTool (answers mocked_weather)
      {| name := "get_forecast";
         arguments := Obj [("forecast_days", Num 7); ("latitude", Num 52.52);
                           ("longitude", Num 13.41)] |}.
Proof.
  exact (advertised_default_is_applied (answers mocked_weather)
           [("latitude", Num 52.52); ("longitude", Num 13.41)] eq_refl).
Defined.

(** X21: whatever the arguments, a record that the get_forecast schema
    parses holds a latitude in [-90, 90], a longitude in [-180, 180] and a
    forecast_days that is present and in [1, 16]; so the handler never
    leaves forecast_days to the default of [getForecast]. *)
Theorem validated_arguments_are_in_range (args : value) (parsed : GetForecastArgs.t) :
  Zod.parse GetForecastArgsSchema args = Returns parsed ->
  within (-90) 90 (GetForecastArgs.latitude parsed) = true
  /\ within (-180) 180 (GetForecastArgs.longitude parsed) = true
  /\ exists days,
       GetForecastArgs.forecast_days parsed = Some days /\ within 1 16 days = true.
Proof.
  unfold Zod.parse.
  destruct (GetForecastArgsSchema [] args) as [p | issues] eqn:E; [ | discriminate].
  intros H. inversion H. subst p. clear H.
  destruct args as [ | | b | x | s | l | props]; try discriminate E.
  assert (Sent : fst (callTool unreachable
                        {| name := "get_forecast"; arguments := Obj props |}) <> []).
  { rewrite callTool_get_forecast, E. discriminate. }
  apply forecast_sent_iff in Sent. destruct Sent as (Hlat & Hlon & Hdays).
  apply valid_number_Num in Hlat, Hlon.
  destruct Hlat as (lat & Elat & Rlat). destruct Hlon as (lon & Elon & Rlon).
  destruct Hdays as [Hdays | Hdays].
  - rewrite (forecast_schema_valid props lat lon None Elat Rlat Elon Rlon Hdays I) in E.
    inversion E. cbn. repeat split; try assumption. exists 7%float. split; reflexivity.
  - apply valid_number_Num in Hdays. destruct Hdays as (d & Ed & Rd).
    rewrite (forecast_schema_valid props lat lon (Some d) Elat Rlat Elon Rlon Ed Rd) in E.
    inversion E. cbn. repeat split; try assumption. exists d. split; [reflexivity | exact Rd].
Qed.

Lemma validated_arguments_are_in_range_witness :
  Zod.parse GetForecastArgsSchema
    (Obj [("latitude", Num (-33.87)); ("longitude", Num 151.21); ("forecast_days", Num 2.5)])
  = Returns {| GetForecastArgs.latitude := (-33.87)%float;
               GetForecastArgs.longitude := 151.21%float;
               GetForecastArgs.forecast_days := Some 2.5%float |}
  /\ within 1 16 2.5 = true.
Proof.
  split; [vm_compute; reflexivity | ].
  destruct (validated_arguments_are_in_range
              (Obj [("latitude", Num (-33.87)); ("longitude", Num 151.21);
                    ("forecast_days", Num 2.5)])
              {| GetForecastArgs.latitude := (-33.87)%float;
                 GetForecastArgs.longitude := 151.21%float;
                 GetForecastArgs.forecast_days := Some 2.5%float |} eq_refl)
    as (_ & _ & days & E & R).
  injection E as <-. exact R.
Defined.

(** ** More on the formatters and the addresses *)

(** X22: the current-weather formatter throws the TypeError of a read
    exactly when the body is null or undefined or, latitude and longitude
    having a string, its [current] is; it throws the TypeError of a
    conversion exactly when latitude, longitude or, with a [current] to
    read, one of the seven fields has no string.  In every other case it
    returns the full layout, and a field that [current] does not hold is
    printed as the word [undefined]. *)
Theorem current_weather_text_needs_current (data : value) :
  formatCurrentWeather data
  = match data with
    | Undefined | Null => Throws (TypeError "latitude")
    | _ =>
        if printable (property_of data "latitude")
           && printable (property_of data "longitude")
        then match property_of data "current" with
             | Undefined | Null => Throws (TypeError "time")
             | current =>
                 if forallb (fun field => printable (property_of current field))
                      current_fields
                 then Returns (current_report (property_of data "latitude")
                                 (property_of data "longitude")
                                 match current with
                                 | Obj fields => fields
                                 | _ => []
                                 end)
                 else Throws NotPrimitive
             end
        else Throws NotPrimitive
    end.
Proof.
  destruct data as [ | | b | x | s | l | props]; try reflexivity.
  cbn [property_of]. apply current_weather_text.
Qed.

Lemma get_current_fields (a b c : string) :
  let params := [("latitude", a); ("longitude", b); ("current", c)] in
  Url.get "latitude" params = Some a /\ Url.get "longitude" params = Some b.
Proof. split; reflexivity. Qed.

(** X23: for every latitude and longitude within their bounds, reading
    them back from the query of the get_current_weather address gives
    numbers equal to the original ones (the same float, unless the
    original is the negative zero). *)
Theorem current_request_round_trip (lat lon : number) :
  within (-90) 90 lat = true ->
  within (-180) 180 lon = true ->
  let address := Url.toString (currentWeatherRequest lat lon) in
  exists lat' lon',
    read_number "latitude" address = Some lat'
    /\ read_number "longitude" address = Some lon'
    /\ ((lat' =? lat)%float = true /\ (lon' =? lon)%float = true)
    /\ (lat' = lat \/ Prim2SF lat = S754_zero true)
    /\ (lon' = lon \/ Prim2SF lon = S754_zero true).
Proof.
  intros Rlat Rlon address. subst address.
  unfold read_number. rewrite current_params.
  destruct (get_current_fields (Number_toString lat) (Number_toString lon)
              "temperature_2m,relative_humidity_2m,precipitation,wind_speed_10m,wind_direction_10m,weather_code")
    as [-> ->].
  destruct (within_round_trip _ _ _ Rlat) as [Elat Ilat].
  destruct (within_round_trip _ _ _ Rlon) as [Elon Ilon].
  exists (StringToNumber (Number_toString lat)), (StringToNumber (Number_toString lon)).
  cbn [option_map]. repeat split; assumption.
Qed.

Lemma current_request_round_trip_witness :
  within (-90) 90 (-33.87) = true /\ within (-180) 180 151.21 = true
  /\ exists lat' lon',
       read_number "latitude" (Url.toString (currentWeatherRequest (-33.87) 151.21))
       = Some lat'
       /\ read_number "longitude" (Url.toString (currentWeatherRequest (-33.87) 151.21))
          = Some lon'
       /\ ((lat' =? -33.87)%float = true /\ (lon' =? 151.21)%float = true)
       /\ (lat' = (-33.87)%float \/ Prim2SF (-33.87) = S754_zero true)
       /\ (lon' = 151.21%float \/ Prim2SF 151.21 = S754_zero true).
Proof.
  split; [reflexivity | ]. split; [reflexivity | ].
  exact (current_request_round_trip (-33.87)%float 151.21%float eq_refl eq_refl).
Defined.

Lemma bind_Returns {A B} (c : outcome A) (k : A -> outcome B) (b : B) :
  bind c k = Returns b -> exists a, c = Returns a /\ k a = Returns b.
Proof. destruct c as [a | e]; cbn [bind]; intros H; try discriminate H. eauto. Qed.

Lemma ToString_Returns (v : value) (s : string) :
  ToString v = Returns s -> s = string_of v.
Proof. unfold ToString. destruct (printable v); intros H; now inversion H. Qed.

Lemma forecast_day_appends (daily : value) (result : string) (i : nat) (result' : string) :
  forecast_day daily result i = Returns result' ->
  exists block, result' = result ++ block.
Proof.
  unfold forecast_day. intros H.
  repeat (apply bind_Returns in H; destruct H as (? & _ & H)).
  inversion H. rewrite !append_assoc. eauto.
Qed.

Lemma for_loop_appends (daily : value) (indices : list nat) :
  forall result text,
    for_loop (forecast_day daily) result indices = Returns text ->
    exists blocks, text = result ++ blocks.
Proof.
  induction indices as [ | i indices IH]; intros result text; cbn [for_loop].
  - intros H. inversion H. exists "". now rewrite append_empty.
  - intros H. apply bind_Returns in H. destruct H as (result' & Hday & H).
    apply forecast_day_appends in Hday. destruct Hday as (block & ->).
    apply IH in H. destruct H as (blocks & ->).
    exists (block ++ blocks). now rewrite append_assoc.
Qed.

(** X24: whatever the body, a text that the forecast formatter returns
    starts with the header line and the blank line after it: the loop
    only ever appends to what is there. *)
Theorem forecast_text_starts_with_the_header (data : value) (text : string) :
  formatForecast data = Returns text ->
  exists blocks,
    text = forecast_header (property_of data "latitude") (property_of data "longitude")
           ++ blocks.
Proof.
  unfold formatForecast. intros H.
  apply bind_Returns in H. destruct H as (latitude & Hlat & H).
  apply bind_Returns in H. destruct H as (longitude & Hlon & H).
  apply bind_Returns in H. destruct H as (daily & Hdaily & H).
  apply bind_Returns in H. destruct H as (lat & Slat & H).
  apply bind_Returns in H. destruct H as (lon & Slon & H).
  cbv zeta in H.
  apply bind_Returns in H. destruct H as (time & Htime & H).
  apply bind_Returns in H. destruct H as (len & Hlen & H).
  apply bind_Returns in H. destruct H as (bound & Hbound & H).
  apply ToString_Returns in Slat, Slon. subst lat lon.
  destruct bound as [n | ]; cbn [forecast_loop] in H.
  - apply for_loop_appends in H. destruct H as (blocks & ->).
    exists blocks. unfold forecast_header.
    destruct data as [ | | b | x | s | l | props]; try discriminate Hlat;
      cbn [Get property_of] in *; inversion Hlat; inversion Hlon; subst;
      try (inversion Hdaily; subst; discriminate Htime).
    now rewrite !append_assoc.
  - apply bind_Returns in H. destruct H as (? & _ & H). discriminate H.
Qed.

Lemma forecast_text_starts_with_the_header_witness :
  exists blocks,
    mocked_forecast_text = forecast_header (num "52.52") (num "13.41") ++ blocks.
Proof.
  apply (forecast_text_starts_with_the_header mocked_forecast mocked_forecast_text).
  vm_compute. reflexivity.
Defined.

(** ** Values without a string, and a loop without an end *)

(** X25: when the latitude or the longitude of a body has no string, the
    forecast formatter and the current-weather formatter both throw the
    TypeError of the conversion, whatever else the body holds: the header
    is built before [daily] or [current] is read. *)
Theorem coordinates_without_a_string (props : list (string * value)) :
  printable (lookup "latitude" props) && printable (lookup "longitude" props) = false ->
  formatForecast (Obj props) = Throws NotPrimitive
  /\ formatCurrentWeather (Obj props) = Throws NotPrimitive.
Proof.
  intros H. unfold formatForecast, formatCurrentWeather, ToString. cbn [Get bind].
  destruct (printable (lookup "latitude" props)); cbn [bind]; [ | now split].
  cbn [andb] in H. rewrite H. now split.
Qed.

Lemma coordinates_without_a_string_witness :
  formatForecast
    (Obj [("latitude", num "52.52"); ("longitude", Arr [Obj [("toString", Null)]]);
          ("daily", Obj [("time", Arr [])])])
  = Throws NotPrimitive.
Proof.
  exact (proj1 (coordinates_without_a_string
                  [("latitude", num "52.52"); ("longitude", Arr [Obj [("toString", Null)]]);
                   ("daily", Obj [("time", Arr [])])] eq_refl)).
Defined.

(** X26: when [daily.time] is an object whose [length] is infinite, the
    condition of the loop never fails and the forecast formatter returns
    no text: it throws a TypeError of its body or of the header, or else
    the RangeError of a text that has grown too long. *)
Theorem endless_series_is_not_printed (props daily time : list (string * value)) :
  lookup "daily" props = Obj daily ->
  lookup "time" daily = Obj time ->
  lookup "length" time = Num infinity ->
  exists e,
    formatForecast (Obj props) = Throws e /\ (is_TypeError e = true \/ e = RangeError).
Proof.
  intros Hdaily Htime Hlength. unfold formatForecast. cbn [Get bind].
  rewrite Hdaily. unfold ToString at 1.
  destruct (printable (lookup "latitude" props)); cbn [bind];
    [ | eexists; split; [reflexivity | now left]].
  unfold ToString at 1.
  destruct (printable (lookup "longitude" props)); cbn [bind];
    [ | eexists; split; [reflexivity | now left]].
  cbn [Get bind]. rewrite Htime. cbn [GetLength Get bind]. rewrite Hlength.
  cbn [iterations ToNumber bind].
  change (count_below infinity) with (@None nat). cbn [forecast_loop].
  match goal with
  | |- context [bind ?loop _] => destruct loop as [text | e] eqn:L
  end; cbn [bind].
  - eexists. split; [reflexivity | now right].
  - exists e. split; [reflexivity | ].
    pose proof (fails_as_formatter_for_loop _ _
                  (fails_as_formatter_forecast_day (Obj daily)) _ e L) as F.
    destruct e; try discriminate F; auto.
Qed.

Lemma endless_series_is_not_printed_witness :
  exists e,
    formatForecast
      (Obj [("latitude", num "52.52"); ("longitude", num "13.41");
            ("daily", Obj [("time", Obj [("length", Num infinity)]);
                           ("temperature_2m_max", Arr []);
                           ("temperature_2m_min", Arr []);
                           ("precipitation_sum", Arr []);
                           ("wind_speed_10m_max", Arr []);
                           ("weather_code", Arr [])])])
    = Throws e /\ (is_TypeError e = true \/ e = RangeError).
Proof.
  exact (endless_series_is_not_printed
           [("latitude", num "52.52"); ("longitude", num "13.41");
            ("daily", Obj [("time", Obj [("length", Num infinity)]);
                           ("temperature_2m_max", Arr []);
                           ("temperature_2m_min", Arr []);
                           ("precipitation_sum", Arr []);
                           ("wind_speed_10m_max", Arr []);
                           ("weather_code", Arr [])])]
           [("time", Obj [("length", Num infinity)]);
            ("temperature_2m_max", Arr []);
            ("temperature_2m_min", Arr []);
            ("precipitation_sum", Arr []);
            ("wind_speed_10m_max", Arr []);
            ("weather_code", Arr [])]
           [("length", Num infinity)] eq_refl eq_refl eq_refl).
Defined.
